(** * MalShare ETL connector: a shallow embedding of [etl_connector.py]

    The connector extracts sample metadata from the MalShare API, normalises
    it and upserts it into a MongoDB collection.  This file embeds the
    methods of [MalShareETLConnector] as Rocq functions and proves the
    properties of the retry loop, the extractor, the transformer, the loader
    and the orchestrator.

    Modelling conventions.
    - Python values are the inductive [pyval]; a [dict] is an insertion
      ordered association list with string keys, as [json] produces them.
    - Python [int] is [Z].  Python [float] is modelled by the rational it
      denotes ([Q]): every float computed by the connector is either a small
      quotient [k / 5] or a delay scaled by a power of two.  The floats
      [inf] and [nan] have no counterpart.
    - A [str] is a [string] whose characters are the code points below 256.
    - A call that may raise returns a [result]; the effects of the connector
      (outbound requests, sleeps, store writes) are threaded through a state
      and error monad [M] and recorded in a trace of events.
    - The third-party objects the connector talks to ([requests], [pymongo],
      the clock, [datetime.strptime]) are oracles: variables of the section,
      observed only through the attributes the connector reads.
    - [time.sleep] is an oracle as well: the runtime decides whether a
      duration is slept or rejected with an exception.
    - The logger is taken to return.  Log lines are not recorded, except the
      two that tell how a run ended (abort, summary); the arguments a log
      line formats are evaluated, since that can raise. *)

From Stdlib Require Import Bool List String Ascii NArith ZArith QArith Lia.
Import ListNotations.

Local Open Scope string_scope.
Local Open Scope Z_scope.

(** ** Python strings *)

Module PyStr.

(** [str.isspace] on one character (code points below 256). *)
Definition isspace (c : ascii) : bool :=
  let n := N_of_ascii c in
  ((9 <=? n) && (n <=? 13) || (28 <=? n) && (n <=? 32)
   || (n =? 133) || (n =? 160))%N.

(** [str.lower] on one character: A-Z and the Latin-1 capitals. *)
Definition lower_char (c : ascii) : ascii :=
  let n := N_of_ascii c in
  if ((65 <=? n) && (n <=? 90)
      || (192 <=? n) && (n <=? 222) && negb (n =? 215))%N
  then ascii_of_N (n + 32) else c.

Fixpoint lower (s : string) : string :=
  match s with
  | EmptyString => EmptyString
  | String c r => String (lower_char c) (lower r)
  end.

Fixpoint lstrip (s : string) : string :=
  match s with
  | EmptyString => EmptyString
  | String c r => if isspace c then lstrip r else s
  end.

Fixpoint rstrip (s : string) : string :=
  match s with
  | EmptyString => EmptyString
  | String c r =>
      match rstrip r with
      | EmptyString => if isspace c then EmptyString else String c EmptyString
      | r' => String c r'
      end
  end.

(** [s.strip()] *)
Definition strip (s : string) : string := rstrip (lstrip s).

(** [needle in hay] for two strings. *)
Fixpoint str_in (needle hay : string) : bool :=
  String.prefix needle hay
  || match hay with
     | EmptyString => false
     | String _ r => str_in needle r
     end.

(** [s.startswith(p)] *)
Definition startswith (s p : string) : bool := String.prefix p s.

(** [s.split(sep)] for a one-character separator. *)
Fixpoint split (sep : ascii) (s : string) : list string :=
  match s with
  | EmptyString => [EmptyString]
  | String c r =>
      if Ascii.eqb c sep then EmptyString :: split sep r
      else match split sep r with
           | h :: t => String c h :: t
           | [] => [String c EmptyString]
           end
  end.

Definition newline : ascii := ascii_of_N 10.

(** Truth value of a string: non-empty. *)
Definition nonempty (s : string) : bool :=
  match s with EmptyString => false | String _ _ => true end.

End PyStr.

(** ** Python values, exceptions and results *)

(** A [datetime] object: the calendar fields and whether it carries the UTC
    time zone ([datetime.now(timezone.utc)]) or is naive ([strptime]). *)
Record datetime : Type := mkDatetime {
  dt_year : Z; dt_month : Z; dt_day : Z;
  dt_hour : Z; dt_minute : Z; dt_second : Z; dt_microsecond : Z;
  dt_utc : bool
}.

#[warnings="-register-all"]
Inductive pyval : Type :=
| PNone
| PBool (b : bool)
| PInt (z : Z)
| PFloat (q : Q)
| PStr (s : string)
| PList (l : list pyval)
| PDict (d : list (string * pyval))
| PDatetime (t : datetime).

(** A [dict] with string keys. *)
Definition pydict : Type := list (string * pyval).

(** The exceptions the connector meets.  [RequestError] stands for
    [requests.exceptions.RequestException] and all of its subclasses
    (connection errors, timeouts, [HTTPError]); every constructor is a
    subclass of [Exception]. *)
Inductive exn : Type :=
| RequestError (kind : string)
| ValueError
| TypeError
| AttributeError
| KeyError (key : string)
| OverflowError
| OSError
| OtherError (name : string).

Definition is_request_exception (e : exn) : bool :=
  match e with RequestError _ => true | _ => false end.

Inductive result (A : Type) : Type :=
| Ok (a : A)
| Raise (e : exn).
Arguments Ok {A} a.
Arguments Raise {A} e.

(** [bool(v)] *)
Definition truthy (v : pyval) : bool :=
  match v with
  | PNone => false
  | PBool b => b
  | PInt z => negb (z =? 0)
  | PFloat q => negb (Qeq_bool q 0)
  | PStr s => PyStr.nonempty s
  | PList l => match l with [] => false | _ :: _ => true end
  | PDict d => match d with [] => false | _ :: _ => true end
  | PDatetime _ => true
  end.

(** *** Dictionaries *)

(** [d.get(k)], [None] when the key is absent. *)
Fixpoint dict_get {V : Type} (k : string) (d : list (string * V)) : option V :=
  match d with
  | [] => None
  | (k', v) :: r => if String.eqb k k' then Some v else dict_get k r
  end.

(** [k in d] *)
Definition dict_contains {V : Type} (k : string) (d : list (string * V)) : bool :=
  match dict_get k d with Some _ => true | None => false end.

(** [d.get(k, dflt)] *)
Definition dict_get_default {V : Type} (k : string) (dflt : V)
    (d : list (string * V)) : V :=
  match dict_get k d with Some v => v | None => dflt end.

(** [d[k] = v]: overwrite in place, or append a new key. *)
Fixpoint dict_set {V : Type} (k : string) (v : V) (d : list (string * V))
  : list (string * V) :=
  match d with
  | [] => [(k, v)]
  | (k', v') :: r =>
      if String.eqb k k' then (k, v) :: r else (k', v') :: dict_set k v r
  end.

(** [d.update(other)] *)
Definition dict_update {V : Type} (d other : list (string * V))
  : list (string * V) :=
  fold_left (fun acc '(k, v) => dict_set k v acc) other d.

(** [d[k]] *)
Definition dict_index (k : string) (d : pydict) : result pyval :=
  match dict_get k d with Some v => Ok v | None => Raise (KeyError k) end.

(** ** The transformer *)

Section Transformer.

(** [datetime.strptime(s, '%Y-%m-%d %H:%M:%S')] on a string; [None] stands
    for the [ValueError] of a string that does not match the format. *)
Variable strptime : string -> option datetime.

(** [_calculate_completeness]: the list of expected fields. *)
Definition expected_fields : list string :=
  ["MD5"; "SHA1"; "SHA256"; "F_TYPE"; "ADDED"].

(** [field in data and data[field]] *)
Definition field_present (data : pydict) (field : string) : bool :=
  dict_contains field data && truthy (dict_get_default field PNone data).

(** [sum(1 for field in expected_fields if field in data and data[field])] *)
Definition present_fields (data : pydict) : Z :=
  fold_left Z.add (map (fun _ => 1) (filter (field_present data) expected_fields)) 0.

Definition _calculate_completeness (data : pyval) : Q :=
  match data with
  | PDict d =>
      (inject_Z (present_fields d) / inject_Z (Z.of_nat (List.length expected_fields)))%Q
  | _ => 0%Q
  end.

(** [transform_data]: the provider field to canonical field table. *)
Definition field_mapping : list (string * string) :=
  [("MD5", "md5"); ("SHA1", "sha1"); ("SHA256", "sha256_confirmed");
   ("SSDEEP", "ssdeep"); ("F_TYPE", "file_type"); ("SOURCES", "sources");
   ("ADDED", "date_added")].

(** The metadata every record starts from (lines 208-214). *)
Definition metadata (raw_data : pyval) (sample_hash : string) (now : datetime)
  : pydict :=
  [("sha256", PStr sample_hash);
   ("ingestion_timestamp", PDatetime now);
   ("source", PStr "malshare_api");
   ("connector_version", PStr "1.0");
   ("raw_response", raw_data)].

(** The loop over [field_mapping.items()] (lines 229-231). *)
Definition map_fields (raw_data transformed : pydict) : pydict :=
  fold_left
    (fun t '(api_field, std_field) =>
       match dict_get api_field raw_data with
       | Some v => dict_set std_field v t
       | None => t
       end)
    field_mapping transformed.

(** Date parsing (lines 234-240): [strptime] raises [TypeError] on a value
    that is not a string, and only [ValueError] is caught. *)
Definition parse_date (raw_data transformed : pydict) : result pydict :=
  match dict_get "ADDED" raw_data with
  | None => Ok transformed
  | Some (PStr s) =>
      match strptime s with
      | Some d => Ok (dict_set "date_added_parsed" (PDatetime d) transformed)
      | None => Ok transformed
      end
  | Some _ => Raise TypeError
  end.

(** The [if]/[elif] chain over the lower-cased file type (lines 244-251). *)
Definition sample_type_of (file_type : string) : string :=
  if PyStr.str_in "pe32" file_type || PyStr.str_in "executable" file_type
  then "executable"
  else if PyStr.str_in "pdf" file_type then "document"
  else if PyStr.str_in "zip" file_type || PyStr.str_in "archive" file_type
  then "archive"
  else "unknown".

(** [raw_data.get('F_TYPE', '').lower()] and the classification
    (lines 243-251); only a [str] has a [lower] method. *)
Definition classify (raw_data transformed : pydict) : result pydict :=
  match dict_get_default "F_TYPE" (PStr EmptyString) raw_data with
  | PStr s =>
      Ok (dict_set "sample_type" (PStr (sample_type_of (PyStr.lower s))) transformed)
  | _ => Raise AttributeError
  end.

(** [transform_data(raw_data, sample_hash)]; [now] is the value of
    [datetime.now(timezone.utc)] read by the call. *)
Definition transform_data (raw_data : pyval) (sample_hash : string)
    (now : datetime) : result pydict :=
  let transformed := metadata raw_data sample_hash now in
  let standardized :=
    match raw_data with
    | PDict raw =>
        match parse_date raw (map_fields raw transformed) with
        | Ok t => classify raw t
        | Raise e => Raise e
        end
    | _ => Ok transformed
    end in
  match standardized with
  | Ok t => Ok (dict_set "data_completeness"
                  (PFloat (_calculate_completeness raw_data)) t)
  | Raise e => Raise e
  end.

End Transformer.

(** ** Effects: oracles, events and the monad *)

(** The configuration held by a [MalShareETLConnector] instance. *)
Record connector : Type := mkConnector {
  base_url : string;
  api_key : string;
  rate_limit_delay : Q;
  max_retries : Z;
  timeout : Z
}.

(** What the connector reads of a [requests.Response]:
    [status_code], whether [raise_for_status()] raises its [HTTPError],
    [headers.get('content-type')], the outcome of [json()], and [text]. *)
Record response : Type := mkResponse {
  status_code : Z;
  http_error : bool;
  content_type : option string;
  json : result pyval;
  text : string
}.

(** One call of [requests.get]. *)
Inductive get_outcome : Type :=
| GetRaises (e : exn)
| GetReturns (r : response).

(** What the connector reads of a pymongo [UpdateResult]. *)
Record update_result : Type := mkUpdateResult {
  upserted_id : pyval;
  modified_count : Z
}.

(** One call of [collection.replace_one]. *)
Inductive replace_outcome : Type :=
| ReplaceRaises (e : exn)
| ReplaceReturns (r : update_result).

(** The observable actions of a run, in the order they happen. *)
Inductive event : Type :=
| EvRequest (url : string) (params : list (string * string))
| EvSleep (seconds : Q)
| EvReplaceOne (filter document : pydict)
| EvAbort
| EvSummary (total successful failed : Z)
| EvClose.

(** Counters of oracle calls so far, and the trace. *)
Record state : Type := mkState {
  gets : nat;
  writes : nat;
  ticks : nat;
  trace : list event
}.

Definition initial : state := mkState 0 0 0 [].

Definition M (A : Type) : Type := state -> result A * state.

Definition ret {A : Type} (a : A) : M A := fun s => (Ok a, s).

Definition raise {A : Type} (e : exn) : M A := fun s => (Raise e, s).

Definition bind {A B : Type} (m : M A) (f : A -> M B) : M B :=
  fun s => match m s with
           | (Ok a, s') => f a s'
           | (Raise e, s') => (Raise e, s')
           end.

Declare Scope monad_scope.
Delimit Scope monad_scope with monad.
Notation "x <- m ;; k" := (bind m (fun x => k))
  (at level 61, m at next level, right associativity) : monad_scope.
Notation "m ;;; k" := (bind m (fun _ => k))
  (at level 61, right associativity) : monad_scope.
Local Open Scope monad_scope.

(** A pure computation that may raise. *)
Definition lift {A : Type} (r : result A) : M A := fun s => (r, s).

(** [try: m except Exception as e: h e] *)
Definition try_except {A : Type} (m : M A) (h : exn -> M A) : M A :=
  fun s => match m s with
           | (Ok a, s') => (Ok a, s')
           | (Raise e, s') => h e s'
           end.

(** [try: m finally: f] *)
Definition try_finally {A : Type} (m : M A) (f : M unit) : M A :=
  fun s => match m s with
           | (r, s') =>
               match f s' with
               | (Ok _, s'') => (r, s'')
               | (Raise e, s'') => (Raise e, s'')
               end
           end.

Definition emit (e : event) : M unit :=
  fun s => (Ok tt, mkState (gets s) (writes s) (ticks s) (trace s ++ [e])).

(** One call of [time.sleep] on a float: the runtime suspends the caller
    and returns, or it raises at once, [ValueError] for a negative
    duration, [OverflowError] or [OSError] for a duration its clock cannot
    hold. *)
Inductive sleep_outcome : Type :=
| SleepReturns
| SleepValueError
| SleepOverflowError
| SleepOSError.

(** ** Operations on untyped values used by the extractor *)

(** ['data' in container] *)
Definition py_contains (item : string) (container : pyval) : result bool :=
  match container with
  | PDict d => Ok (dict_contains item d)
  | PList l =>
      Ok (existsb (fun v => match v with
                            | PStr s => String.eqb s item
                            | _ => false
                            end) l)
  | PStr s => Ok (PyStr.str_in item s)
  | _ => Raise TypeError
  end.

(** [container['data']] with a string subscript. *)
Definition py_getitem (container : pyval) (key : string) : result pyval :=
  match container with
  | PDict d => dict_index key d
  | _ => Raise TypeError
  end.

Fixpoint chars (s : string) : list pyval :=
  match s with
  | EmptyString => []
  | String c r => PStr (String c EmptyString) :: chars r
  end.

(** The elements [for s in samples] visits. *)
Definition py_iter (samples : pyval) : result (list pyval) :=
  match samples with
  | PList l => Ok l
  | PStr s => Ok (chars s)
  | PDict d => Ok (map (fun kv => PStr (fst kv)) d)
  | _ => Raise TypeError
  end.

(** [[s.strip() for s in samples if s.strip()]]; only a [str] has [strip]. *)
Fixpoint strip_nonempty (samples : list pyval) : result (list string) :=
  match samples with
  | [] => Ok []
  | PStr s :: r =>
      match strip_nonempty r with
      | Ok t => Ok (if PyStr.nonempty (PyStr.strip s)
                    then PyStr.strip s :: t else t)
      | Raise e => Raise e
      end
  | _ :: _ => Raise AttributeError
  end.

(** [l[:stop]]: a negative [stop] counts from the end. *)
Definition slice_to {A : Type} (stop : Z) (l : list A) : list A :=
  if 0 <=? stop then firstn (Z.to_nat stop) l
  else firstn (List.length l - Z.to_nat (- stop)) l.

(** [range(n)] *)
Definition range (n : Z) : list nat := seq 0 (Z.to_nat n).

(** [int(s)] on a string: surrounding whitespace, an optional sign, decimal
    digits with single underscores between them; [ValueError] otherwise. *)
Definition digit_of (c : ascii) : option Z :=
  let n := N_of_ascii c in
  if ((48 <=? n) && (n <=? 57))%N then Some (Z.of_N n - 48) else None.

Fixpoint digits (s : string) (acc : Z) (after_digit : bool) : option Z :=
  match s with
  | EmptyString => if after_digit then Some acc else None
  | String c r =>
      match digit_of c with
      | Some d => digits r (10 * acc + d) true
      | None =>
          if Ascii.eqb c "_"%char && after_digit
          then match r with
               | EmptyString => None
               | String c' _ =>
                   match digit_of c' with
                   | Some _ => digits r acc false
                   | None => None
                   end
               end
          else None
      end
  end.

(** The whitespace [int] skips around the number: the ASCII white space
    and, of the other code points below 256, NEL and the no-break space.
    Unlike [str.strip] it keeps the separators U+001C to U+001F, which
    then make the string invalid. *)
Definition int_space (c : ascii) : bool :=
  let n := N_of_ascii c in
  ((9 <=? n) && (n <=? 13) || (n =? 32) || (n =? 133) || (n =? 160))%N.

Fixpoint int_lstrip (s : string) : string :=
  match s with
  | EmptyString => EmptyString
  | String c r => if int_space c then int_lstrip r else s
  end.

Fixpoint int_rstrip (s : string) : string :=
  match s with
  | EmptyString => EmptyString
  | String c r =>
      match int_rstrip r with
      | EmptyString => if int_space c then EmptyString else String c EmptyString
      | r' => String c r'
      end
  end.

Fixpoint digit_count (s : string) : nat :=
  match s with
  | EmptyString => O
  | String c r =>
      match digit_of c with
      | Some _ => S (digit_count r)
      | None => digit_count r
      end
  end.

(** [sys.get_int_max_str_digits()], at its default: a string with more
    digits is refused. *)
Definition int_max_str_digits : nat := 4300.

Definition py_int (s : string) : result Z :=
  let body := int_rstrip (int_lstrip s) in
  let parsed :=
    match body with
    | String "-"%char r => option_map Z.opp (digits r 0 false)
    | String "+"%char r => digits r 0 false
    | _ => digits body 0 false
    end in
  match parsed with
  | Some z =>
      if (int_max_str_digits <? digit_count body)%nat then Raise ValueError
      else Ok z
  | None => Raise ValueError
  end.

(** ** The connector *)

Section Connector.

(** What [time.sleep] does with a duration.  A product beyond the range
    of the floats is the float [inf]; the oracle answers for the rational
    with what the runtime does with [inf]. *)
Variable time_sleep : Q -> sleep_outcome.

Variable strptime : string -> option datetime.

(** The outcome of the [n]-th call of [requests.get] of the run, given the
    URL and the query parameters. *)
Variable http_get : nat -> string -> list (string * string) -> get_outcome.

(** The outcome of the [n]-th call of [collection.replace_one] of the run,
    given the filter and the replacement document. *)
Variable replace_one : nat -> pydict -> pydict -> replace_outcome.

(** The [n]-th reading of [datetime.now(timezone.utc)]. *)
Variable utcnow : nat -> datetime.

Variable self : connector.

Definition requests_get (url : string) (params : list (string * string))
  : M get_outcome :=
  fun s => (Ok (http_get (gets s) url params),
            mkState (S (gets s)) (writes s) (ticks s)
                    (trace s ++ [EvRequest url params])).

Definition collection_replace_one (filter document : pydict)
  : M replace_outcome :=
  fun s => (Ok (replace_one (writes s) filter document),
            mkState (gets s) (S (writes s)) (ticks s)
                    (trace s ++ [EvReplaceOne filter document])).

Definition datetime_now_utc : M datetime :=
  fun s => (Ok (utcnow (ticks s)),
            mkState (gets s) (writes s) (S (ticks s)) (trace s)).

(** [time.sleep(seconds)]: a sleep that raises is not recorded. *)
Definition sleep (seconds : Q) : M unit :=
  match time_sleep seconds with
  | SleepReturns => emit (EvSleep seconds)
  | SleepValueError => raise ValueError
  | SleepOverflowError => raise OverflowError
  | SleepOSError => raise OSError
  end.

(** [self.rate_limit_delay * (2 ** attempt)]: the power is an [int] and is
    converted to a float for the product; from [2 ** 1024] on the
    conversion raises [OverflowError].  Below, scaling by a power of two
    is exact. *)
Definition backoff_delay (attempt : nat) : result Q :=
  if (1024 <=? attempt)%nat then Raise OverflowError
  else Ok (rate_limit_delay self * inject_Z (2 ^ Z.of_nat attempt))%Q.

(** The back-off of an attempt (lines 123-125 and line 144): the delay is
    computed, then slept. *)
Definition back_off (attempt : nat) : M unit :=
  wait_time <- lift (backoff_delay attempt) ;;
  sleep wait_time.

(** What a response that passed [raise_for_status()] is turned into
    (lines 131-135): the parsed body when the content type is JSON, else
    the trimmed text split into lines under the key ['data']. *)
Definition payload (response : response) : result pyval :=
  if PyStr.startswith
       (match content_type response with Some c => c | None => EmptyString end)
       "application/json"
  then json response
  else Ok (PDict [("data",
             PList (map PStr (PyStr.split PyStr.newline
                                (PyStr.strip (text response)))))]).

(** The body of [for attempt in range(self.max_retries)] (lines 110-146);
    the final [ret PNone] is the [return None] after the loop.  Only a
    [RequestException] is caught by the handler: what the product of the
    back-off delay or [time.sleep] raises is none, so it leaves the loop,
    from the [try] block (line 125) as from the handler (line 144). *)
Fixpoint attempts (url : string) (params : list (string * string))
    (rng : list nat) : M pyval :=
  match rng with
  | [] => ret PNone
  | attempt :: rest =>
      let on_request_exception : M pyval :=
        if Z.of_nat attempt =? max_retries self - 1 then ret PNone
        else back_off attempt ;;; attempts url params rest in
      o <- requests_get url params ;;
      match o with
      | GetRaises e =>
          if is_request_exception e then on_request_exception else raise e
      | GetReturns response =>
          if status_code response =? 429
          then back_off attempt ;;; attempts url params rest
          else if http_error response then on_request_exception
          else match payload response with
               | Ok v => ret v
               | Raise e =>
                   if is_request_exception e then on_request_exception
                   else raise e
               end
      end
  end.

Definition _make_api_request (endpoint : string)
    (params : list (string * string)) : M pyval :=
  let url := base_url self ++ "/api.php" in
  let default_params :=
    dict_update [("api_key", api_key self); ("action", endpoint)] params in
  attempts url default_params (range (max_retries self)).

Definition extract_sample_list (limit : Z) : M (list string) :=
  response <- _make_api_request "getlist" [] ;;
  missing <- lift (if negb (truthy response) then Ok true
                   else match py_contains "data" response with
                        | Ok b => Ok (negb b)
                        | Raise e => Raise e
                        end) ;;
  if (missing : bool) then ret []
  else
    samples <- lift (py_getitem response "data") ;;
    elems <- lift (py_iter samples) ;;
    stripped <- lift (strip_nonempty elems) ;;
    ret (slice_to limit stripped).

Definition extract_sample_details (sample_hash : string) : M pyval :=
  response <- _make_api_request "details" [("hash", sample_hash)] ;;
  if negb (truthy response) then ret PNone else ret response.

(** [load_data]: both branches of the [if] return [True]; the handler
    formats [transformed_data['sha256']] into its log line before it
    returns [False]. *)
Definition load_data (transformed_data : pydict) : M bool :=
  try_except
    (key <- lift (dict_index "sha256" transformed_data) ;;
     o <- collection_replace_one [("sha256", key)] transformed_data ;;
     match o with
     | ReplaceRaises e => raise e
     | ReplaceReturns r =>
         if truthy (upserted_id r) || (modified_count r >? 0)
         then ret true
         else ret true
     end)
    (fun _ =>
       lift (dict_index "sha256" transformed_data) ;;;
       ret false).

(** The loop of [run_etl_pipeline] over [enumerate(sample_hashes, 1)];
    [total] is [len(sample_hashes)]. *)
Fixpoint process_samples (total i : Z) (hashes : list string)
    (successful_loads failed_loads : Z) : M (Z * Z) :=
  match hashes with
  | [] => ret (successful_loads, failed_loads)
  | sample_hash :: rest =>
      raw_data <- extract_sample_details sample_hash ;;
      if negb (truthy raw_data)
      then process_samples total (i + 1) rest successful_loads (failed_loads + 1)
      else
        now <- datetime_now_utc ;;
        transformed <- lift (transform_data strptime raw_data sample_hash now) ;;
        loaded <- load_data transformed ;;
        let counts :=
          if (loaded : bool) then (successful_loads + 1, failed_loads)
          else (successful_loads, failed_loads + 1) in
        (if i <? total then sleep (rate_limit_delay self) else ret tt) ;;;
        process_samples total (i + 1) rest (fst counts) (snd counts)
  end.

(** [run_etl_pipeline(sample_limit=50)]; [None] is a call without the
    argument.  The handler logs and re-raises; the [finally] block closes
    the store connection. *)
Definition run_etl_pipeline (sample_limit : option Z) : M unit :=
  let sample_limit := match sample_limit with Some n => n | None => 50 end in
  try_finally
    (try_except
       (sample_hashes <- extract_sample_list sample_limit ;;
        match sample_hashes with
        | [] => emit EvAbort
        | _ :: _ =>
            let total := Z.of_nat (List.length sample_hashes) in
            counts <- process_samples total 1 sample_hashes 0 0 ;;
            emit (EvSummary total (fst counts) (snd counts))
        end)
       (fun e => raise e))
    (emit EvClose).

(** [main], from the constructed connector to the end of the pipeline run:
    the sample limit is read from the environment with default ['25'] and
    passed explicitly; an exception leads to [sys.exit(1)].  The result is
    the exit status. *)
Definition main (getenv : string -> option string) : M Z :=
  try_except
    (sample_limit <- lift (py_int (match getenv "SAMPLE_LIMIT" with
                                   | Some v => v
                                   | None => "25"
                                   end)) ;;
     run_etl_pipeline (Some sample_limit) ;;;
     ret 0)
    (fun _ => ret 1).

End Connector.

(** ** Specification-side definitions and test fixtures *)

Definition is_mapping (v : pyval) : bool :=
  match v with PDict _ => true | _ => false end.

(** A field counts when it is present with a value that is not falsy. *)
Definition non_falsy (d : pydict) (field : string) : bool :=
  match dict_get field d with Some v => truthy v | None => false end.

(** The completeness score in the words of the specification: the fraction
    of the five expected fields that count; [0] for a non-mapping. *)
Definition completeness_fraction (data : pyval) : Q :=
  match data with
  | PDict d =>
      Z.of_nat (List.length
                  (filter (non_falsy d)
                          ["MD5"; "SHA1"; "SHA256"; "F_TYPE"; "ADDED"])) # 5
  | _ => 0
  end.

(** The classification in the words of the specification: substring rules
    in priority order, the first rule with a matching substring wins. *)
Definition classification_rules : list (list string * string) :=
  [(["pe32"; "executable"], "executable");
   (["pdf"], "document");
   (["zip"; "archive"], "archive")].

Fixpoint first_match (rules : list (list string * string)) (file_type : string)
  : string :=
  match rules with
  | [] => "unknown"
  | (substrings, sample_type) :: rest =>
      if existsb (fun sub => PyStr.str_in sub file_type) substrings
      then sample_type
      else first_match rest file_type
  end.

Definition sample_types : list string :=
  ["executable"; "document"; "archive"; "unknown"].

(** A provider field is usable as text when it is absent or a [str]. *)
Definition text_or_absent (field : string) (raw : pydict) : bool :=
  match dict_get field raw with
  | None | Some (PStr _) => true
  | Some _ => false
  end.

(** Fixtures of [test_connector.py]. *)
Definition fixture_now : datetime := mkDatetime 2024 1 15 12 0 0 0 true.

Definition fixture_hash : string :=
  "e3b0c44298fc1c149afbf4c8996fb92427ae41e4649b934ca495991b7852b855".

Definition sample_api_response : pydict :=
  [("MD5", PStr "d41d8cd98f00b204e9800998ecf8427e");
   ("SHA1", PStr "da39a3ee5e6b4b0d3255bfef95601890afd80709");
   ("SHA256", PStr fixture_hash);
   ("SSDEEP", PStr "3::");
   ("F_TYPE", PStr "PE32 executable");
   ("SOURCES", PList [PStr "virustotal"]);
   ("ADDED", PStr "2024-01-15 10:30:00")].

Definition partial_data : pydict :=
  [("MD5", PStr "hash"); ("SHA1", PStr "hash")].

(** A [strptime] that rejects every string, and one that accepts every
    string with a fixed date; the properties hold for any [strptime]. *)
Definition strptime_rejects : string -> option datetime := fun _ => None.

Definition strptime_fixed : string -> option datetime :=
  fun _ => Some (mkDatetime 2024 1 15 10 30 0 0 false).

(** An attempt that ends in the handler of [RequestException]: the call
    itself raised one, or the response is not a 429 and either
    [raise_for_status()] or the decoding of the body raised one. *)
Definition failing (o : get_outcome) : bool :=
  match o with
  | GetRaises e => is_request_exception e
  | GetReturns r =>
      negb (status_code r =? 429)
      && (http_error r
          || match payload r with
             | Raise e => is_request_exception e
             | Ok _ => false
             end)
  end.

(** An attempt answered by HTTP 429. *)
Definition rate_limited (o : get_outcome) : bool :=
  match o with
  | GetRaises _ => false
  | GetReturns r => status_code r =? 429
  end.

(** The back-off delay in the words of the specification:
    [delay * 2^attempt] seconds. *)
Definition exponential_delay (self : connector) (attempt : nat) : Q :=
  (rate_limit_delay self * inject_Z (2 ^ Z.of_nat attempt))%Q.

(** The trace of [remaining] failing attempts starting at index [attempt]:
    a request per attempt and a back-off sleep between two attempts. *)
Fixpoint failure_trace (self : connector) (url : string)
    (params : list (string * string)) (attempt remaining : nat) : list event :=
  match remaining with
  | O => []
  | S k =>
      EvRequest url params
      :: match k with
         | O => []
         | S _ => EvSleep (exponential_delay self attempt)
                  :: failure_trace self url params (S attempt) k
         end
  end.

(** The trace of [remaining] rate-limited attempts: a request and a
    back-off sleep per attempt, the last one included. *)
Fixpoint rate_limited_trace (self : connector) (url : string)
    (params : list (string * string)) (attempt remaining : nat) : list event :=
  match remaining with
  | O => []
  | S k =>
      EvRequest url params :: EvSleep (exponential_delay self attempt)
      :: rate_limited_trace self url params (S attempt) k
  end.

(** The state after [n] more requests and the events [evs]. *)
Definition after_requests (s : state) (n : nat) (evs : list event) : state :=
  mkState (gets s + n) (writes s) (ticks s) (trace s ++ evs).

(** The number of outbound requests and the sleeps of a trace. *)
Fixpoint requests_in (evs : list event) : nat :=
  match evs with
  | [] => O
  | EvRequest _ _ :: r => S (requests_in r)
  | _ :: r => requests_in r
  end.

Fixpoint sleeps_in (evs : list event) : list Q :=
  match evs with
  | [] => []
  | EvSleep q :: r => q :: sleeps_in r
  | _ :: r => sleeps_in r
  end.

(** The URL and the query of a request, as [_make_api_request] builds them. *)
Definition request_url (self : connector) : string :=
  base_url self ++ "/api.php".

Definition request_query (self : connector) (endpoint : string)
    (params : list (string * string)) : list (string * string) :=
  dict_update [("api_key", api_key self); ("action", endpoint)] params.

(** The connector of the unit tests: two attempts, a delay of 0.1 s. *)
Definition test_connector : connector :=
  mkConnector "https://malshare.com" "test_api_key_123" (1 # 10) 2 10.

(** The connector of the default configuration: three attempts, a delay
    of 1 s, a timeout of 30 s. *)
Definition default_connector : connector :=
  mkConnector "https://malshare.com" "test_api_key_123" 1 3 30.

(** A connector with a delay of zero and a budget of 1026 attempts. *)
Definition large_budget_connector : connector :=
  mkConnector "https://malshare.com" "test_api_key_123" 0 1026 10.

(** The connector of the unit tests with RATE_LIMIT_DELAY set to -0.1. *)
Definition negative_delay_connector : connector :=
  mkConnector "https://malshare.com" "test_api_key_123" (-1 # 10) 2 10.

(** The [time.sleep] of the fixtures, which ask for a few seconds at most:
    a negative duration is refused with [ValueError], the others are
    slept. *)
Definition time_sleep_fixture (seconds : Q) : sleep_outcome :=
  if Qle_bool 0 seconds then SleepReturns else SleepValueError.

(** [requests.get] raising a network error on every call. *)
Definition http_network_error
  : nat -> string -> list (string * string) -> get_outcome :=
  fun _ _ _ => GetRaises (RequestError "Network error").

Definition rate_limit_response : response :=
  mkResponse 429 true None (Raise ValueError) EmptyString.

Definition success_response : response :=
  mkResponse 200 false (Some "application/json")
             (Ok (PDict sample_api_response)) EmptyString.

(** A provider that answers every call with HTTP 429. *)
Definition http_always_rate_limited
  : nat -> string -> list (string * string) -> get_outcome :=
  fun _ _ _ => GetReturns rate_limit_response.

(** A rate-limited first call followed by successful ones. *)
Definition http_rate_limited_once
  : nat -> string -> list (string * string) -> get_outcome :=
  fun n _ _ => match n with
               | O => GetReturns rate_limit_response
               | S _ => GetReturns success_response
               end.

(** Store outcomes of the tests and of the three kinds of success:
    an insert, a replacement that changed the document, one that did not. *)
Definition inserted : update_result := mkUpdateResult (PStr "new_id") 0.
Definition replaced_changed : update_result := mkUpdateResult PNone 1.
Definition replaced_unchanged : update_result := mkUpdateResult PNone 0.

Definition store_returns (r : update_result)
  : nat -> pydict -> pydict -> replace_outcome :=
  fun _ _ _ => ReplaceReturns r.

Definition store_raises : nat -> pydict -> pydict -> replace_outcome :=
  fun _ _ _ => ReplaceRaises (OtherError "Database error").

Definition test_data : pydict :=
  [("sha256", PStr fixture_hash); ("source", PStr "test");
   ("ingestion_timestamp", PDatetime fixture_now)].

(** The outcome of [load_data] in the words of the specification: success
    when the store returned, failure when it raised. *)
Definition load_outcome (o : replace_outcome) : bool :=
  match o with
  | ReplaceReturns _ => true
  | ReplaceRaises _ => false
  end.

(** The identifier list in the words of the specification: every line
    trimmed, the empty ones discarded, in the original order. *)
Definition trimmed_lines (lines : list string) : list string :=
  filter PyStr.nonempty (map PyStr.strip lines).

(** A list response of the executor: a mapping with the lines under
    ['data']. *)
Definition list_response (lines : list string) : pyval :=
  PDict [("data", PList (map PStr lines))].

(** [requests.get] answering every call with a plain text body. *)
Definition http_text (body : string)
  : nat -> string -> list (string * string) -> get_outcome :=
  fun _ _ _ => GetReturns (mkResponse 200 false (Some "text/plain")
                                      (Raise ValueError) body).

(** [n] lines ["h"], separated by newlines. *)
Fixpoint hash_lines (n : nat) : string :=
  match n with
  | O => EmptyString
  | S k => String "h" (String PyStr.newline (hash_lines k))
  end.

(** The list action answers with [n] identifiers; every later call fails
    with a network error. *)
Definition http_list_then_errors (n : nat)
  : nat -> string -> list (string * string) -> get_outcome :=
  fun call _ _ =>
    match call with
    | O => GetReturns (mkResponse 200 false (Some "text/plain")
                                  (Raise ValueError) (hash_lines n))
    | S _ => GetRaises (RequestError "Network error")
    end.

Definition utcnow_fixed : nat -> datetime := fun _ => fixture_now.

(** An environment without SAMPLE_LIMIT. *)
Definition getenv_empty : string -> option string := fun _ => None.

(** [requests.get] answering every call with a JSON body. *)
Definition http_json (body : pyval)
  : nat -> string -> list (string * string) -> get_outcome :=
  fun _ _ _ => GetReturns (mkResponse 200 false (Some "application/json")
                                      (Ok body) EmptyString).

(** The list of [test_extract_sample_list_success]. *)
Definition sample_list_lines : list string :=
  ["hash1"; "hash2"; "hash3"; EmptyString].

Definition two_lines : string := "hash1" ++ String PyStr.newline "hash2".

(** A connector that makes a single attempt per request. *)
Definition single_attempt_connector : connector :=
  mkConnector "https://malshare.com" "test_key" (1 # 10) 1 10.

(** A run of the pipeline against a provider that lists 26 identifiers and
    then fails every details request. *)
Definition run_on_26 (sample_limit : option Z) : result unit * state :=
  run_etl_pipeline time_sleep_fixture strptime_rejects
                   (http_list_then_errors 26) store_raises
                   utcnow_fixed single_attempt_connector sample_limit initial.

(** A provider whose list action names one sample and whose details
    action answers with a JSON object whose F_TYPE is [null]. *)
Definition http_null_file_type
  : nat -> string -> list (string * string) -> get_outcome :=
  fun call _ _ =>
    match call with
    | O => GetReturns (mkResponse 200 false (Some "text/plain")
                                  (Raise ValueError) "hash1")
    | S _ => GetReturns (mkResponse 200 false (Some "application/json")
                                    (Ok (PDict [("MD5", PStr "d41d8cd9");
                                                ("F_TYPE", PNone)])) EmptyString)
    end.

(** ** Definitions for the further properties *)

(** The number of store writes of a trace. *)
Fixpoint writes_in (evs : list event) : nat :=
  match evs with
  | [] => O
  | EvReplaceOne _ _ :: r => S (writes_in r)
  | _ :: r => writes_in r
  end.

(** An attempt that [_make_api_request] retries: it failed with a
    [RequestException] or was answered by HTTP 429. *)
Definition retried (o : get_outcome) : bool := failing o || rate_limited o.

(** An attempt that succeeds with the payload [v]. *)
Definition succeeds_with (o : get_outcome) (v : pyval) : Prop :=
  exists r, o = GetReturns r /\ status_code r <> 429
            /\ http_error r = false /\ payload r = Ok v.

(** [sep.join(parts)] for a one-character separator. *)
Fixpoint join (sep : ascii) (parts : list string) : string :=
  match parts with
  | [] => EmptyString
  | [p] => p
  | p :: rest => p ++ String sep (join sep rest)
  end.

(** Whether a character occurs in a string. *)
Fixpoint has_char (c : ascii) (s : string) : bool :=
  match s with
  | EmptyString => false
  | String c' r => Ascii.eqb c' c || has_char c r
  end.

(** The exception a call of [time.sleep] raises, if it does. *)
Definition sleep_exception (o : sleep_outcome) : option exn :=
  match o with
  | SleepReturns => None
  | SleepValueError => Some ValueError
  | SleepOverflowError => Some OverflowError
  | SleepOSError => Some OSError
  end.

(** The exception the back-off of an attempt raises, if it does:
    [OverflowError] from attempt 1024 on, where [2 ** attempt] is beyond
    the floats, and before that what [time.sleep] raises for
    [delay * 2^attempt] seconds. *)
Definition back_off_exception (time_sleep : Q -> sleep_outcome)
    (self : connector) (attempt : nat) : option exn :=
  if (1024 <=? attempt)%nat then Some OverflowError
  else sleep_exception (time_sleep (exponential_delay self attempt)).

(** How an attempt ends the loop, if it does: with the payload of a
    successful response, or with an exception that is not a
    [RequestException]; [None] when the attempt is retried. *)
Definition terminal (o : get_outcome) : option (result pyval) :=
  match o with
  | GetRaises e => if is_request_exception e then None else Some (Raise e)
  | GetReturns r =>
      if status_code r =? 429 then None
      else if http_error r then None
      else match payload r with
           | Ok v => Some (Ok v)
           | Raise e =>
               if is_request_exception e then None else Some (Raise e)
           end
  end.

(** Fixtures: an exception that is not a [RequestException] on every
    call; a connector whose retry budget is zero. *)
Definition http_unexpected_error
  : nat -> string -> list (string * string) -> get_outcome :=
  fun _ _ _ => GetRaises (OtherError "UnicodeError").

(** A network error on the first call, a 429 on the second, then
    successful responses; and a network error on the first call followed
    by exceptions that are no [RequestException]. *)
Definition http_retried_twice
  : nat -> string -> list (string * string) -> get_outcome :=
  fun n _ _ => match n with
               | O => GetRaises (RequestError "Network error")
               | S O => GetReturns rate_limit_response
               | S (S _) => GetReturns success_response
               end.

Definition http_fails_then_unexpected_error
  : nat -> string -> list (string * string) -> get_outcome :=
  fun n _ _ => match n with
               | O => GetRaises (RequestError "Network error")
               | S _ => GetRaises (OtherError "UnicodeError")
               end.

Definition no_retry_connector : connector :=
  mkConnector "https://malshare.com" "test_api_key_123" (1 # 10) 0 10.

Definition text_response : response :=
  mkResponse 200 false (Some "text/plain") (Raise ValueError)
    ("hash1" ++ String PyStr.newline
       ("hash2" ++ String PyStr.newline ("hash3" ++ String PyStr.newline EmptyString))).

Definition is_str (v : pyval) : bool :=
  match v with PStr _ => true | _ => false end.

(** A value that [for s in samples] cannot iterate over. *)
Definition not_iterable (v : pyval) : bool :=
  match v with
  | PList _ | PStr _ | PDict _ => false
  | _ => true
  end.

(** The keys a canonical record can have. *)
Definition record_keys : list string :=
  ["sha256"; "ingestion_timestamp"; "source"; "connector_version";
   "raw_response"; "md5"; "sha1"; "sha256_confirmed"; "ssdeep"; "file_type";
   "sources"; "date_added"; "date_added_parsed"; "sample_type";
   "data_completeness"].

(** The canonical names of the five fields the completeness score
    counts. *)
Definition scored_fields : list string :=
  ["md5"; "sha1"; "sha256_confirmed"; "file_type"; "date_added"].

(** The step of the copy loop of [transform_data], for any table of
    fields. *)
Definition copy_step (raw : pydict) (t : pydict) (entry : string * string)
  : pydict :=
  let '(api_field, std_field) := entry in
  match dict_get api_field raw with
  | Some v => dict_set std_field v t
  | None => t
  end.

(** *** Footprints of effectful computations *)

(** The events that act on the outside world. *)
Definition io_event (e : event) : bool :=
  match e with
  | EvRequest _ _ | EvSleep _ | EvReplaceOne _ _ => true
  | _ => false
  end.

(** The state after the events [evs] and [t] readings of the clock: the
    counters move with the requests and the store writes of [evs]. *)
Definition advance (s : state) (t : nat) (evs : list event) : state :=
  mkState (gets s + requests_in evs) (writes s + writes_in evs)
          (ticks s + t) (trace s ++ evs).

(** [footprint m g w Q]: from any state, [m] only adds events that act on
    the outside world, among them at most [g] requests and [w] store
    writes, and when it returns a value, [Q] holds of the value and of the
    events added. *)
Definition footprint {A : Type} (m : M A) (g w : nat)
    (Q : A -> list event -> Prop) : Prop :=
  forall s,
  exists (r : result A) (t : nat) (evs : list event),
    m s = (r, advance s t evs)
    /\ forallb io_event evs = true
    /\ (requests_in evs <= g)%nat
    /\ (writes_in evs <= w)%nat
    /\ forall a, r = Ok a -> Q a evs.

(** A provider whose list action names two samples and whose details
    action answers with the record of the tests. *)
Definition http_two_samples
  : nat -> string -> list (string * string) -> get_outcome :=
  fun call _ _ =>
    match call with
    | O => GetReturns (mkResponse 200 false (Some "text/plain")
                                  (Raise ValueError) two_lines)
    | S _ => GetReturns success_response
    end.

(** An environment whose SAMPLE_LIMIT is not a number. *)
Definition getenv_bad_limit : string -> option string :=
  fun name => if String.eqb name "SAMPLE_LIMIT" then Some "ten" else None.

(** A details response the whole pipeline can process: a successful
    response whose payload is a non-empty mapping with textual (or absent)
    F_TYPE and ADDED. *)
Definition usable_details (o : get_outcome) : Prop :=
  exists raw,
    succeeds_with o (PDict raw)
    /\ raw <> []
    /\ text_or_absent "F_TYPE" raw = true
    /\ text_or_absent "ADDED" raw = true.

(** A provider record with a date that does not match the format and a
    field the field table does not name. *)
Definition odd_record : pydict :=
  [("MD5", PStr "d41d8cd9"); ("SOURCES", PList []);
   ("ADDED", PStr "15/01/2024"); ("YARA", PList [PStr "rule"])].

(** A [strptime] that accepts the date of the tests only. *)
Definition strptime_fixture : string -> option datetime :=
  fun s => if String.eqb s "2024-01-15 10:30:00"
           then Some (mkDatetime 2024 1 15 10 30 0 0 false)
           else None.

(** ** [setup.py] *)

(** [parse_requirements(filename)], on the lines the file yields (each
    with its line terminator): every line is trimmed, and the empty lines
    and the lines that then start with [#] are dropped. *)
Definition parse_requirements (lines : list string) : list string :=
  filter (fun line => PyStr.nonempty line && negb (PyStr.startswith line "#"))
         (map PyStr.strip lines).

Definition requirements_file : list string :=
  ["# Core dependencies" ++ String PyStr.newline EmptyString;
   "requests>=2.31.0" ++ String PyStr.newline EmptyString;
   String PyStr.newline EmptyString;
   "  # database" ++ String PyStr.newline EmptyString;
   "pymongo>=4.6.0  # driver" ++ String PyStr.newline EmptyString;
   "python-dotenv>=1.0.0"].

(** ** The constructor *)

(** What the constructor does to the store, in order. *)
Inductive init_event : Type :=
| InitClient (uri : string)
| InitPing
| InitDatabase (name : string)
| InitCreateIndex (field : string) (unique sparse : bool).

(** The pymongo calls of [_init_mongo_connection]: [None] when the call
    returns, the exception when it raises. *)
Record mongo : Type := mkMongo {
  mongo_client : string -> option exn;
  mongo_ping : option exn;
  mongo_database : string -> option exn;
  mongo_create_index : string -> option exn
}.

Section Constructor.

(** [os.getenv]. *)
Variable getenv : string -> option string.

(** [float(s)] on a string; [None] stands for its [ValueError]. *)
Variable py_float : string -> option Q.

Variable store : mongo.

(** [os.getenv(name, default)] *)
Definition getenv_default (name default : string) : string :=
  match getenv name with Some v => v | None => default end.

(** A call of the store: the event, then the exception if it raises. *)
Definition store_call (done : list init_event) (e : init_event)
    (outcome : option exn) (k : list init_event -> result unit * list init_event)
  : result unit * list init_event :=
  match outcome with
  | Some x => (Raise x, (done ++ [e])%list)
  | None => k (done ++ [e])%list
  end.

(** [_init_mongo_connection]: the handler of [ConnectionFailure] logs and
    re-raises, so the first exception of any kind leaves the method. *)
Definition _init_mongo_connection (mongo_uri db_name : string)
  : result unit * list init_event :=
  store_call [] (InitClient mongo_uri) (mongo_client store mongo_uri) (fun d1 =>
  store_call d1 InitPing (mongo_ping store) (fun d2 =>
  store_call d2 (InitDatabase db_name) (mongo_database store db_name) (fun d3 =>
  store_call d3 (InitCreateIndex "sha256" true true)
             (mongo_create_index store "sha256") (fun d4 =>
  store_call d4 (InitCreateIndex "ingestion_timestamp" false false)
             (mongo_create_index store "ingestion_timestamp") (fun d5 =>
  store_call d5 (InitCreateIndex "sample_type" false false)
             (mongo_create_index store "sample_type") (fun d6 =>
  (Ok tt, d6))))))).

(** [MalShareETLConnector.__init__]: the configuration is read and parsed,
    the API key is checked, then the store is contacted. *)
Definition __init__ : result connector * list init_event :=
  let base := getenv_default "MALSHARE_BASE_URL" "https://malshare.com" in
  let key := getenv "MALSHARE_API_KEY" in
  let mongo_uri := getenv_default "MONGODB_URI" "mongodb://localhost:27017/" in
  let db_name := getenv_default "MONGODB_DATABASE" "malware_intelligence" in
  match py_float (getenv_default "RATE_LIMIT_DELAY" "1.0") with
  | None => (Raise ValueError, [])
  | Some delay =>
      match py_int (getenv_default "MAX_RETRIES" "3") with
      | Raise e => (Raise e, [])
      | Ok retries =>
          match py_int (getenv_default "REQUEST_TIMEOUT" "30") with
          | Raise e => (Raise e, [])
          | Ok seconds =>
              match key with
              | None | Some EmptyString => (Raise ValueError, [])
              | Some k =>
                  match _init_mongo_connection mongo_uri db_name with
                  | (Ok _, evs) =>
                      (Ok (mkConnector base k delay retries seconds), evs)
                  | (Raise e, evs) => (Raise e, evs)
                  end
              end
          end
      end
  end.

End Constructor.

(** Fixtures: a store that answers every call, one that cannot be
    reached, and the environment of the unit tests. *)
Definition mongo_up : mongo :=
  mkMongo (fun _ => None) None (fun _ => None) (fun _ => None).



Definition env_without_key : string -> option string :=
  fun name => if String.eqb name "MAX_RETRIES" then Some "2" else None.

(** A [float] that reads the two delays of the fixtures. *)
Definition float_fixture : string -> option Q :=
  fun s => if String.eqb s "0.1" then Some (1 # 10)
           else if String.eqb s "1.0" then Some 1%Q
           else None.

(** ** Collection statistics *)


(** * Properties *)

(** ** Dictionary lemmas *)

Lemma dict_get_set {V : Type} (k k' : string) (v : V) (d : list (string * V)) :
  dict_get k (dict_set k' v d) =
  if String.eqb k k' then Some v else dict_get k d.
Proof.
  induction d as [|[k0 v0] r IH]; simpl.
  - destruct (String.eqb k k'); reflexivity.
  - destruct (String.eqb k' k0) eqn:E0; simpl.
    + apply String.eqb_eq in E0; subst k0.
      destruct (String.eqb k k'); reflexivity.
    + destruct (String.eqb k k0) eqn:E1.
      * apply String.eqb_eq in E1; subst k0.
        destruct (String.eqb k k') eqn:E2; [|reflexivity].
        apply String.eqb_eq in E2; subst k'.
        rewrite String.eqb_refl in E0; discriminate.
      * exact IH.
Qed.

(** Reading a literal key of a record built by literal [dict_set]s. *)
Ltac dict_simpl :=
  repeat (rewrite !dict_get_set; simpl String.eqb; cbv iota).

(** ** The completeness score *)

Lemma sum_ones (l : list string) (a : Z) :
  fold_left Z.add (map (fun _ => 1) l) a = a + Z.of_nat (List.length l).
Proof.
  revert a; induction l as [|x l IH]; intros a; simpl List.length; simpl fold_left.
  - lia.
  - rewrite IH. lia.
Qed.

Lemma field_present_non_falsy (d : pydict) (field : string) :
  field_present d field = non_falsy d field.
Proof.
  unfold field_present, non_falsy, dict_contains, dict_get_default.
  destruct (dict_get field d); reflexivity.
Qed.

Lemma present_fields_count (d : pydict) :
  present_fields d =
  Z.of_nat (List.length (filter (non_falsy d) expected_fields)).
Proof.
  unfold present_fields. rewrite sum_ones.
  rewrite (filter_ext _ _ (field_present_non_falsy d)). lia.
Qed.

Lemma present_fields_range (d : pydict) : 0 <= present_fields d <= 5.
Proof.
  rewrite present_fields_count.
  pose proof (filter_length_le (non_falsy d) expected_fields) as H.
  simpl List.length in H at 2. lia.
Qed.

(** The score is a fraction between 0 and 1, whatever the input. *)
Lemma completeness_bounds (data : pyval) :
  (0 <= _calculate_completeness data /\ _calculate_completeness data <= 1)%Q.
Proof.
  destruct data as [| | | | | |d|]; simpl; try (split; discriminate).
  pose proof (present_fields_range d) as [H0 H5].
  unfold Qle, Qdiv, Qmult, Qinv, inject_Z; simpl. lia.
Qed.

(** C7. The completeness score of any input is the fraction of the five
    expected fields MD5, SHA1, SHA256, F_TYPE, ADDED that are present with a
    non-falsy value, and 0 for an input that is not a mapping.  On the
    fixtures of the tests: all five fields give 1, two of five give 2/5
    (0.4), the empty record gives 0. *)
Theorem calculate_completeness_is_fraction :
  (forall data : pyval,
     (_calculate_completeness data == completeness_fraction data)%Q)
  /\ (_calculate_completeness (PDict sample_api_response) == 1)%Q
  /\ (_calculate_completeness (PDict partial_data) == 2 # 5)%Q
  /\ (_calculate_completeness (PDict []) == 0)%Q
  /\ (_calculate_completeness PNone == 0)%Q
  /\ (_calculate_completeness (PList [PStr "MD5"]) == 0)%Q.
Proof.
  split; [|repeat split; reflexivity].
  intros data. destruct data as [| | | | | |d|]; try reflexivity.
  unfold _calculate_completeness, completeness_fraction.
  rewrite present_fields_count. unfold expected_fields.
  unfold Qeq, Qdiv, Qmult, Qinv, inject_Z; simpl Z.of_nat; simpl Qnum; simpl Qden.
  lia.
Qed.

(** ** The transformer *)

Section TransformerProperties.

Variable strptime : string -> option datetime.

(** The chain of [if]/[elif] is the first-match reading of the rules. *)
Lemma sample_type_of_first_match (file_type : string) :
  sample_type_of file_type = first_match classification_rules file_type.
Proof.
  unfold sample_type_of, classification_rules, first_match, existsb.
  rewrite !orb_false_r. reflexivity.
Qed.

Lemma sample_type_of_in_types (file_type : string) :
  In (sample_type_of file_type) sample_types.
Proof.
  unfold sample_type_of, sample_types.
  destruct (_ || _); [simpl; auto|].
  destruct (PyStr.str_in "pdf" file_type); [simpl; auto|].
  destruct (_ || _); simpl; auto.
Qed.

(** The record of a non-mapping input: the metadata and a zero score. *)
Lemma transform_data_non_mapping (raw_data : pyval) (sample_hash : string)
    (now : datetime) :
  is_mapping raw_data = false ->
  transform_data strptime raw_data sample_hash now =
  Ok (metadata raw_data sample_hash now
        ++ [("data_completeness", PFloat 0)])%list.
Proof.
  destruct raw_data; intros H; try discriminate H; reflexivity.
Qed.

(** The date step returns its input or adds the parsed date. *)
Lemma parse_date_ok (raw t t' : pydict) :
  parse_date strptime raw t = Ok t' ->
  text_or_absent "ADDED" raw = true
  /\ (t' = t \/ exists d, t' = dict_set "date_added_parsed" (PDatetime d) t).
Proof.
  unfold parse_date, text_or_absent.
  destruct (dict_get "ADDED" raw) as [v|].
  - destruct v; try discriminate.
    destruct (strptime s); intros H; inversion H; subst; eauto.
  - intros H; inversion H; auto.
Qed.

Lemma parse_date_total (raw t : pydict) :
  text_or_absent "ADDED" raw = true ->
  exists t', parse_date strptime raw t = Ok t'.
Proof.
  unfold parse_date, text_or_absent.
  destruct (dict_get "ADDED" raw) as [v|]; [|eauto].
  destruct v; try discriminate. destruct (strptime s); eauto.
Qed.

(** The shape of every record returned for a mapping. *)
Lemma transform_data_mapping_ok (raw : pydict) (sample_hash : string)
    (now : datetime) (r : pydict) :
  transform_data strptime (PDict raw) sample_hash now = Ok r ->
  exists file_type t,
    dict_get_default "F_TYPE" (PStr EmptyString) raw = PStr file_type
    /\ parse_date strptime raw
         (map_fields raw (metadata (PDict raw) sample_hash now)) = Ok t
    /\ r = dict_set "data_completeness"
             (PFloat (_calculate_completeness (PDict raw)))
             (dict_set "sample_type"
                (PStr (sample_type_of (PyStr.lower file_type))) t).
Proof.
  unfold transform_data, classify.
  destruct (parse_date _ _ _) as [t|e]; [|discriminate].
  destruct (dict_get_default "F_TYPE" (PStr EmptyString) raw); try discriminate.
  intros H; inversion H; subst. eauto.
Qed.

(** A mapping whose F_TYPE and ADDED are text (or absent) is transformed. *)
Lemma transform_data_mapping_total (raw : pydict) (sample_hash : string)
    (now : datetime) :
  text_or_absent "F_TYPE" raw = true ->
  text_or_absent "ADDED" raw = true ->
  exists r, transform_data strptime (PDict raw) sample_hash now = Ok r.
Proof.
  intros HF HA. unfold transform_data, classify.
  destruct (parse_date_total raw
              (map_fields raw (metadata (PDict raw) sample_hash now)) HA)
    as [t ->].
  unfold text_or_absent in HF. unfold dict_get_default.
  destruct (dict_get "F_TYPE" raw) as [v|]; [|eauto].
  destruct v; try discriminate; eauto.
Qed.

(** The copy loop never writes the keys of the metadata. *)
Lemma map_fields_keeps (raw t : pydict) (k : string) :
  In k ["sha256"; "ingestion_timestamp"; "source"; "connector_version";
        "raw_response"] ->
  dict_get k (map_fields raw t) = dict_get k t.
Proof.
  intros Hk. unfold map_fields, field_mapping. simpl fold_left.
  repeat match goal with
         | |- context [match dict_get ?f raw with _ => _ end] =>
             destruct (dict_get f raw)
         end;
  simpl in Hk; decompose [or] Hk; subst; try contradiction;
  dict_simpl; reflexivity.
Qed.

(** The provider's SHA256 is copied under [sha256_confirmed]. *)
Lemma map_fields_sha256_confirmed (raw t : pydict) (v : pyval) :
  dict_get "SHA256" raw = Some v ->
  dict_get "sha256_confirmed" (map_fields raw t) = Some v.
Proof.
  intros Hv. unfold map_fields, field_mapping. simpl fold_left.
  rewrite Hv.
  repeat match goal with
         | |- context [match dict_get ?f raw with _ => _ end] =>
             destruct (dict_get f raw)
         end;
  dict_simpl; reflexivity.
Qed.

End TransformerProperties.

Section TransformerClaims.

Variable strptime : string -> option datetime.

(** What every returned record carries, mapping or not: the identifier as
    primary key, the ingestion time, the source tag, the raw input verbatim
    and a completeness score between 0 and 1. *)
Lemma transform_data_populated (raw_data : pyval) (sample_hash : string)
    (now : datetime) (r : pydict) :
  transform_data strptime raw_data sample_hash now = Ok r ->
  dict_get "sha256" r = Some (PStr sample_hash)
  /\ dict_get "ingestion_timestamp" r = Some (PDatetime now)
  /\ dict_get "source" r = Some (PStr "malshare_api")
  /\ dict_get "raw_response" r = Some raw_data
  /\ exists c, dict_get "data_completeness" r = Some (PFloat c)
               /\ (0 <= c /\ c <= 1)%Q.
Proof.
  intros H.
  assert (Hc : exists c, dict_get "data_completeness"
                 (dict_set "data_completeness"
                    (PFloat (_calculate_completeness raw_data)) []) = Some (PFloat c)
               /\ (0 <= c /\ c <= 1)%Q).
  { eexists; split; [reflexivity|apply completeness_bounds]. }
  destruct (is_mapping raw_data) eqn:Hm.
  - destruct raw_data as [| | | | | |raw|]; try discriminate Hm.
    apply transform_data_mapping_ok in H.
    destruct H as (ft & t & _ & Ht & ->).
    apply parse_date_ok in Ht. destruct Ht as [_ Ht].
    assert (Hk : forall k,
               In k ["sha256"; "ingestion_timestamp"; "source";
                     "connector_version"; "raw_response"] ->
               dict_get k t = dict_get k (metadata (PDict raw) sample_hash now)).
    { intros k Hk. destruct Ht as [->|[d ->]].
      - apply map_fields_keeps; exact Hk.
      - rewrite dict_get_set.
        simpl in Hk; decompose [or] Hk; subst; try contradiction;
          simpl String.eqb; cbv iota; apply map_fields_keeps; simpl; auto 6. }
    repeat split; dict_simpl;
      try (rewrite Hk by (simpl; auto 6); reflexivity).
    eexists; split; [reflexivity|apply completeness_bounds].
  - rewrite (transform_data_non_mapping strptime _ _ _ Hm) in H.
    inversion H; subst; clear H.
    repeat split; try reflexivity.
    exists 0%Q. split; [reflexivity|split; discriminate].
Qed.

(** A non-mapping input is transformed, and its record has no
    [sample_type] key. *)
Lemma transform_data_non_mapping_no_sample_type (raw_data : pyval)
    (sample_hash : string) (now : datetime) :
  is_mapping raw_data = false ->
  exists r, transform_data strptime raw_data sample_hash now = Ok r
            /\ dict_contains "sample_type" r = false.
Proof.
  intros Hm. rewrite (transform_data_non_mapping strptime _ _ _ Hm).
  eexists; split; reflexivity.
Qed.

(** The record returned for a mapping has a [sample_type] among the four. *)
Lemma transform_data_mapping_sample_type (raw : pydict) (sample_hash : string)
    (now : datetime) (r : pydict) :
  transform_data strptime (PDict raw) sample_hash now = Ok r ->
  exists ty, dict_get "sample_type" r = Some (PStr ty) /\ In ty sample_types.
Proof.
  intros H. apply transform_data_mapping_ok in H.
  destruct H as (ft & t & _ & _ & ->).
  eexists; split; [dict_simpl; reflexivity|apply sample_type_of_in_types].
Qed.

(** C1. The transform is not total on mappings: a mapping whose F_TYPE is
    not a string makes [.lower()] raise [AttributeError], and a mapping
    whose ADDED is not a string makes [strptime] raise a [TypeError] that
    the handler for [ValueError] does not catch. *)
Theorem transform_data_raises_on_non_text_field :
  forall (sample_hash : string) (now : datetime),
    transform_data strptime (PDict [("F_TYPE", PNone)]) sample_hash now
    = Raise AttributeError
    /\ transform_data strptime (PDict [("ADDED", PInt 20240115)]) sample_hash now
       = Raise TypeError.
Proof. intros; split; reflexivity. Qed.

(** The failing input reaches the transformer through the pipeline: a
    details response with a null F_TYPE aborts the whole run. *)
Example run_etl_pipeline_null_file_type :
  run_etl_pipeline time_sleep_fixture strptime http_null_file_type
                   (store_returns inserted) utcnow_fixed test_connector
                   (Some 10) initial
  = (Raise AttributeError,
     mkState 2 0 1
       [EvRequest "https://malshare.com/api.php"
                  [("api_key", "test_api_key_123"); ("action", "getlist")];
        EvRequest "https://malshare.com/api.php"
                  [("api_key", "test_api_key_123"); ("action", "details");
                   ("hash", "hash1")];
        EvClose]).
Proof. reflexivity. Qed.

(** C9. A mapping whose F_TYPE is a number yields no record, hence no
    [sample_type]: the classification raises before one is assigned. *)
Theorem transform_data_mapping_without_sample_type :
  forall (sample_hash : string) (now : datetime),
    ~ exists r, transform_data strptime
                  (PDict [("MD5", PStr "d41d8cd9"); ("F_TYPE", PInt 7)])
                  sample_hash now = Ok r.
Proof. intros sample_hash now [r H]. discriminate H. Qed.

(** C6. For a mapping whose file type is the string [file_type] (the empty
    string when F_TYPE is absent), the classification step stores the sample
    type given by the priority rules on the lower-cased string, first match
    winning, and every record returned by the transform carries it. *)
Theorem sample_type_classification :
  forall (raw : pydict) (file_type : string),
    dict_get_default "F_TYPE" (PStr EmptyString) raw = PStr file_type ->
    (forall t,
        classify raw t =
        Ok (dict_set "sample_type"
              (PStr (first_match classification_rules (PyStr.lower file_type))) t))
    /\ (forall sample_hash now r,
           transform_data strptime (PDict raw) sample_hash now = Ok r ->
           dict_get "sample_type" r =
           Some (PStr (first_match classification_rules (PyStr.lower file_type)))).
Proof.
  intros raw file_type Hft. split.
  - intros t. unfold classify. rewrite Hft.
    rewrite sample_type_of_first_match. reflexivity.
  - intros sample_hash now r H. apply transform_data_mapping_ok in H.
    destruct H as (ft & t & Hft' & _ & ->).
    rewrite Hft in Hft'. inversion Hft'; subst ft.
    dict_simpl. rewrite sample_type_of_first_match. reflexivity.
Qed.

(** C10. The copy of the provider fields leaves the primary key [sha256]
    equal to the identifier and stores a SHA256 field of the provider under
    the separate key [sha256_confirmed]; a record is returned whenever
    F_TYPE and ADDED are text or absent; and every record returned for a
    mapping has the identifier as [sha256] and the provider's value, which
    may differ from it, as [sha256_confirmed]. *)
Theorem primary_key_is_identifier :
  forall (raw : pydict) (sample_hash : string) (now : datetime),
    let copied := map_fields raw (metadata (PDict raw) sample_hash now) in
    dict_get "sha256" copied = Some (PStr sample_hash)
    /\ (forall v, dict_get "SHA256" raw = Some v ->
                  dict_get "sha256_confirmed" copied = Some v)
    /\ (text_or_absent "F_TYPE" raw = true ->
        text_or_absent "ADDED" raw = true ->
        exists r, transform_data strptime (PDict raw) sample_hash now = Ok r)
    /\ (forall r,
           transform_data strptime (PDict raw) sample_hash now = Ok r ->
           dict_get "sha256" r = Some (PStr sample_hash)
           /\ forall v, dict_get "SHA256" raw = Some v ->
                        dict_get "sha256_confirmed" r = Some v).
Proof.
  intros raw sample_hash now copied. split; [|split; [|split]].
  - unfold copied. rewrite map_fields_keeps by (simpl; auto). reflexivity.
  - intros v Hv. apply map_fields_sha256_confirmed; exact Hv.
  - apply transform_data_mapping_total.
  - intros r H. split.
    + apply (transform_data_populated _ _ _ _ H).
    + intros v Hv. apply transform_data_mapping_ok in H.
      destruct H as (ft & t & _ & Ht & ->).
      apply parse_date_ok in Ht. destruct Ht as [_ [->|[d ->]]];
        dict_simpl; apply map_fields_sha256_confirmed; exact Hv.
Qed.

End TransformerClaims.

(** ** The request executor *)

Lemma after_requests_nil (s : state) : after_requests s 0 [] = s.
Proof.
  destruct s; unfold after_requests; simpl.
  rewrite Nat.add_0_r, app_nil_r. reflexivity.
Qed.

Lemma after_requests_step (s : state) (n : nat) (e : list event)
    (evs : list event) :
  after_requests (mkState (S (gets s)) (writes s) (ticks s) (trace s ++ e)) n evs
  = after_requests s (S n) (e ++ evs).
Proof.
  unfold after_requests; simpl. f_equal; [lia|].
  rewrite app_assoc. reflexivity.
Qed.

Lemma after_requests_twice (s : state) (n m : nat) (e1 e2 : list event) :
  after_requests (after_requests s n e1) m e2
  = after_requests s (n + m) (e1 ++ e2).
Proof.
  unfold after_requests; simpl. f_equal; [lia|].
  rewrite app_assoc. reflexivity.
Qed.

Section ExecutorProperties.

Variable time_sleep : Q -> sleep_outcome.
Variable http_get : nat -> string -> list (string * string) -> get_outcome.
Variable self : connector.
Variable url : string.
Variable params : list (string * string).

(** The back-off of an attempt below index 1024 whose duration the runtime
    accepts: one sleep of [delay * 2^attempt] seconds. *)
Lemma back_off_returns (attempt : nat) (s : state) :
  (attempt < 1024)%nat ->
  time_sleep (exponential_delay self attempt) = SleepReturns ->
  back_off time_sleep self attempt s
  = (Ok tt, after_requests s 0 [EvSleep (exponential_delay self attempt)]).
Proof.
  intros Ha Hs. unfold back_off, bind, lift, backoff_delay.
  replace (1024 <=? attempt)%nat with false
    by (symmetry; apply Nat.leb_gt; exact Ha).
  unfold sleep. unfold exponential_delay in *. rewrite Hs.
  unfold emit, after_requests. rewrite Nat.add_0_r. reflexivity.
Qed.

(** In every case the back-off either sleeps that duration or raises,
    with nothing slept, an exception that is no [RequestException]. *)
Lemma back_off_cases (attempt : nat) (s : state) :
  back_off time_sleep self attempt s
  = (Ok tt, after_requests s 0 [EvSleep (exponential_delay self attempt)])
  \/ exists e,
       back_off time_sleep self attempt s = (Raise e, s)
       /\ is_request_exception e = false.
Proof.
  unfold back_off, bind, lift, backoff_delay.
  destruct (1024 <=? attempt)%nat;
    [right; eexists; split; reflexivity|].
  unfold sleep, exponential_delay, raise.
  destruct (time_sleep _);
    [left|right; eexists; split; reflexivity ..].
  unfold emit, after_requests. rewrite Nat.add_0_r. reflexivity.
Qed.

(** One iteration of the loop, with the monad unfolded. *)
Lemma attempts_cons (attempt : nat) (rest : list nat) (s : state) :
  let s1 := after_requests s 1 [EvRequest url params] in
  let retry :=
    match back_off time_sleep self attempt s1 with
    | (Ok _, s2) => attempts time_sleep http_get self url params rest s2
    | (Raise e, s2) => (Raise e, s2)
    end in
  let handler :=
    if Z.of_nat attempt =? max_retries self - 1 then (Ok PNone, s1)
    else retry in
  attempts time_sleep http_get self url params (attempt :: rest) s =
  match http_get (gets s) url params with
  | GetRaises e => if is_request_exception e then handler else (Raise e, s1)
  | GetReturns r =>
      if status_code r =? 429 then retry
      else if http_error r then handler
      else match payload r with
           | Ok v => (Ok v, s1)
           | Raise e =>
               if is_request_exception e then handler else (Raise e, s1)
           end
  end.
Proof.
  intros s1 retry handler.
  assert (H1 : mkState (S (gets s)) (writes s) (ticks s)
                       (trace s ++ [EvRequest url params]) = s1).
  { unfold s1, after_requests. f_equal. lia. }
  assert (Hr : (back_off time_sleep self attempt ;;;
                attempts time_sleep http_get self url params rest)
                 (mkState (S (gets s)) (writes s) (ticks s)
                          (trace s ++ [EvRequest url params]))
               = retry).
  { unfold retry, bind. rewrite H1. reflexivity. }
  assert (Hh : (if Z.of_nat attempt =? max_retries self - 1 then ret PNone
                else back_off time_sleep self attempt ;;;
                     attempts time_sleep http_get self url params rest)
                 (mkState (S (gets s)) (writes s) (ticks s)
                          (trace s ++ [EvRequest url params]))
               = handler).
  { unfold handler. destruct (Z.of_nat attempt =? max_retries self - 1).
    - unfold ret. rewrite H1. reflexivity.
    - exact Hr. }
  cbn [attempts]. unfold bind at 1, requests_get at 1.
  destruct (http_get (gets s) url params) as [e|r].
  - destruct (is_request_exception e); [exact Hh|].
    unfold raise. rewrite H1. reflexivity.
  - destruct (status_code r =? 429); [exact Hr|].
    destruct (http_error r); [exact Hh|].
    destruct (payload r) as [v|e].
    + unfold ret. rewrite H1. reflexivity.
    + destruct (is_request_exception e); [exact Hh|].
      unfold raise. rewrite H1. reflexivity.
Qed.

Lemma retried_not_terminal (o : get_outcome) :
  retried o = true <-> terminal o = None.
Proof.
  unfold retried, failing, rate_limited, terminal.
  destruct o as [e|r].
  - rewrite orb_false_r. destruct (is_request_exception e); split; congruence.
  - destruct (status_code r =? 429); simpl; [tauto|].
    destruct (http_error r); simpl; [tauto|].
    rewrite orb_false_r.
    destruct (payload r) as [v|e]; [split; congruence|].
    destruct (is_request_exception e); split; congruence.
Qed.

(** An attempt that ends the loop: one request, no sleep. *)
Lemma attempts_cons_terminal (attempt : nat) (rest : list nat) (s : state)
    (r : result pyval) :
  terminal (http_get (gets s) url params) = Some r ->
  attempts time_sleep http_get self url params (attempt :: rest) s =
  (r, after_requests s 1 [EvRequest url params]).
Proof.
  intros Ht. rewrite attempts_cons. cbv zeta. unfold terminal in Ht.
  destruct (http_get (gets s) url params) as [e|resp].
  - destruct (is_request_exception e); [discriminate|congruence].
  - destruct (status_code resp =? 429); [discriminate|].
    destruct (http_error resp); [discriminate|].
    destruct (payload resp) as [v|e]; [congruence|].
    destruct (is_request_exception e); [discriminate|congruence].
Qed.

(** The state after the request and the back-off sleep of an attempt. *)
Lemma after_request_and_sleep (attempt : nat) (s : state) :
  after_requests (after_requests s 1 [EvRequest url params]) 0
    [EvSleep (exponential_delay self attempt)]
  = after_requests s 1
      [EvRequest url params; EvSleep (exponential_delay self attempt)].
Proof. rewrite after_requests_twice. reflexivity. Qed.

(** A failing attempt that is the last of the budget ends the loop with
    [None], without a sleep. *)
Lemma attempts_failing_last (attempt : nat) (rest : list nat) (s : state) :
  failing (http_get (gets s) url params) = true ->
  Z.of_nat attempt = max_retries self - 1 ->
  attempts time_sleep http_get self url params (attempt :: rest) s =
  (Ok PNone, after_requests s 1 [EvRequest url params]).
Proof.
  intros Hf Hl. apply Z.eqb_eq in Hl.
  rewrite attempts_cons. cbv zeta. rewrite Hl. unfold failing in Hf.
  destruct (http_get (gets s) url params) as [e|r].
  - rewrite Hf. reflexivity.
  - apply andb_true_iff in Hf. destruct Hf as [H429 Hf].
    apply negb_true_iff in H429. rewrite H429.
    destruct (http_error r); [reflexivity|].
    simpl in Hf. destruct (payload r) as [v|e]; [discriminate|].
    rewrite Hf. reflexivity.
Qed.

(** A retried attempt that is not the last of the budget, or was rate
    limited, and whose back-off sleep returns: the request, the sleep,
    then the remaining attempts. *)
Lemma attempts_cons_retried_not_last (attempt : nat) (rest : list nat)
    (s : state) :
  retried (http_get (gets s) url params) = true ->
  Z.of_nat attempt <> max_retries self - 1
  \/ rate_limited (http_get (gets s) url params) = true ->
  (attempt < 1024)%nat ->
  time_sleep (exponential_delay self attempt) = SleepReturns ->
  attempts time_sleep http_get self url params (attempt :: rest) s =
  attempts time_sleep http_get self url params rest
    (after_requests s 1
       [EvRequest url params; EvSleep (exponential_delay self attempt)]).
Proof.
  intros Hr Hn Ha Hs. apply retried_not_terminal in Hr.
  rewrite attempts_cons. cbv zeta.
  rewrite (back_off_returns attempt _ Ha Hs), after_request_and_sleep.
  unfold terminal in Hr. unfold rate_limited in Hn.
  destruct (http_get (gets s) url params) as [e|resp].
  - destruct Hn as [Hn|Hn]; [|discriminate Hn].
    apply Z.eqb_neq in Hn. rewrite Hn.
    destruct (is_request_exception e); [reflexivity|discriminate].
  - destruct (status_code resp =? 429); [reflexivity|].
    destruct Hn as [Hn|Hn]; [|discriminate Hn].
    apply Z.eqb_neq in Hn. rewrite Hn.
    destruct (http_error resp); [reflexivity|].
    destruct (payload resp) as [v|e]; [discriminate|].
    destruct (is_request_exception e); [reflexivity|discriminate].
Qed.

(** One rate-limited attempt: the request, the back-off sleep, then the
    remaining attempts, whatever the index of the attempt. *)
Lemma attempts_rate_limited_step (attempt : nat) (rest : list nat) (s : state) :
  rate_limited (http_get (gets s) url params) = true ->
  (attempt < 1024)%nat ->
  time_sleep (exponential_delay self attempt) = SleepReturns ->
  attempts time_sleep http_get self url params (attempt :: rest) s =
  attempts time_sleep http_get self url params rest
    (after_requests s 1
       [EvRequest url params; EvSleep (exponential_delay self attempt)]).
Proof.
  intros Hr Ha Hs. apply attempts_cons_retried_not_last; auto.
  unfold retried. rewrite Hr. apply orb_true_r.
Qed.

(** A retried attempt whose back-off raises: the exception leaves the
    loop after the request, with nothing slept. *)
Lemma attempts_cons_back_off_raises (attempt : nat) (rest : list nat)
    (s : state) (e : exn) :
  retried (http_get (gets s) url params) = true ->
  Z.of_nat attempt <> max_retries self - 1
  \/ rate_limited (http_get (gets s) url params) = true ->
  back_off time_sleep self attempt
    (after_requests s 1 [EvRequest url params])
  = (Raise e, after_requests s 1 [EvRequest url params]) ->
  attempts time_sleep http_get self url params (attempt :: rest) s =
  (Raise e, after_requests s 1 [EvRequest url params]).
Proof.
  intros Hr Hn Hb. apply retried_not_terminal in Hr.
  rewrite attempts_cons. cbv zeta. rewrite Hb.
  unfold terminal in Hr. unfold rate_limited in Hn.
  destruct (http_get (gets s) url params) as [e0|resp].
  - destruct Hn as [Hn|Hn]; [|discriminate Hn].
    apply Z.eqb_neq in Hn. rewrite Hn.
    destruct (is_request_exception e0); [reflexivity|discriminate].
  - destruct (status_code resp =? 429); [reflexivity|].
    destruct Hn as [Hn|Hn]; [|discriminate Hn].
    apply Z.eqb_neq in Hn. rewrite Hn.
    destruct (http_error resp); [reflexivity|].
    destruct (payload resp) as [v|e0]; [discriminate|].
    destruct (is_request_exception e0); [reflexivity|discriminate].
Qed.

(** One successful attempt returns the payload of its response. *)
Lemma attempts_success_step (attempt : nat) (rest : list nat) (s : state)
    (r : response) (v : pyval) :
  http_get (gets s) url params = GetReturns r ->
  status_code r <> 429 -> http_error r = false -> payload r = Ok v ->
  attempts time_sleep http_get self url params (attempt :: rest) s =
  (Ok v, after_requests s 1 [EvRequest url params]).
Proof.
  intros Hg H429 He Hp. apply attempts_cons_terminal.
  unfold terminal. rewrite Hg. apply Z.eqb_neq in H429.
  rewrite H429, He, Hp. reflexivity.
Qed.

(** When every attempt fails and the runtime sleeps the back-off delays,
    the loop over the last [k] indices of the budget makes [k] requests
    with a sleep between two of them and returns [None]. *)
Lemma attempts_all_failing (k : nat) :
  (forall n, failing (http_get n url params) = true) ->
  forall (a : nat) (s : state),
    (a + k = Z.to_nat (max_retries self))%nat ->
    (a + k <= 1025)%nat ->
    (forall j, (a <= j < a + k - 1)%nat ->
               time_sleep (exponential_delay self j) = SleepReturns) ->
    attempts time_sleep http_get self url params (seq a k) s =
    (Ok PNone, after_requests s k (failure_trace self url params a k)).
Proof.
  intros Hf. induction k as [|k IH]; intros a s Hk Hmax Hsleep.
  - simpl. unfold ret. rewrite after_requests_nil. reflexivity.
  - cbn [seq]. destruct k as [|k].
    + rewrite attempts_failing_last; [reflexivity|apply Hf|lia].
    + rewrite attempts_cons_retried_not_last.
      * rewrite IH; [|lia|lia|intros j Hj; apply Hsleep; lia].
        rewrite after_requests_twice. reflexivity.
      * unfold retried. rewrite Hf. reflexivity.
      * left. lia.
      * lia.
      * apply Hsleep. lia.
Qed.

(** When every attempt is rate limited and the runtime sleeps the
    back-off delays, the loop over [k] indices makes [k] requests, sleeps
    after each of them and returns [None]. *)
Lemma attempts_all_rate_limited (k : nat) :
  (forall n, rate_limited (http_get n url params) = true) ->
  forall (a : nat) (s : state),
    (a + k <= 1024)%nat ->
    (forall j, (a <= j < a + k)%nat ->
               time_sleep (exponential_delay self j) = SleepReturns) ->
    attempts time_sleep http_get self url params (seq a k) s =
    (Ok PNone, after_requests s k (rate_limited_trace self url params a k)).
Proof.
  intros Hr. induction k as [|k IH]; intros a s Hmax Hsleep.
  - simpl. unfold ret. rewrite after_requests_nil. reflexivity.
  - cbn [seq]. rewrite attempts_rate_limited_step;
      [|apply Hr|lia|apply Hsleep; lia].
    rewrite IH; [|lia|intros j Hj; apply Hsleep; lia].
    rewrite after_requests_twice. reflexivity.
Qed.

End ExecutorProperties.

Lemma failure_trace_requests (self : connector) (url : string)
    (params : list (string * string)) (k a : nat) :
  requests_in (failure_trace self url params a k) = k.
Proof.
  revert a; induction k as [|k IH]; intros a; [reflexivity|].
  destruct k as [|k]; [reflexivity|].
  cbn [failure_trace requests_in]. f_equal. apply (IH (S a)).
Qed.

Lemma failure_trace_sleeps (self : connector) (url : string)
    (params : list (string * string)) (k a : nat) :
  sleeps_in (failure_trace self url params a k) =
  map (exponential_delay self) (seq a (k - 1)).
Proof.
  revert a; induction k as [|k IH]; intros a; [reflexivity|].
  destruct k as [|k]; [reflexivity|].
  change (failure_trace self url params a (S (S k)))
    with (EvRequest url params :: EvSleep (exponential_delay self a)
          :: failure_trace self url params (S a) (S k)).
  cbn [sleeps_in]. rewrite (IH (S a)).
  replace (S (S k) - 1)%nat with (S (S k - 1)) by lia. reflexivity.
Qed.

Lemma rate_limited_trace_sleeps (self : connector) (url : string)
    (params : list (string * string)) (k a : nat) (tl : list event) :
  sleeps_in (rate_limited_trace self url params a k ++ tl)
  = (map (exponential_delay self) (seq a k) ++ sleeps_in tl)%list.
Proof.
  revert a; induction k as [|k IH]; intros a; [reflexivity|].
  cbn [rate_limited_trace seq map app sleeps_in]. rewrite IH. reflexivity.
Qed.

Lemma rate_limited_trace_requests (self : connector) (url : string)
    (params : list (string * string)) (k a : nat) (tl : list event) :
  requests_in (rate_limited_trace self url params a k ++ tl)
  = (k + requests_in tl)%nat.
Proof.
  revert a; induction k as [|k IH]; intros a; [reflexivity|].
  cbn [rate_limited_trace app requests_in]. rewrite IH. reflexivity.
Qed.

(** C2 (as stated, refuted).  With RATE_LIMIT_DELAY set to -0.1 and a
    provider that cannot be reached, the back-off after the first attempt
    asks [time.sleep] for a negative duration: its [ValueError] leaves the
    executor after one request of a budget of two. *)
Lemma make_api_request_negative_delay :
  _make_api_request time_sleep_fixture http_network_error
                    negative_delay_connector "details"
                    [("hash", fixture_hash)] initial
  = (Raise ValueError,
     mkState 1 0 0
       [EvRequest "https://malshare.com/api.php"
                  [("api_key", "test_api_key_123"); ("action", "details");
                   ("hash", fixture_hash)]]).
Proof. reflexivity. Qed.

(** The other way the back-off raises: with a budget of 1026 attempts the
    product of attempt 1024 overflows, after 1025 requests. *)
Example make_api_request_backoff_overflow :
  let run := _make_api_request time_sleep_fixture http_network_error
               large_budget_connector "getlist" [] initial in
  fst run = Raise OverflowError /\ gets (snd run) = 1025%nat.
Proof. vm_compute. split; reflexivity. Qed.

(** C2 (amended).  When every attempt of a request ends in a non-429
    failure, the budget is at most 1025 attempts and [time.sleep] returns
    for each of the back-off delays, the executor returns [None] without
    raising, after exactly [max_retries] requests, having slept
    [rate_limit_delay * 2 ^ attempt] seconds after each attempt but the
    last. *)
Theorem make_api_request_exhausts_retries :
  forall (time_sleep : Q -> sleep_outcome)
         (http_get : nat -> string -> list (string * string) -> get_outcome)
         (self : connector) (endpoint : string)
         (params : list (string * string)) (s : state),
    (forall n url q, failing (http_get n url q) = true) ->
    let n := Z.to_nat (max_retries self) in
    let delay := fun attempt : nat =>
      (rate_limit_delay self * inject_Z (2 ^ Z.of_nat attempt))%Q in
    (n <= 1025)%nat ->
    (forall attempt, (attempt < n - 1)%nat ->
                     time_sleep (delay attempt) = SleepReturns) ->
    let evs := failure_trace self (request_url self)
                 (request_query self endpoint params) 0 n in
    _make_api_request time_sleep http_get self endpoint params s
    = (Ok PNone, after_requests s n evs)
    /\ requests_in evs = n
    /\ (0 <= max_retries self -> Z.of_nat (requests_in evs) = max_retries self)
    /\ sleeps_in evs = map delay (seq 0 (n - 1)).
Proof.
  intros time_sleep http_get self endpoint params s Hf n delay Hmax Hsleep evs.
  split; [|split; [|split]].
  - unfold _make_api_request, range.
    apply attempts_all_failing;
      [intros k; apply Hf|reflexivity|exact Hmax|].
    intros j Hj. apply Hsleep. fold n in Hj. lia.
  - apply failure_trace_requests.
  - intros H0. unfold evs. rewrite failure_trace_requests. unfold n. lia.
  - unfold evs. rewrite failure_trace_sleeps. reflexivity.
Qed.

(** C3 (as stated, refuted).  With RATE_LIMIT_DELAY set to -0.1, a
    rate-limited first attempt is followed by no retry: [time.sleep]
    refuses the negative duration and its [ValueError] leaves the
    executor, although the second attempt would have succeeded. *)
Lemma make_api_request_rate_limited_negative_delay :
  _make_api_request time_sleep_fixture http_rate_limited_once
                    negative_delay_connector "details"
                    [("hash", fixture_hash)] initial
  = (Raise ValueError,
     mkState 1 0 0
       [EvRequest "https://malshare.com/api.php"
                  [("api_key", "test_api_key_123"); ("action", "details");
                   ("hash", fixture_hash)]]).
Proof. reflexivity. Qed.

(** C3 (amended).  A rate-limited attempt below index 1024 whose back-off
    [time.sleep] accepts, whatever its index, is followed by a sleep of
    [rate_limit_delay * 2 ^ attempt] seconds and by the remaining attempts
    of the budget; when every attempt is rate limited the executor returns
    [None] after [max_retries] requests, each followed by its sleep; and a
    rate-limited first attempt followed by a successful second one gives
    one sleep and the payload of the second response. *)
Theorem make_api_request_rate_limited :
  forall (time_sleep : Q -> sleep_outcome)
         (http_get : nat -> string -> list (string * string) -> get_outcome)
         (self : connector) (endpoint : string)
         (params : list (string * string)) (s : state),
    let url := request_url self in
    let q := request_query self endpoint params in
    let delay := fun attempt : nat =>
      (rate_limit_delay self * inject_Z (2 ^ Z.of_nat attempt))%Q in
    (forall attempt rest,
        rate_limited (http_get (gets s) url q) = true ->
        (attempt < 1024)%nat ->
        time_sleep (delay attempt) = SleepReturns ->
        attempts time_sleep http_get self url q (attempt :: rest) s =
        attempts time_sleep http_get self url q rest
          (after_requests s 1 [EvRequest url q; EvSleep (delay attempt)]))
    /\ ((forall n, rate_limited (http_get n url q) = true) ->
        let n := Z.to_nat (max_retries self) in
        (n <= 1024)%nat ->
        (forall attempt, (attempt < n)%nat ->
                         time_sleep (delay attempt) = SleepReturns) ->
        let evs := rate_limited_trace self url q 0 n in
        _make_api_request time_sleep http_get self endpoint params s
        = (Ok PNone, after_requests s n evs)
        /\ requests_in evs = n
        /\ sleeps_in evs = map delay (seq 0 n))
    /\ (forall r v,
           2 <= max_retries self ->
           time_sleep (delay 0%nat) = SleepReturns ->
           rate_limited (http_get (gets s) url q) = true ->
           http_get (S (gets s)) url q = GetReturns r ->
           status_code r <> 429 -> http_error r = false -> payload r = Ok v ->
           _make_api_request time_sleep http_get self endpoint params s =
           (Ok v,
            after_requests s 2
              [EvRequest url q; EvSleep (delay 0%nat); EvRequest url q])).
Proof.
  intros time_sleep http_get self endpoint params s url q delay.
  split; [|split].
  - intros attempt rest Hr Ha Hs.
    apply attempts_rate_limited_step; assumption.
  - intros Hr n Hmax Hsleep evs. split; [|split].
    + unfold _make_api_request, range.
      apply attempts_all_rate_limited;
        [exact Hr|exact Hmax|intros j Hj; apply Hsleep; fold n in Hj; lia].
    + unfold evs.
      rewrite <- (app_nil_r (rate_limited_trace self url q 0 n)).
      rewrite rate_limited_trace_requests. simpl. lia.
    + unfold evs.
      rewrite <- (app_nil_r (rate_limited_trace self url q 0 n)).
      rewrite rate_limited_trace_sleeps. simpl. apply app_nil_r.
  - intros r v H2 Hs Hr Hg H429 He Hp.
    unfold _make_api_request, range.
    destruct (Z.to_nat (max_retries self)) as [|[|k]] eqn:Hn; try lia.
    cbn [seq]. fold url q.
    rewrite attempts_rate_limited_step; [|exact Hr|lia|exact Hs].
    rewrite (attempts_success_step time_sleep http_get self url q 1 (seq 2 k)
               _ r v); try assumption.
    + rewrite after_requests_twice. reflexivity.
    + simpl gets. rewrite Nat.add_1_r. exact Hg.
Qed.

(** ** The loader *)

(** C4. For every record with its primary key, [load_data] returns a
    boolean and does not raise: [True] whenever the store returns, be it an
    insert, a replacement with a change or one without, and [False]
    whenever the store raises, whatever the exception. *)
Theorem load_data_returns_boolean :
  forall (replace_one : nat -> pydict -> pydict -> replace_outcome)
         (transformed_data : pydict) (key : pyval) (s : state),
    dict_get "sha256" transformed_data = Some key ->
    let filter := [("sha256", key)] in
    load_data replace_one transformed_data s =
    (Ok (load_outcome (replace_one (writes s) filter transformed_data)),
     mkState (gets s) (S (writes s)) (ticks s)
             (trace s ++ [EvReplaceOne filter transformed_data])).
Proof.
  intros replace_one transformed_data key s Hk filter.
  unfold load_data, try_except, bind, lift, dict_index, collection_replace_one.
  rewrite Hk. fold filter.
  destruct (replace_one (writes s) filter transformed_data) as [e|r]; simpl.
  - reflexivity.
  - destruct (truthy (upserted_id r) || (modified_count r >? 0)); reflexivity.
Qed.

(** Every record the transformer returns has its primary key. *)
Lemma transform_data_has_primary_key
    (strptime : string -> option datetime) (raw_data : pyval)
    (sample_hash : string) (now : datetime) (r : pydict) :
  transform_data strptime raw_data sample_hash now = Ok r ->
  dict_get "sha256" r = Some (PStr sample_hash).
Proof. intros H. apply (transform_data_populated _ _ _ _ _ H). Qed.

(** Outside the data model: a dictionary without the key [sha256] makes
    the handler itself raise, when it formats its log line. *)
Example load_data_without_primary_key :
  fst (load_data (store_returns inserted) [("source", PStr "test")] initial)
  = Raise (KeyError "sha256").
Proof. reflexivity. Qed.

(** ** The extractor *)

Lemma strip_nonempty_lines (lines : list string) :
  strip_nonempty (map PStr lines) = Ok (trimmed_lines lines).
Proof.
  induction lines as [|l lines IH]; [reflexivity|].
  cbn [map strip_nonempty]. rewrite IH. unfold trimmed_lines.
  cbn [map filter]. destruct (PyStr.nonempty (PyStr.strip l)); reflexivity.
Qed.

(** C5 (as stated, refuted).  With the limit -1 the slice drops the last
    entry instead of truncating: two lines give one identifier, which is
    more than the limit. *)
Lemma extract_sample_list_negative_limit :
  fst (extract_sample_list time_sleep_fixture (http_text two_lines)
                           test_connector (-1) initial)
  = Ok ["hash1"]
  /\ ~ Z.of_nat (List.length ["hash1"]) <= -1.
Proof. split; [reflexivity|simpl; lia]. Qed.

(** C5 (amended).  When the executor reports no data ([None], or any
    falsy value) the extractor returns the empty list.  When it returns a
    mapping with the lines under ['data'] and the limit is not negative,
    the extractor returns the trimmed non-empty lines in their original
    order, cut to the first [limit] of them, so at most [limit] entries. *)
Theorem extract_sample_list_trims_and_truncates :
  forall (time_sleep : Q -> sleep_outcome)
         (http_get : nat -> string -> list (string * string) -> get_outcome)
         (self : connector) (limit : Z) (s s' : state) (response : pyval),
    _make_api_request time_sleep http_get self "getlist" [] s
    = (Ok response, s') ->
    (truthy response = false ->
     extract_sample_list time_sleep http_get self limit s = (Ok [], s'))
    /\ (forall d lines,
           response = PDict d ->
           dict_get "data" d = Some (PList (map PStr lines)) ->
           0 <= limit ->
           let samples := firstn (Z.to_nat limit) (trimmed_lines lines) in
           extract_sample_list time_sleep http_get self limit s = (Ok samples,
               s')
           /\ Z.of_nat (List.length samples) <= limit).
Proof.
  intros time_sleep http_get self limit s s' response Hreq. split.
  - intros Hf. unfold extract_sample_list, bind. rewrite Hreq.
    unfold lift. rewrite Hf. reflexivity.
  - intros d lines -> Hd Hl samples. split.
    + unfold extract_sample_list, bind. rewrite Hreq.
      unfold lift, py_contains, dict_contains, py_getitem, dict_index.
      rewrite Hd.
      assert (Ht : truthy (PDict d) = true)
        by (destruct d; [discriminate Hd|reflexivity]).
      rewrite Ht. cbn [negb py_iter]. rewrite strip_nonempty_lines.
      unfold slice_to.
      replace (0 <=? limit) with true by (symmetry; apply Z.leb_le; exact Hl).
      reflexivity.
    + unfold samples. rewrite length_firstn. lia.
Qed.

(** The example of the specification and of the tests: the list
    hash1, hash2, hash3 and an empty line, with limit 10; and a provider
    that cannot be reached. *)
Lemma extract_sample_list_trims_and_truncates_witness :
  extract_sample_list time_sleep_fixture
                      (http_json (list_response sample_list_lines))
                      test_connector 10 initial
  = (Ok ["hash1"; "hash2"; "hash3"],
     mkState 1 0 0
       [EvRequest "https://malshare.com/api.php"
                  [("api_key", "test_api_key_123"); ("action", "getlist")]])
  /\ fst (extract_sample_list time_sleep_fixture http_network_error
                              test_connector 10 initial)
     = Ok [].
Proof.
  split.
  - refine (proj1 (proj2
      (extract_sample_list_trims_and_truncates
         time_sleep_fixture
         (http_json (list_response sample_list_lines)) test_connector 10
         initial _ _ eq_refl)
      _ sample_list_lines eq_refl eq_refl _)).
    lia.
  - rewrite (proj1
      (extract_sample_list_trims_and_truncates
         time_sleep_fixture http_network_error test_connector 10 initial
         _ _ eq_refl) eq_refl).
    reflexivity.
Defined.

(** ** The orchestrator *)

(** C8 (as stated, refuted).  Called without a limit, the orchestrator
    processes all 26 identifiers of a provider that lists 26, which a limit
    of 25 would not do. *)
Lemma run_etl_pipeline_default_is_not_25 :
  In (EvSummary 26 0 26) (trace (snd (run_on_26 None)))
  /\ In (EvSummary 25 0 25) (trace (snd (run_on_26 (Some 25))))
  /\ run_on_26 None <> run_on_26 (Some 25).
Proof.
  split; [|split].
  - vm_compute. tauto.
  - vm_compute. tauto.
  - vm_compute. intros H. discriminate H.
Qed.

(** C8 (amended).  Called without a limit, the orchestrator asks the
    extractor for up to 50 identifiers; the default of 25 is the one [main]
    uses when SAMPLE_LIMIT is not set in the environment, and [main] passes
    it explicitly. *)
Theorem run_etl_pipeline_default_limits :
  forall (time_sleep : Q -> sleep_outcome)
         (strptime : string -> option datetime)
         (http_get : nat -> string -> list (string * string) -> get_outcome)
         (replace_one : nat -> pydict -> pydict -> replace_outcome)
         (utcnow : nat -> datetime) (self : connector) (s : state),
    run_etl_pipeline time_sleep strptime http_get replace_one utcnow self
                     None s
    = run_etl_pipeline time_sleep strptime http_get replace_one utcnow self
                       (Some 50) s
    /\ forall getenv,
         getenv "SAMPLE_LIMIT" = None ->
         main time_sleep strptime http_get replace_one utcnow self getenv s
         = try_except
             (bind (run_etl_pipeline time_sleep strptime http_get replace_one
                                     utcnow self (Some 25))
                   (fun _ => ret 0))
             (fun _ => ret 1) s.
Proof.
  intros. split; [reflexivity|].
  intros getenv Henv. unfold main. rewrite Henv. reflexivity.
Qed.

Lemma run_etl_pipeline_default_limits_witness :
  main time_sleep_fixture strptime_rejects (http_list_then_errors 26)
       store_raises utcnow_fixed single_attempt_connector getenv_empty initial
  = (Ok 0, snd (run_on_26 (Some 25))).
Proof.
  rewrite (proj2 (run_etl_pipeline_default_limits
                    time_sleep_fixture
                    strptime_rejects (http_list_then_errors 26) store_raises
                    utcnow_fixed single_attempt_connector initial)
                 getenv_empty eq_refl).
  vm_compute. reflexivity.
Defined.

(** ** The claims at the fixtures of the tests *)

(** [test_make_api_request_max_retries_exceeded]: two attempts, one sleep
    of 0.1 s between them, [None]; and the default configuration: three
    attempts with sleeps of 1 s and 2 s between them. *)
Lemma make_api_request_exhausts_retries_witness :
  _make_api_request time_sleep_fixture http_network_error test_connector
                    "details" [("hash", fixture_hash)] initial
  = (Ok PNone,
     mkState 2 0 0
       [EvRequest "https://malshare.com/api.php"
                  [("api_key", "test_api_key_123"); ("action", "details");
                   ("hash", fixture_hash)];
        EvSleep (1 # 10);
        EvRequest "https://malshare.com/api.php"
                  [("api_key", "test_api_key_123"); ("action", "details");
                   ("hash", fixture_hash)]])
  /\ _make_api_request time_sleep_fixture http_network_error default_connector
                       "getlist" [] initial
     = (Ok PNone,
        mkState 3 0 0
          [EvRequest "https://malshare.com/api.php"
                     [("api_key", "test_api_key_123"); ("action", "getlist")];
           EvSleep (1 # 1);
           EvRequest "https://malshare.com/api.php"
                     [("api_key", "test_api_key_123"); ("action", "getlist")];
           EvSleep (2 # 1);
           EvRequest "https://malshare.com/api.php"
                     [("api_key", "test_api_key_123"); ("action", "getlist")]]).
Proof.
  split.
  - refine (proj1 (make_api_request_exhausts_retries
                     time_sleep_fixture http_network_error test_connector
                     "details" [("hash", fixture_hash)] initial
                     (fun _ _ _ => eq_refl) _ _)).
    + simpl. lia.
    + intros [|attempt] Ha; [reflexivity|simpl in Ha; lia].
  - refine (proj1 (make_api_request_exhausts_retries
                     time_sleep_fixture http_network_error default_connector
                     "getlist" [] initial (fun _ _ _ => eq_refl) _ _)).
    + simpl. lia.
    + intros [|[|attempt]] Ha; [reflexivity|reflexivity|simpl in Ha; lia].
Defined.

(** [test_make_api_request_rate_limit]: a 429, one sleep, the payload of
    the second response; and the default configuration against a provider
    that always answers 429: three attempts, each followed by its sleep,
    of 1 s, 2 s and 4 s. *)
Lemma make_api_request_rate_limited_witness :
  _make_api_request time_sleep_fixture http_rate_limited_once test_connector
                    "details" [("hash", fixture_hash)] initial
  = (Ok (PDict sample_api_response),
     mkState 2 0 0
       [EvRequest "https://malshare.com/api.php"
                  [("api_key", "test_api_key_123"); ("action", "details");
                   ("hash", fixture_hash)];
        EvSleep (1 # 10);
        EvRequest "https://malshare.com/api.php"
                  [("api_key", "test_api_key_123"); ("action", "details");
                   ("hash", fixture_hash)]])
  /\ _make_api_request time_sleep_fixture http_always_rate_limited
                       default_connector "getlist" [] initial
     = (Ok PNone,
        mkState 3 0 0
          [EvRequest "https://malshare.com/api.php"
                     [("api_key", "test_api_key_123"); ("action", "getlist")];
           EvSleep (1 # 1);
           EvRequest "https://malshare.com/api.php"
                     [("api_key", "test_api_key_123"); ("action", "getlist")];
           EvSleep (2 # 1);
           EvRequest "https://malshare.com/api.php"
                     [("api_key", "test_api_key_123"); ("action", "getlist")];
           EvSleep (4 # 1)]).
Proof.
  split.
  - refine (proj2 (proj2 (make_api_request_rate_limited
                            time_sleep_fixture http_rate_limited_once
                            test_connector "details"
                            [("hash", fixture_hash)] initial))
                  success_response (PDict sample_api_response)
                  _ eq_refl eq_refl eq_refl _ eq_refl eq_refl).
    all: simpl; lia.
  - refine (proj1 (proj1 (proj2 (make_api_request_rate_limited
                                   time_sleep_fixture http_always_rate_limited
                                   default_connector "getlist" [] initial))
                         (fun _ => eq_refl) _ _)).
    + simpl. lia.
    + intros [|[|[|attempt]]] Ha;
        [reflexivity|reflexivity|reflexivity|simpl in Ha; lia].
Defined.

(** [test_load_data_success] and [test_load_data_failure], and the two
    kinds of replacement. *)
Lemma load_data_returns_boolean_witness :
  fst (load_data (store_returns inserted) test_data initial) = Ok true
  /\ fst (load_data (store_returns replaced_changed) test_data initial) = Ok true
  /\ fst (load_data (store_returns replaced_unchanged) test_data initial) = Ok true
  /\ fst (load_data store_raises test_data initial) = Ok false.
Proof.
  split; [|split; [|split]].
  - rewrite (load_data_returns_boolean (store_returns inserted) test_data
               (PStr fixture_hash) initial eq_refl). reflexivity.
  - rewrite (load_data_returns_boolean (store_returns replaced_changed)
               test_data (PStr fixture_hash) initial eq_refl). reflexivity.
  - rewrite (load_data_returns_boolean (store_returns replaced_unchanged)
               test_data (PStr fixture_hash) initial eq_refl). reflexivity.
  - rewrite (load_data_returns_boolean store_raises test_data
               (PStr fixture_hash) initial eq_refl). reflexivity.
Defined.

(** The four examples of the specification, and the record of
    [test_transform_data_success]. *)
Lemma sample_type_classification_witness :
  classify [("F_TYPE", PStr "PE32 executable")] []
  = Ok [("sample_type", PStr "executable")]
  /\ classify [("F_TYPE", PStr "PDF document")] []
     = Ok [("sample_type", PStr "document")]
  /\ classify [("F_TYPE", PStr "ZIP archive")] []
     = Ok [("sample_type", PStr "archive")]
  /\ classify [("F_TYPE", PStr "Unknown file type")] []
     = Ok [("sample_type", PStr "unknown")]
  /\ classify [("MD5", PStr "d41d8cd9")] []
     = Ok [("sample_type", PStr "unknown")]
  /\ exists r,
       transform_data strptime_fixed (PDict sample_api_response)
                      fixture_hash fixture_now = Ok r
       /\ dict_get "sample_type" r = Some (PStr "executable").
Proof.
  split; [|split; [|split; [|split; [|split]]]].
  - exact (proj1 (sample_type_classification strptime_fixed
                    [("F_TYPE", PStr "PE32 executable")] _ eq_refl) []).
  - exact (proj1 (sample_type_classification strptime_fixed
                    [("F_TYPE", PStr "PDF document")] _ eq_refl) []).
  - exact (proj1 (sample_type_classification strptime_fixed
                    [("F_TYPE", PStr "ZIP archive")] _ eq_refl) []).
  - exact (proj1 (sample_type_classification strptime_fixed
                    [("F_TYPE", PStr "Unknown file type")] _ eq_refl) []).
  - exact (proj1 (sample_type_classification strptime_fixed
                    [("MD5", PStr "d41d8cd9")] _ eq_refl) []).
  - eexists. split; [reflexivity|].
    exact (proj2 (sample_type_classification strptime_fixed
                    sample_api_response _ eq_refl)
                 fixture_hash fixture_now _ eq_refl).
Defined.

(** A provider record whose SHA256 differs from the identifier. *)
Lemma primary_key_is_identifier_witness :
  exists r,
    transform_data strptime_rejects
                   (PDict [("SHA256", PStr "provider")]) "identifier"
                   fixture_now = Ok r
    /\ dict_get "sha256" r = Some (PStr "identifier")
    /\ dict_get "sha256_confirmed" r = Some (PStr "provider").
Proof.
  destruct (primary_key_is_identifier strptime_rejects
              [("SHA256", PStr "provider")] "identifier" fixture_now)
    as (_ & _ & Htotal & Hrecord).
  destruct (Htotal eq_refl eq_refl) as [r Hr].
  exists r. destruct (Hrecord r Hr) as [Hkey Hconfirmed].
  split; [exact Hr|split; [exact Hkey|apply Hconfirmed; reflexivity]].
Defined.

(** * Further properties *)

(** ** The request executor: budget, retries and unexpected errors *)

Section ExecutorFurther.

Variable time_sleep : Q -> sleep_outcome.
Variable http_get : nat -> string -> list (string * string) -> get_outcome.
Variable self : connector.
Variable url : string.
Variable params : list (string * string).

(** Whatever the provider answers and whatever [time.sleep] does, the loop
    makes at most one request per index of its range, sleeps at most once
    per request, does nothing but requests to [url] and back-off sleeps,
    and lets no [RequestException] out. *)
Lemma attempts_footprint (rng : list nat) :
  forall s : state,
  exists (r : result pyval) (evs : list event),
    attempts time_sleep http_get self url params rng s
    = (r, after_requests s (requests_in evs) evs)
    /\ (requests_in evs <= List.length rng)%nat
    /\ (List.length (sleeps_in evs) <= requests_in evs)%nat
    /\ Forall (fun e => e = EvRequest url params
                        \/ exists a, In a rng
                                     /\ e = EvSleep (exponential_delay self a))
              evs
    /\ (forall e, r = Raise e -> is_request_exception e = false).
Proof.
  induction rng as [|a rest IH]; intros s.
  - exists (Ok PNone), []. simpl. unfold ret. rewrite after_requests_nil.
    repeat split; auto. intros e He; discriminate He.
  - set (P := fun x : result pyval * state =>
                exists (r : result pyval) (evs : list event),
                  x = (r, after_requests s (requests_in evs) evs)
                  /\ (requests_in evs <= List.length (a :: rest))%nat
                  /\ (List.length (sleeps_in evs) <= requests_in evs)%nat
                  /\ Forall (fun e =>
                               e = EvRequest url params
                               \/ exists b,
                                    In b (a :: rest)
                                    /\ e = EvSleep (exponential_delay self b))
                            evs
                  /\ (forall e, r = Raise e -> is_request_exception e = false)).
    change (P (attempts time_sleep http_get self url params (a :: rest) s)).
    rewrite attempts_cons. cbv zeta.
    set (s1 := after_requests s 1 [EvRequest url params]).
    assert (Hend : forall r : result pyval,
               (forall e, r = Raise e -> is_request_exception e = false) ->
               P (r, s1)).
    { intros r Hr. exists r, [EvRequest url params]. simpl.
      split; [reflexivity|]. split; [lia|]. split; [lia|].
      split; [constructor; auto|exact Hr]. }
    assert (Hretry :
              P (match back_off time_sleep self a s1 with
                 | (Ok _, s2) =>
                     attempts time_sleep http_get self url params rest s2
                 | (Raise e, s2) => (Raise e, s2)
                 end)).
    { destruct (back_off_cases time_sleep self a s1) as [Hb|(e & Hb & He)];
        rewrite Hb.
      - destruct (IH (after_requests s1 0
                        [EvSleep (exponential_delay self a)]))
          as (r & evs & Hrun & Hreq & Hsl & Hall & Hexn).
        exists r,
          (EvRequest url params :: EvSleep (exponential_delay self a) :: evs).
        rewrite Hrun. unfold s1. rewrite !after_requests_twice.
        split; [reflexivity|]. split; [simpl; lia|]. split; [simpl; lia|].
        split; [|exact Hexn].
        constructor; [left; reflexivity|].
        constructor; [right; exists a; simpl; auto|].
        eapply Forall_impl; [|exact Hall].
        intros e [He|(b & Hb' & He)]; [left; exact He|].
        right. exists b. simpl. auto.
      - apply Hend. intros e0 H. inversion H; subst. exact He. }
    assert (Hhandler :
              P (if Z.of_nat a =? max_retries self - 1 then (Ok PNone, s1)
                 else match back_off time_sleep self a s1 with
                      | (Ok _, s2) =>
                          attempts time_sleep http_get self url params rest s2
                      | (Raise e, s2) => (Raise e, s2)
                      end)).
    { destruct (Z.of_nat a =? max_retries self - 1); [|exact Hretry].
      apply Hend. intros e H; discriminate H. }
    destruct (http_get (gets s) url params) as [e|resp].
    + destruct (is_request_exception e) eqn:E; [exact Hhandler|].
      apply Hend. intros e0 H. inversion H; subst. exact E.
    + destruct (status_code resp =? 429); [exact Hretry|].
      destruct (http_error resp); [exact Hhandler|].
      destruct (payload resp) as [v|e];
        [apply Hend; intros e H; discriminate H|].
      destruct (is_request_exception e) eqn:E; [exact Hhandler|].
      apply Hend. intros e0 H. inversion H; subst. exact E.
Qed.

(** After [k] retried attempts that are not the last of the budget and
    whose back-off sleeps return, an attempt that ends the loop gives its
    result: [k + 1] requests and the [k] back-off sleeps between them. *)
Lemma attempts_retry_then_end (k : nat) :
  forall (a m : nat) (s : state) (r : result pyval),
    (k < m)%nat ->
    (a + m = Z.to_nat (max_retries self))%nat ->
    (a + k <= 1024)%nat ->
    (forall j, (j < k)%nat ->
               retried (http_get (gets s + j) url params) = true) ->
    (forall j, (a <= j < a + k)%nat ->
               time_sleep (exponential_delay self j) = SleepReturns) ->
    terminal (http_get (gets s + k) url params) = Some r ->
    attempts time_sleep http_get self url params (seq a m) s =
    (r, after_requests s (S k)
          (rate_limited_trace self url params a k ++ [EvRequest url params])).
Proof.
  induction k as [|k IH]; intros a m s r Hk Hm Hmax Hretried Hsleep Hend;
    destruct m as [|m]; try lia; cbn [seq].
  - rewrite Nat.add_0_r in Hend.
    apply attempts_cons_terminal; exact Hend.
  - rewrite attempts_cons_retried_not_last.
    + rewrite (IH (S a) m _ r); try lia.
      * rewrite after_requests_twice. reflexivity.
      * intros j Hj. simpl gets.
        replace (gets s + 1 + j)%nat with (gets s + S j)%nat by lia.
        apply Hretried. lia.
      * intros j Hj. apply Hsleep. lia.
      * simpl gets.
        replace (gets s + 1 + k)%nat with (gets s + S k)%nat by lia.
        exact Hend.
    + specialize (Hretried 0%nat). rewrite Nat.add_0_r in Hretried.
      apply Hretried. lia.
    + left. lia.
    + lia.
    + apply Hsleep. lia.
Qed.

Lemma back_off_raises (attempt : nat) (s : state) (e : exn) :
  back_off_exception time_sleep self attempt = Some e ->
  back_off time_sleep self attempt s = (Raise e, s)
  /\ is_request_exception e = false.
Proof.
  unfold back_off_exception, back_off, bind, lift, backoff_delay.
  destruct (1024 <=? attempt)%nat.
  - intros H; inversion H; subst. split; reflexivity.
  - unfold sleep, exponential_delay, raise.
    destruct (time_sleep _); simpl; intros H; inversion H; subst;
      split; reflexivity.
Qed.

Lemma back_off_accepted (attempt : nat) :
  back_off_exception time_sleep self attempt = None ->
  (attempt < 1024)%nat
  /\ time_sleep (exponential_delay self attempt) = SleepReturns.
Proof.
  unfold back_off_exception.
  destruct (1024 <=? attempt)%nat eqn:E; [discriminate|].
  apply Nat.leb_gt in E. intros H. split; [exact E|].
  destruct (time_sleep _); [reflexivity|discriminate H ..].
Qed.

(** After [k] retried attempts whose back-off sleeps returned, a retried
    attempt whose back-off raises ends the loop with that exception:
    [k + 1] requests and the [k] sleeps between them. *)
Lemma attempts_retry_then_refused (k : nat) :
  forall (a m : nat) (s : state) (e : exn),
    (k < m)%nat ->
    (a + m = Z.to_nat (max_retries self))%nat ->
    (forall j, (j <= k)%nat ->
               retried (http_get (gets s + j) url params) = true) ->
    (forall j, (a <= j < a + k)%nat ->
               back_off_exception time_sleep self j = None) ->
    back_off_exception time_sleep self (a + k) = Some e ->
    Z.of_nat (a + k) <> max_retries self - 1
    \/ rate_limited (http_get (gets s + k) url params) = true ->
    attempts time_sleep http_get self url params (seq a m) s =
    (Raise e,
     after_requests s (S k)
       (rate_limited_trace self url params a k ++ [EvRequest url params])).
Proof.
  induction k as [|k IH]; intros a m s e Hk Hm Hretried Hsleep Hraise Hlast;
    destruct m as [|m]; try lia; cbn [seq].
  - rewrite Nat.add_0_r in Hraise, Hlast.
    apply attempts_cons_back_off_raises.
    + specialize (Hretried 0%nat). rewrite Nat.add_0_r in Hretried.
      apply Hretried. lia.
    + rewrite Nat.add_0_r in Hlast. exact Hlast.
    + apply back_off_raises. exact Hraise.
  - destruct (back_off_accepted a) as [Ha Hs]; [apply Hsleep; lia|].
    rewrite attempts_cons_retried_not_last.
    + rewrite (IH (S a) m _ e); try lia.
      * rewrite after_requests_twice. reflexivity.
      * intros j Hj. simpl gets.
        replace (gets s + 1 + j)%nat with (gets s + S j)%nat by lia.
        apply Hretried. lia.
      * intros j Hj. apply Hsleep. lia.
      * replace (S a + k)%nat with (a + S k)%nat by lia. exact Hraise.
      * simpl gets.
        replace (gets s + 1 + k)%nat with (gets s + S k)%nat by lia.
        replace (S a + k)%nat with (a + S k)%nat by lia. exact Hlast.
    + specialize (Hretried 0%nat). rewrite Nat.add_0_r in Hretried.
      apply Hretried. lia.
    + left. lia.
    + exact Ha.
    + exact Hs.
Qed.

End ExecutorFurther.

Lemma rate_limited_trace_writes (self : connector) (url : string)
    (params : list (string * string)) (k a : nat) :
  writes_in (rate_limited_trace self url params a k ++ [EvRequest url params])
  = 0%nat.
Proof.
  revert a; induction k as [|k IH]; intros a; [reflexivity|].
  cbn [rate_limited_trace app writes_in]. apply IH.
Qed.

(** X1. When the first [k] attempts are retried (a [RequestException] or
    a 429), [time.sleep] returns for their back-off delays and attempt
    [k], still within the budget, succeeds, the executor returns the
    payload of that response after exactly [k + 1] requests, having slept
    [rate_limit_delay * 2 ^ j] after each retried attempt [j]. *)
Theorem make_api_request_retries_then_succeeds :
  forall (time_sleep : Q -> sleep_outcome)
         (http_get : nat -> string -> list (string * string) -> get_outcome)
         (self : connector) (endpoint : string)
         (params : list (string * string)) (s : state) (k : nat) (v : pyval),
    let url := request_url self in
    let q := request_query self endpoint params in
    let delay := fun attempt : nat =>
      (rate_limit_delay self * inject_Z (2 ^ Z.of_nat attempt))%Q in
    Z.of_nat k < max_retries self ->
    (k <= 1024)%nat ->
    (forall j, (j < k)%nat -> retried (http_get (gets s + j)%nat url q) = true) ->
    (forall j, (j < k)%nat -> time_sleep (delay j) = SleepReturns) ->
    succeeds_with (http_get (gets s + k)%nat url q) v ->
    let evs := (rate_limited_trace self url q 0 k ++ [EvRequest url q])%list in
    _make_api_request time_sleep http_get self endpoint params s
    = (Ok v, after_requests s (S k) evs)
    /\ requests_in evs = S k
    /\ sleeps_in evs = map delay (seq 0 k)
    /\ writes_in evs = 0%nat.
Proof.
  intros time_sleep http_get self endpoint params s k v url q delay
         Hk Hmax Hretried Hsleep Hok evs.
  unfold evs. split; [|split; [|split]].
  - unfold _make_api_request, range. fold url q.
    apply attempts_retry_then_end; try lia; [exact Hretried| |].
    + intros j Hj. apply Hsleep. lia.
    + destruct Hok as (r & -> & H429 & He & Hp).
      unfold terminal. apply Z.eqb_neq in H429. rewrite H429, He, Hp.
      reflexivity.
  - rewrite rate_limited_trace_requests. simpl. lia.
  - rewrite rate_limited_trace_sleeps. simpl. apply app_nil_r.
  - apply rate_limited_trace_writes.
Qed.

(** The default configuration against a provider whose first call fails,
    whose second is rate limited and whose third succeeds: three requests,
    sleeps of 1 s and 2 s. *)
Lemma make_api_request_retries_then_succeeds_witness :
  _make_api_request time_sleep_fixture http_retried_twice default_connector
                    "details" [("hash", fixture_hash)] initial
  = (Ok (PDict sample_api_response),
     mkState 3 0 0
       [EvRequest "https://malshare.com/api.php"
                  [("api_key", "test_api_key_123"); ("action", "details");
                   ("hash", fixture_hash)];
        EvSleep (1 # 1);
        EvRequest "https://malshare.com/api.php"
                  [("api_key", "test_api_key_123"); ("action", "details");
                   ("hash", fixture_hash)];
        EvSleep (2 # 1);
        EvRequest "https://malshare.com/api.php"
                  [("api_key", "test_api_key_123"); ("action", "details");
                   ("hash", fixture_hash)]]).
Proof.
  refine (proj1 (make_api_request_retries_then_succeeds
                   time_sleep_fixture http_retried_twice default_connector
                   "details" [("hash", fixture_hash)] initial 2
                   (PDict sample_api_response) _ _ _ _ _)).
  - simpl. lia.
  - lia.
  - intros [|[|j]] Hj; [reflexivity|reflexivity|lia].
  - intros [|[|j]] Hj; [reflexivity|reflexivity|lia].
  - exists success_response.
    split; [reflexivity|]. split; [simpl; lia|]. split; reflexivity.
Defined.

(** X2. An exception of [requests.get] that is not a [RequestException]
    is not retried: after [k] retried attempts whose back-off sleeps
    returned it leaves the executor at once, with no further request and
    no sleep after it. *)
Theorem make_api_request_unexpected_exception :
  forall (time_sleep : Q -> sleep_outcome)
         (http_get : nat -> string -> list (string * string) -> get_outcome)
         (self : connector) (endpoint : string)
         (params : list (string * string)) (s : state) (k : nat) (e : exn),
    let url := request_url self in
    let q := request_query self endpoint params in
    let delay := fun attempt : nat =>
      (rate_limit_delay self * inject_Z (2 ^ Z.of_nat attempt))%Q in
    Z.of_nat k < max_retries self ->
    (k <= 1024)%nat ->
    (forall j, (j < k)%nat -> retried (http_get (gets s + j)%nat url q) = true) ->
    (forall j, (j < k)%nat -> time_sleep (delay j) = SleepReturns) ->
    http_get (gets s + k)%nat url q = GetRaises e ->
    is_request_exception e = false ->
    let evs := (rate_limited_trace self url q 0 k ++ [EvRequest url q])%list in
    _make_api_request time_sleep http_get self endpoint params s
    = (Raise e, after_requests s (S k) evs)
    /\ requests_in evs = S k
    /\ sleeps_in evs = map delay (seq 0 k).
Proof.
  intros time_sleep http_get self endpoint params s k e url q delay
         Hk Hmax Hretried Hsleep Hget He evs.
  unfold evs. split; [|split].
  - unfold _make_api_request, range. fold url q.
    apply attempts_retry_then_end; try lia; [exact Hretried| |].
    + intros j Hj. apply Hsleep. lia.
    + unfold terminal. rewrite Hget, He. reflexivity.
  - rewrite rate_limited_trace_requests. simpl. lia.
  - rewrite rate_limited_trace_sleeps. simpl. apply app_nil_r.
Qed.

(** An unexpected exception at the first call, and one at the second call
    after a network error and its back-off sleep. *)
Lemma make_api_request_unexpected_exception_witness :
  _make_api_request time_sleep_fixture http_unexpected_error test_connector
                    "getlist" [] initial
  = (Raise (OtherError "UnicodeError"),
     mkState 1 0 0
       [EvRequest "https://malshare.com/api.php"
                  [("api_key", "test_api_key_123"); ("action", "getlist")]])
  /\ _make_api_request time_sleep_fixture http_fails_then_unexpected_error
                       test_connector "getlist" [] initial
     = (Raise (OtherError "UnicodeError"),
        mkState 2 0 0
          [EvRequest "https://malshare.com/api.php"
                     [("api_key", "test_api_key_123"); ("action", "getlist")];
           EvSleep (1 # 10);
           EvRequest "https://malshare.com/api.php"
                     [("api_key", "test_api_key_123"); ("action", "getlist")]]).
Proof.
  split.
  - refine (proj1 (make_api_request_unexpected_exception
                     time_sleep_fixture http_unexpected_error test_connector
                     "getlist" [] initial 0 (OtherError "UnicodeError")
                     _ _ _ _ eq_refl eq_refl)).
    + simpl. lia.
    + lia.
    + intros j Hj. lia.
    + intros j Hj. lia.
  - refine (proj1 (make_api_request_unexpected_exception
                     time_sleep_fixture http_fails_then_unexpected_error
                     test_connector "getlist" [] initial 1
                     (OtherError "UnicodeError") _ _ _ _ eq_refl eq_refl)).
    + simpl. lia.
    + lia.
    + intros [|j] Hj; [reflexivity|lia].
    + intros [|j] Hj; [reflexivity|lia].
Defined.

(** X28. An exception of the back-off is not caught: when [time.sleep]
    refuses the delay of a retried attempt (or the attempt is the 1025th,
    whose power of two is beyond the floats), after [k] retried attempts
    whose back-off sleeps returned, the exception leaves the executor
    after [k + 1] requests and [k] sleeps; it is no [RequestException].
    The attempt is one that is followed by a back-off: a 429, or a failure
    that is not the last attempt of the budget. *)
Theorem make_api_request_back_off_refused :
  forall (time_sleep : Q -> sleep_outcome)
         (http_get : nat -> string -> list (string * string) -> get_outcome)
         (self : connector) (endpoint : string)
         (params : list (string * string)) (s : state) (k : nat) (e : exn),
    let url := request_url self in
    let q := request_query self endpoint params in
    Z.of_nat k < max_retries self ->
    (forall j, (j <= k)%nat ->
               retried (http_get (gets s + j)%nat url q) = true) ->
    (forall j, (j < k)%nat -> back_off_exception time_sleep self j = None) ->
    back_off_exception time_sleep self k = Some e ->
    Z.of_nat k <> max_retries self - 1
    \/ rate_limited (http_get (gets s + k)%nat url q) = true ->
    let evs := (rate_limited_trace self url q 0 k ++ [EvRequest url q])%list in
    _make_api_request time_sleep http_get self endpoint params s
    = (Raise e, after_requests s (S k) evs)
    /\ is_request_exception e = false
    /\ requests_in evs = S k
    /\ List.length (sleeps_in evs) = k.
Proof.
  intros time_sleep http_get self endpoint params s k e url q
         Hk Hretried Hsleep Hraise Hlast evs.
  unfold evs. split; [|split; [|split]].
  - unfold _make_api_request, range. fold url q.
    apply attempts_retry_then_refused; try lia; try assumption.
    intros j Hj. apply Hsleep. lia.
  - apply (back_off_raises time_sleep self k s e Hraise).
  - rewrite rate_limited_trace_requests. simpl. lia.
  - rewrite rate_limited_trace_sleeps. simpl.
    rewrite app_nil_r, length_map, length_seq. reflexivity.
Qed.

(** RATE_LIMIT_DELAY set to -0.1: the first back-off raises [ValueError];
    a delay of zero with a budget of 1026 attempts: the back-off of
    attempt 1024 raises [OverflowError], after 1025 requests. *)
Lemma make_api_request_back_off_refused_witness :
  _make_api_request time_sleep_fixture http_always_rate_limited
                    negative_delay_connector "getlist" [] initial
  = (Raise ValueError,
     mkState 1 0 0
       [EvRequest "https://malshare.com/api.php"
                  [("api_key", "test_api_key_123"); ("action", "getlist")]])
  /\ (let run := _make_api_request time_sleep_fixture http_network_error
                   large_budget_connector "getlist" [] initial in
      fst run = Raise OverflowError /\ gets (snd run) = 1025%nat).
Proof.
  split.
  - refine (proj1 (make_api_request_back_off_refused
                     time_sleep_fixture http_always_rate_limited
                     negative_delay_connector "getlist" [] initial 0
                     ValueError _ _ _ eq_refl _)).
    + simpl. lia.
    + intros j Hj. reflexivity.
    + intros j Hj. lia.
    + right. reflexivity.
  - cbv zeta.
    rewrite (proj1 (make_api_request_back_off_refused
                      time_sleep_fixture http_network_error
                      large_budget_connector "getlist" [] initial 1024
                      OverflowError
                      ltac:(simpl; lia)
                      (fun _ _ => eq_refl)
                      ltac:(intros j Hj; unfold back_off_exception;
                            replace (1024 <=? j)%nat with false
                              by (symmetry; apply Nat.leb_gt; exact Hj);
                            reflexivity)
                      eq_refl
                      ltac:(left; simpl; lia))).
    split; reflexivity.
Defined.

(** X3. With a retry budget of zero or less the executor makes no request
    at all and reports no data. *)
Theorem make_api_request_without_budget :
  forall (time_sleep : Q -> sleep_outcome)
         (http_get : nat -> string -> list (string * string) -> get_outcome)
         (self : connector) (endpoint : string)
         (params : list (string * string)) (s : state),
    max_retries self <= 0 ->
    _make_api_request time_sleep http_get self endpoint params s
    = (Ok PNone, s).
Proof.
  intros time_sleep http_get self endpoint params s H.
  unfold _make_api_request, range.
  replace (Z.to_nat (max_retries self)) with 0%nat by lia. reflexivity.
Qed.

Lemma make_api_request_without_budget_witness :
  _make_api_request time_sleep_fixture
                    (http_json (PDict sample_api_response)) no_retry_connector
                    "details" [("hash", fixture_hash)] initial
  = (Ok PNone, initial).
Proof.
  apply make_api_request_without_budget. simpl. lia.
Defined.

(** X4. Whatever the provider answers and whatever [time.sleep] does, the
    executor makes at most [max_retries] requests, all to the same URL
    with the same query, sleeps at most once per request and only for a
    back-off delay [rate_limit_delay * 2 ^ attempt], touches neither the
    store nor the clock, and never lets a [RequestException] out. *)
Theorem make_api_request_within_budget :
  forall (time_sleep : Q -> sleep_outcome)
         (http_get : nat -> string -> list (string * string) -> get_outcome)
         (self : connector) (endpoint : string)
         (params : list (string * string)) (s : state),
  exists (r : result pyval) (evs : list event),
    _make_api_request time_sleep http_get self endpoint params s
    = (r, after_requests s (requests_in evs) evs)
    /\ (requests_in evs <= Z.to_nat (max_retries self))%nat
    /\ (List.length (sleeps_in evs) <= requests_in evs)%nat
    /\ Forall (fun e =>
                 e = EvRequest (request_url self)
                               (request_query self endpoint params)
                 \/ exists attempt,
                      Z.of_nat attempt < max_retries self
                      /\ e = EvSleep (rate_limit_delay self
                                      * inject_Z (2 ^ Z.of_nat attempt))%Q)
              evs
    /\ (forall e, r = Raise e -> is_request_exception e = false).
Proof.
  intros time_sleep http_get self endpoint params s.
  destruct (attempts_footprint time_sleep http_get self (request_url self)
              (request_query self endpoint params)
              (range (max_retries self)) s)
    as (r & evs & Hrun & Hreq & Hsl & Hall & Hexn).
  exists r, evs. unfold range in *. rewrite length_seq in Hreq.
  split; [exact Hrun|]. split; [exact Hreq|]. split; [exact Hsl|].
  split; [|exact Hexn].
  eapply Forall_impl; [|exact Hall].
  intros e [He|(a & Ha & He)]; [left; exact He|].
  right. exists a. split; [|exact He].
  apply in_seq in Ha. lia.
Qed.

(** ** The query of a request *)

Lemma dict_get_app {V : Type} (k : string) (a b : list (string * V)) :
  dict_get k (a ++ b) =
  match dict_get k a with Some v => Some v | None => dict_get k b end.
Proof.
  induction a as [|[k0 v0] a IH]; [reflexivity|]. simpl.
  destruct (String.eqb k k0); [reflexivity|exact IH].
Qed.

Lemma dict_get_none_not_in {V : Type} (k : string) (d : list (string * V)) :
  dict_get k d = None <-> ~ In k (map fst d).
Proof.
  induction d as [|[k0 v0] d IH]; simpl; [tauto|].
  destruct (String.eqb k k0) eqn:E.
  - apply String.eqb_eq in E. subst. split; [discriminate|tauto].
  - apply String.eqb_neq in E. rewrite IH. split; [|tauto].
    intros H [H0|H0]; [congruence|tauto].
Qed.

(** In a dictionary (keys all different) the order of the items does not
    matter to a lookup. *)
Lemma dict_get_rev {V : Type} (k : string) (d : list (string * V)) :
  NoDup (map fst d) -> dict_get k (rev d) = dict_get k d.
Proof.
  induction d as [|[k0 v0] d IH]; intros Hnd; [reflexivity|].
  inversion Hnd as [|? ? Hnotin Hnd']; subst.
  simpl rev. rewrite dict_get_app, IH by exact Hnd'. simpl.
  destruct (String.eqb k k0) eqn:E.
  - apply String.eqb_eq in E. subst k0.
    apply dict_get_none_not_in in Hnotin. rewrite Hnotin. reflexivity.
  - destruct (dict_get k d); reflexivity.
Qed.

(** [d.update(other)]: the items of [other] win over those of [d]. *)
Lemma dict_get_update {V : Type} (k : string) (other d : list (string * V)) :
  dict_get k (dict_update d other) =
  match dict_get k (rev other) with
  | Some v => Some v
  | None => dict_get k d
  end.
Proof.
  unfold dict_update. revert d.
  induction other as [|[k0 v0] other IH]; intros d; [reflexivity|].
  simpl fold_left. rewrite IH. simpl rev. rewrite dict_get_app.
  destruct (dict_get k (rev other)); [reflexivity|].
  rewrite dict_get_set. simpl. destruct (String.eqb k k0); reflexivity.
Qed.

(** X5. The query of every request carries the caller's parameters as
    given; the API key and the action are the connector's key and the
    endpoint unless the caller's parameters use those very names, in which
    case the caller's values replace them; nothing else is sent. *)
Theorem request_query_parameters :
  forall (self : connector) (endpoint : string)
         (params : list (string * string)),
    NoDup (map fst params) ->
    let q := request_query self endpoint params in
    (forall k v, dict_get k params = Some v -> dict_get k q = Some v)
    /\ (dict_contains "api_key" params = false ->
        dict_get "api_key" q = Some (api_key self))
    /\ (dict_contains "action" params = false ->
        dict_get "action" q = Some endpoint)
    /\ (forall k v, dict_get k q = Some v ->
                    dict_get k params = Some v
                    \/ (k = "api_key" /\ v = api_key self)
                    \/ (k = "action" /\ v = endpoint)).
Proof.
  intros self endpoint params Hnd q.
  assert (Hq : forall k,
             dict_get k q =
             match dict_get k params with
             | Some v => Some v
             | None => dict_get k [("api_key", api_key self);
                                   ("action", endpoint)]
             end).
  { intros k. unfold q, request_query.
    rewrite dict_get_update, dict_get_rev by exact Hnd. reflexivity. }
  split; [|split; [|split]].
  - intros k v Hk. rewrite Hq, Hk. reflexivity.
  - unfold dict_contains. intros H. rewrite Hq.
    destruct (dict_get "api_key" params); [discriminate|reflexivity].
  - unfold dict_contains. intros H. rewrite Hq.
    destruct (dict_get "action" params); [discriminate|reflexivity].
  - intros k v. rewrite Hq.
    destruct (dict_get k params) as [v'|]; [auto|].
    simpl. destruct (String.eqb k "api_key") eqn:E1.
    + apply String.eqb_eq in E1. intros H; inversion H; auto.
    + destruct (String.eqb k "action") eqn:E2; [|discriminate].
      apply String.eqb_eq in E2. intros H; inversion H; auto.
Qed.

Lemma request_query_parameters_witness :
  dict_get "hash" (request_query test_connector "details"
                                 [("hash", fixture_hash)])
  = Some fixture_hash
  /\ dict_get "action" (request_query test_connector "details"
                                      [("hash", fixture_hash)])
     = Some "details"
  /\ dict_get "action" (request_query test_connector "details"
                                      [("action", "getlist")])
     = Some "getlist".
Proof.
  assert (H1 : NoDup (map fst [("hash", fixture_hash)]))
    by (constructor; [simpl; tauto|constructor]).
  assert (H2 : NoDup (map fst [("action", "getlist")]))
    by (constructor; [simpl; tauto|constructor]).
  split; [|split].
  - exact (proj1 (request_query_parameters test_connector "details" _ H1)
                 "hash" fixture_hash eq_refl).
  - exact (proj1 (proj2 (proj2 (request_query_parameters
                                  test_connector "details" _ H1))) eq_refl).
  - exact (proj1 (request_query_parameters test_connector "details" _ H2)
                 "action" "getlist" eq_refl).
Defined.

(** ** The payload of a text response *)

Lemma split_not_nil (sep : ascii) (s : string) : PyStr.split sep s <> [].
Proof.
  destruct s as [|c r]; simpl; [discriminate|].
  destruct (Ascii.eqb c sep); [discriminate|].
  destruct (PyStr.split sep r); discriminate.
Qed.

Lemma join_cons_char (sep c : ascii) (h : string) (t : list string) :
  join sep (String c h :: t) = String c (join sep (h :: t)).
Proof. destruct t; reflexivity. Qed.

(** Splitting at a separator and joining with it gives the string back. *)
Lemma join_split (sep : ascii) (s : string) :
  join sep (PyStr.split sep s) = s.
Proof.
  induction s as [|c r IH]; [reflexivity|]. simpl.
  destruct (Ascii.eqb c sep) eqn:E.
  - apply Ascii.eqb_eq in E. subst c.
    destruct (PyStr.split sep r) as [|h t] eqn:Hs;
      [exfalso; exact (split_not_nil sep r Hs)|].
    change (join sep (EmptyString :: h :: t))
      with (String sep (join sep (h :: t))).
    rewrite IH. reflexivity.
  - destruct (PyStr.split sep r) as [|h t] eqn:Hs;
      [exfalso; exact (split_not_nil sep r Hs)|].
    rewrite join_cons_char, IH. reflexivity.
Qed.

Lemma split_no_separator (sep : ascii) (s : string) :
  Forall (fun part => has_char sep part = false) (PyStr.split sep s).
Proof.
  induction s as [|c r IH]; simpl; [repeat constructor|].
  destruct (Ascii.eqb c sep) eqn:E.
  - constructor; [reflexivity|exact IH].
  - destruct (PyStr.split sep r) as [|h t];
      [repeat constructor; simpl; rewrite E; reflexivity|].
    inversion IH; subst. constructor; [|assumption].
    simpl. rewrite E. assumption.
Qed.

(** X6. A response whose content type is not JSON is returned as a
    mapping with one key, ['data'], holding a non-empty list of lines; no
    line contains a newline, and joining the lines with newlines gives back
    the body without its surrounding whitespace. *)
Theorem text_payload_lines :
  forall r : response,
    PyStr.startswith
      (match content_type r with Some c => c | None => EmptyString end)
      "application/json" = false ->
    let lines := PyStr.split PyStr.newline (PyStr.strip (text r)) in
    payload r = Ok (list_response lines)
    /\ lines <> []
    /\ Forall (fun line => has_char PyStr.newline line = false) lines
    /\ join PyStr.newline lines = PyStr.strip (text r).
Proof.
  intros r Hct lines. unfold lines.
  unfold payload. rewrite Hct.
  split; [reflexivity|]. split; [apply split_not_nil|].
  split; [apply split_no_separator|apply join_split].
Qed.

Lemma text_payload_lines_witness :
  payload text_response = Ok (list_response ["hash1"; "hash2"; "hash3"]).
Proof.
  exact (proj1 (text_payload_lines text_response eq_refl)).
Defined.

(** ** The extractor on arbitrary responses *)

Lemma rstrip_idem (s : string) : PyStr.rstrip (PyStr.rstrip s) = PyStr.rstrip s.
Proof.
  induction s as [|c r IH]; [reflexivity|]. simpl.
  destruct (PyStr.rstrip r) as [|a r'] eqn:E.
  - destruct (PyStr.isspace c) eqn:Ec; [reflexivity|].
    simpl. rewrite Ec. reflexivity.
  - change (PyStr.rstrip (String c (String a r')))
      with (match PyStr.rstrip (String a r') with
            | EmptyString =>
                if PyStr.isspace c then EmptyString else String c EmptyString
            | r0 => String c r0
            end).
    rewrite IH. reflexivity.
Qed.

Lemma lstrip_head (s : string) :
  PyStr.lstrip s = EmptyString
  \/ exists c r, PyStr.lstrip s = String c r /\ PyStr.isspace c = false.
Proof.
  induction s as [|c r IH]; [left; reflexivity|]. simpl.
  destruct (PyStr.isspace c) eqn:E; [exact IH|].
  right. exists c, r. auto.
Qed.

Lemma rstrip_head (c : ascii) (r : string) :
  PyStr.isspace c = false ->
  exists r', PyStr.rstrip (String c r) = String c r'.
Proof.
  intros E. simpl. destruct (PyStr.rstrip r); [rewrite E|]; eauto.
Qed.

(** Trimming twice is trimming once. *)
Lemma strip_idem (s : string) : PyStr.strip (PyStr.strip s) = PyStr.strip s.
Proof.
  unfold PyStr.strip.
  destruct (lstrip_head s) as [->|(c & r & -> & E)]; [reflexivity|].
  destruct (rstrip_head c r E) as [r' Hr]. rewrite Hr.
  simpl PyStr.lstrip. rewrite E. rewrite <- Hr. apply rstrip_idem.
Qed.

Lemma strip_nonempty_trimmed (elems : list pyval) (t : list string) :
  strip_nonempty elems = Ok t ->
  Forall (fun x => PyStr.nonempty x = true /\ PyStr.strip x = x) t.
Proof.
  revert t; induction elems as [|v elems IH]; intros t H.
  - inversion H. constructor.
  - simpl in H. destruct v; try discriminate.
    destruct (strip_nonempty elems) as [t'|]; [|discriminate].
    specialize (IH t' eq_refl).
    destruct (PyStr.nonempty (PyStr.strip s)) eqn:E; inversion H; subst;
      [|exact IH].
    constructor; [|exact IH]. split; [exact E|apply strip_idem].
Qed.

Lemma strip_nonempty_non_string (elems : list pyval) :
  forallb is_str elems = false ->
  strip_nonempty elems = Raise AttributeError.
Proof.
  induction elems as [|v elems IH]; [discriminate|]. simpl.
  destruct v; simpl; try reflexivity.
  intros H. rewrite (IH H). reflexivity.
Qed.

Lemma Forall_prefix {A : Type} (P : A -> Prop) (n : nat) (l : list A) :
  Forall P l -> Forall P (firstn n l).
Proof.
  revert l; induction n as [|n IH]; intros l H; [constructor|].
  destruct l as [|x l]; [constructor|].
  inversion H; subst. simpl. constructor; [assumption|apply IH; assumption].
Qed.

Lemma Forall_slice_to {A : Type} (P : A -> Prop) (stop : Z) (l : list A) :
  Forall P l -> Forall P (slice_to stop l).
Proof.
  intros H. unfold slice_to. destruct (0 <=? stop); apply Forall_prefix; exact H.
Qed.

Section ExtractorFurther.

Variable time_sleep : Q -> sleep_outcome.
Variable http_get : nat -> string -> list (string * string) -> get_outcome.
Variable self : connector.

(** The extractor has no effect of its own: its final state is the one
    its request left. *)
Lemma extract_sample_list_state (limit : Z) (s : state) :
  snd (extract_sample_list time_sleep http_get self limit s)
  = snd (_make_api_request time_sleep http_get self "getlist" [] s).
Proof.
  unfold extract_sample_list, bind.
  destruct (_make_api_request time_sleep http_get self "getlist" [] s) as [[v|e]
      s1];
    [|reflexivity].
  unfold lift. destruct (negb (truthy v)); [reflexivity|].
  destruct (py_contains "data" v) as [b|e]; [|reflexivity].
  destruct b; [|reflexivity]. simpl.
  destruct (py_getitem v "data") as [d|e]; [|reflexivity].
  destruct (py_iter d) as [elems|e]; [|reflexivity].
  destruct (strip_nonempty elems); reflexivity.
Qed.

(** What a returned list is made of. *)
Lemma extract_sample_list_ok (limit : Z) (s s' : state) (l : list string) :
  extract_sample_list time_sleep http_get self limit s = (Ok l, s') ->
  l = [] \/ exists elems t, strip_nonempty elems = Ok t /\ l = slice_to limit t.
Proof.
  unfold extract_sample_list, bind.
  destruct (_make_api_request time_sleep http_get self "getlist" [] s) as [[v|e]
      s1];
    [|discriminate].
  unfold lift. destruct (negb (truthy v)).
  - unfold ret. intros H; inversion H; auto.
  - destruct (py_contains "data" v) as [b|e]; [|discriminate].
    destruct b; simpl; [|unfold ret; intros H; inversion H; auto].
    destruct (py_getitem v "data") as [d|e]; [|discriminate].
    destruct (py_iter d) as [elems|e]; [|discriminate].
    destruct (strip_nonempty elems) as [t|e] eqn:Ht; [|discriminate].
    unfold ret. intros H; inversion H. right. eauto.
Qed.

(** X7. Whatever the provider answers, every identifier the extractor
    returns is non-empty and has no surrounding whitespace, and with a
    limit that is not negative there are at most [limit] of them. *)
Theorem extract_sample_list_entries :
  forall (limit : Z) (s s' : state) (l : list string),
    extract_sample_list time_sleep http_get self limit s = (Ok l, s') ->
    Forall (fun x => PyStr.nonempty x = true /\ PyStr.strip x = x) l
    /\ (0 <= limit -> Z.of_nat (List.length l) <= limit).
Proof.
  intros limit s s' l H.
  destruct (extract_sample_list_ok limit s s' l H) as [->|(elems & t & Ht & ->)].
  - split; [constructor|simpl; lia].
  - split.
    + apply Forall_slice_to. apply (strip_nonempty_trimmed elems t Ht).
    + intros Hl. unfold slice_to.
      replace (0 <=? limit) with true by (symmetry; apply Z.leb_le; exact Hl).
      rewrite length_firstn. lia.
Qed.

(** X8. A list response that is malformed makes the extractor raise
    instead of returning: [AttributeError] when an entry under ['data'] is
    not a string, [TypeError] when the value under ['data'] cannot be
    iterated over, [TypeError] when the response is a JSON array holding
    the string ['data'] (it passes the membership test and is then indexed
    by a string). *)
Theorem extract_sample_list_malformed_response :
  forall (limit : Z) (s s' : state) (response : pyval),
    _make_api_request time_sleep http_get self "getlist" [] s = (Ok response,
        s') ->
    (forall d entries,
        response = PDict d ->
        dict_get "data" d = Some (PList entries) ->
        forallb is_str entries = false ->
        extract_sample_list time_sleep http_get self limit s = (Raise
            AttributeError, s'))
    /\ (forall d v,
           response = PDict d ->
           dict_get "data" d = Some v ->
           not_iterable v = true ->
           extract_sample_list time_sleep http_get self limit s = (Raise
               TypeError, s'))
    /\ (forall items,
           response = PList items ->
           In (PStr "data") items ->
           extract_sample_list time_sleep http_get self limit s = (Raise
               TypeError, s')).
Proof.
  intros limit s s' response Hreq.
  assert (Hd : forall d v, dict_get "data" d = Some v -> truthy (PDict d) = true)
    by (intros d v H; destruct d; [discriminate H|reflexivity]).
  split; [|split].
  - intros d entries -> Hdata Hstr.
    unfold extract_sample_list, bind. rewrite Hreq.
    unfold lift, py_contains, dict_contains, py_getitem, dict_index.
    rewrite Hdata, (Hd d _ Hdata). cbn [negb py_iter].
    rewrite (strip_nonempty_non_string entries Hstr). reflexivity.
  - intros d v -> Hdata Hv.
    unfold extract_sample_list, bind. rewrite Hreq.
    unfold lift, py_contains, dict_contains, py_getitem, dict_index.
    rewrite Hdata, (Hd d _ Hdata). cbn [negb].
    destruct v; try discriminate Hv; reflexivity.
  - intros items -> Hin.
    unfold extract_sample_list, bind. rewrite Hreq.
    unfold lift, py_contains.
    assert (Ht : truthy (PList items) = true)
      by (destruct items; [destruct Hin|reflexivity]).
    rewrite Ht. cbn [negb].
    assert (He : existsb (fun v => match v with
                                   | PStr s0 => String.eqb s0 "data"
                                   | _ => false
                                   end) items = true).
    { apply existsb_exists. exists (PStr "data"). split; [exact Hin|reflexivity]. }
    rewrite He. reflexivity.
Qed.

(** X9. A response without the key ['data'] (an error object, say) gives
    the empty list, like a failed request does. *)
Theorem extract_sample_list_without_data :
  forall (limit : Z) (s s' : state) (d : pydict),
    _make_api_request time_sleep http_get self "getlist" [] s = (Ok (PDict d),
        s') ->
    dict_contains "data" d = false ->
    extract_sample_list time_sleep http_get self limit s = (Ok [], s').
Proof.
  intros limit s s' d Hreq Hd.
  unfold extract_sample_list, bind. rewrite Hreq.
  unfold lift, py_contains. rewrite Hd.
  destruct (negb (truthy (PDict d))); reflexivity.
Qed.

End ExtractorFurther.

Lemma extract_sample_list_entries_witness :
  Forall (fun x => PyStr.nonempty x = true /\ PyStr.strip x = x)
         ["hash1"; "hash2"; "hash3"]
  /\ (0 <= 10 -> Z.of_nat (List.length ["hash1"; "hash2"; "hash3"]) <= 10).
Proof.
  exact (extract_sample_list_entries time_sleep_fixture
           (http_json (list_response sample_list_lines)) test_connector
           10 initial _ _ eq_refl).
Defined.

Lemma extract_sample_list_malformed_response_witness :
  fst (extract_sample_list time_sleep_fixture
         (http_json (PDict [("data", PList [PStr "hash1"; PInt 7])]))
         test_connector 10 initial)
  = Raise AttributeError
  /\ fst (extract_sample_list time_sleep_fixture (http_json (PDict [("data",
      PInt 7)]))
                              test_connector 10 initial)
     = Raise TypeError
  /\ fst (extract_sample_list time_sleep_fixture (http_json (PList [PStr
      "data"]))
                              test_connector 10 initial)
     = Raise TypeError.
Proof.
  split; [|split].
  - rewrite (proj1 (extract_sample_list_malformed_response time_sleep_fixture
                      (http_json (PDict [("data", PList [PStr "hash1"; PInt 7])]))
                      test_connector 10 initial _ _ eq_refl)
                   _ _ eq_refl eq_refl eq_refl).
    reflexivity.
  - rewrite (proj1 (proj2 (extract_sample_list_malformed_response
      time_sleep_fixture
                             (http_json (PDict [("data", PInt 7)]))
                             test_connector 10 initial _ _ eq_refl))
                   _ _ eq_refl eq_refl eq_refl).
    reflexivity.
  - rewrite (proj2 (proj2 (extract_sample_list_malformed_response
      time_sleep_fixture
                             (http_json (PList [PStr "data"]))
                             test_connector 10 initial _ _ eq_refl))
                   _ eq_refl (or_introl eq_refl)).
    reflexivity.
Defined.

Lemma extract_sample_list_without_data_witness :
  extract_sample_list time_sleep_fixture (http_json (PDict [("error", PStr
      "Invalid API key")]))
                      test_connector 10 initial
  = (Ok [],
     mkState 1 0 0
       [EvRequest "https://malshare.com/api.php"
                  [("api_key", "test_api_key_123"); ("action", "getlist")]]).
Proof.
  exact (extract_sample_list_without_data time_sleep_fixture
           (http_json (PDict [("error", PStr "Invalid API key")]))
           test_connector 10 initial _ _ eq_refl eq_refl).
Defined.

(** ** The transformer: what a record holds *)

Lemma dict_contains_in {V : Type} (k : string) (d : list (string * V)) :
  dict_contains k d = true <-> In k (map fst d).
Proof.
  unfold dict_contains. pose proof (dict_get_none_not_in k d) as H.
  destruct (dict_get k d); split; intros H'; try reflexivity; try discriminate.
  - destruct (in_dec string_dec k (map fst d)) as [Hi|Hn]; [exact Hi|].
    apply H in Hn. discriminate Hn.
  - exfalso. apply (proj1 H eq_refl). exact H'.
Qed.

Lemma dict_set_keys {V : Type} (k k' : string) (v : V) (d : list (string * V)) :
  In k (map fst (dict_set k' v d)) -> k = k' \/ In k (map fst d).
Proof.
  induction d as [|[k0 v0] d IH]; simpl.
  - intros [H|[]]; auto.
  - destruct (String.eqb k' k0) eqn:E; simpl.
    + apply String.eqb_eq in E. subst. tauto.
    + intros [H|H]; [auto|]. destruct (IH H); auto.
Qed.

Section CopyLoop.

Variable raw : pydict.

Lemma map_fields_fold (t : pydict) :
  map_fields raw t = fold_left (copy_step raw) field_mapping t.
Proof. reflexivity. Qed.

Lemma copy_keys (table : list (string * string)) :
  forall (t : pydict) (k : string),
    In k (map fst (fold_left (copy_step raw) table t)) ->
    In k (map snd table) \/ In k (map fst t).
Proof.
  induction table as [|[api std] table IH]; intros t k H; [auto|].
  simpl in H. apply IH in H. destruct H as [H|H]; [simpl; auto|].
  simpl. destruct (dict_get api raw); [|auto].
  apply dict_set_keys in H. destruct H; auto.
Qed.

Lemma copy_other (table : list (string * string)) :
  forall (t : pydict) (k : string),
    ~ In k (map snd table) ->
    dict_get k (fold_left (copy_step raw) table t) = dict_get k t.
Proof.
  induction table as [|[api std] table IH]; intros t k H; [reflexivity|].
  simpl in H. simpl fold_left. rewrite IH by tauto.
  destruct (dict_get api raw); [|reflexivity].
  rewrite dict_get_set.
  destruct (String.eqb k std) eqn:E; [|reflexivity].
  apply String.eqb_eq in E. subst. tauto.
Qed.

Lemma copy_field (table : list (string * string)) :
  NoDup (map snd table) ->
  forall (t : pydict) (api std : string),
    In (api, std) table ->
    dict_get std (fold_left (copy_step raw) table t) =
    match dict_get api raw with
    | Some v => Some v
    | None => dict_get std t
    end.
Proof.
  induction table as [|[api0 std0] table IH]; intros Hnd t api std Hin;
    [destruct Hin|].
  inversion Hnd as [|? ? Hnotin Hnd']; subst. simpl fold_left.
  destruct Hin as [Heq|Hin].
  - inversion Heq; subst. rewrite copy_other by exact Hnotin.
    destruct (dict_get api raw); [|reflexivity].
    rewrite dict_get_set, String.eqb_refl. reflexivity.
  - rewrite (IH Hnd' _ api std Hin).
    destruct (dict_get api raw) as [v|]; [reflexivity|].
    destruct (dict_get api0 raw); [|reflexivity].
    rewrite dict_get_set.
    destruct (String.eqb std std0) eqn:E; [|reflexivity].
    apply String.eqb_eq in E. subst.
    exfalso. apply Hnotin. apply (in_map snd) in Hin. exact Hin.
Qed.

End CopyLoop.

Lemma field_mapping_nodup : NoDup (map snd field_mapping).
Proof.
  unfold field_mapping. simpl.
  repeat (constructor;
          [simpl; intros H; decompose [or] H; try discriminate; assumption|]).
  constructor.
Qed.

Section RecordContents.

Variable strptime : string -> option datetime.

(** The record of a mapping: the copied fields under the metadata, then
    the parsed date if there is one, the sample type and the score. *)
Lemma transform_data_mapping_shape (raw : pydict) (sample_hash : string)
    (now : datetime) (r : pydict) :
  transform_data strptime (PDict raw) sample_hash now = Ok r ->
  exists file_type parsed,
    dict_get_default "F_TYPE" (PStr EmptyString) raw = PStr file_type
    /\ parsed = match dict_get "ADDED" raw with
                | Some (PStr s) => strptime s
                | _ => None
                end
    /\ text_or_absent "ADDED" raw = true
    /\ r = dict_set "data_completeness"
             (PFloat (_calculate_completeness (PDict raw)))
             (dict_set "sample_type"
                (PStr (sample_type_of (PyStr.lower file_type)))
                (match parsed with
                 | Some d =>
                     dict_set "date_added_parsed" (PDatetime d)
                       (map_fields raw (metadata (PDict raw) sample_hash now))
                 | None =>
                     map_fields raw (metadata (PDict raw) sample_hash now)
                 end)).
Proof.
  intros H. apply transform_data_mapping_ok in H.
  destruct H as (ft & t & Hft & Ht & ->).
  exists ft. eexists. split; [exact Hft|]. split; [reflexivity|].
  unfold parse_date in Ht. unfold text_or_absent.
  destruct (dict_get "ADDED" raw) as [v|].
  - destruct v; try discriminate Ht.
    destruct (strptime s); inversion Ht; auto.
  - inversion Ht; auto.
Qed.

Lemma record_field (raw : pydict) (sample_hash : string) (now : datetime)
    (r : pydict) (api std : string) :
  transform_data strptime (PDict raw) sample_hash now = Ok r ->
  In (api, std) field_mapping ->
  dict_get std r = dict_get api raw.
Proof.
  intros H Hin.
  apply transform_data_mapping_shape in H.
  destruct H as (ft & parsed & _ & _ & _ & ->).
  assert (Hbase : dict_get std
                    (map_fields raw (metadata (PDict raw) sample_hash now))
                  = dict_get api raw).
  { rewrite map_fields_fold.
    rewrite (copy_field raw field_mapping field_mapping_nodup _ api std Hin).
    destruct (dict_get api raw); [reflexivity|].
    unfold field_mapping in Hin. simpl in Hin.
    decompose [or] Hin; try contradiction;
      match goal with H : (_, _) = (_, _) |- _ => inversion H; subst end;
      reflexivity. }
  unfold field_mapping in Hin. simpl in Hin.
  decompose [or] Hin; try contradiction;
    match goal with H : (_, _) = (_, _) |- _ => inversion H; subst end;
    destruct parsed; dict_simpl; exact Hbase.
Qed.

(** X10. In every record returned for a mapping, each canonical field of
    the field table holds exactly the value of its provider field, and is
    absent when the provider field is absent: values are copied as they
    are, whatever their type, and a provider field cannot overwrite
    another one. *)
Theorem transform_data_copies_fields :
  forall (raw : pydict) (sample_hash : string) (now : datetime) (r : pydict),
    transform_data strptime (PDict raw) sample_hash now = Ok r ->
    forall api_field std_field,
      In (api_field, std_field) field_mapping ->
      dict_get std_field r = dict_get api_field raw.
Proof.
  intros raw sample_hash now r H api std Hin.
  exact (record_field raw sample_hash now r api std H Hin).
Qed.

(** X11. A record has no key outside the fifteen canonical ones: a
    provider field that the field table does not name appears nowhere but
    inside [raw_response]. *)
Theorem transform_data_keys :
  forall (raw_data : pyval) (sample_hash : string) (now : datetime)
         (r : pydict) (k : string),
    transform_data strptime raw_data sample_hash now = Ok r ->
    dict_contains k r = true ->
    In k record_keys.
Proof.
  intros raw_data sample_hash now r k H Hk.
  apply dict_contains_in in Hk.
  assert (Hmeta : forall v, In k (map fst (metadata v sample_hash now)) ->
                            In k record_keys)
    by (intros v Hv; simpl in Hv; unfold record_keys; simpl; tauto).
  destruct (is_mapping raw_data) eqn:Hm.
  - destruct raw_data as [| | | | | |raw|]; try discriminate Hm.
    apply transform_data_mapping_shape in H.
    destruct H as (ft & parsed & _ & _ & _ & ->).
    assert (Hbase : In k (map fst (map_fields raw
                                     (metadata (PDict raw) sample_hash now)))
                    -> In k record_keys).
    { rewrite map_fields_fold. intros Hb. apply copy_keys in Hb.
      destruct Hb as [Hb|Hb]; [|exact (Hmeta _ Hb)].
      unfold field_mapping in Hb. simpl in Hb. unfold record_keys. simpl.
      tauto. }
    apply dict_set_keys in Hk. destruct Hk as [->|Hk];
      [unfold record_keys; simpl; tauto|].
    apply dict_set_keys in Hk. destruct Hk as [->|Hk];
      [unfold record_keys; simpl; tauto|].
    destruct parsed; [|exact (Hbase Hk)].
    apply dict_set_keys in Hk. destruct Hk as [->|Hk];
      [unfold record_keys; simpl; tauto|exact (Hbase Hk)].
  - rewrite (transform_data_non_mapping strptime _ _ _ Hm) in H.
    inversion H; subst. simpl in Hk. unfold record_keys. simpl. tauto.
Qed.

(** X12. A record returned for a mapping has a [date_added_parsed] field
    exactly when ADDED is a string that [strptime] accepts, and then it
    holds the parsed date; a date that does not match the format is kept
    under [date_added] only. *)
Theorem transform_data_parsed_date :
  forall (raw : pydict) (sample_hash : string) (now : datetime) (r : pydict),
    transform_data strptime (PDict raw) sample_hash now = Ok r ->
    dict_get "date_added_parsed" r =
    match dict_get "ADDED" raw with
    | Some (PStr s) => option_map PDatetime (strptime s)
    | _ => None
    end.
Proof.
  intros raw sample_hash now r H.
  apply transform_data_mapping_shape in H.
  destruct H as (ft & parsed & _ & Hp & Ha & ->).
  assert (Hbase : dict_get "date_added_parsed"
                    (map_fields raw (metadata (PDict raw) sample_hash now))
                  = None).
  { rewrite map_fields_fold, copy_other; [reflexivity|].
    unfold field_mapping. simpl. intros Hin.
    decompose [or] Hin; try discriminate; assumption. }
  unfold text_or_absent in Ha.
  destruct (dict_get "ADDED" raw) as [v|].
  - destruct v; try discriminate Ha. subst parsed.
    destruct (strptime s); dict_simpl; [reflexivity|exact Hbase].
  - subst parsed. dict_simpl. exact Hbase.
Qed.

(** X13. The completeness score stored in a record is the fraction of
    its own five scored fields ([md5], [sha1], [sha256_confirmed],
    [file_type], [date_added]) that hold a value that is not falsy: the
    score can be recomputed from the record alone. *)
Theorem transform_data_score_of_record :
  forall (raw : pydict) (sample_hash : string) (now : datetime) (r : pydict),
    transform_data strptime (PDict raw) sample_hash now = Ok r ->
    exists c,
      dict_get "data_completeness" r = Some (PFloat c)
      /\ (c == Z.of_nat (List.length (filter (non_falsy r) scored_fields)) # 5)%Q.
Proof.
  intros raw sample_hash now r H.
  assert (Hf : forall api std, In (api, std) field_mapping ->
                               non_falsy r std = non_falsy raw api).
  { intros api std Hin. unfold non_falsy.
    rewrite (record_field raw sample_hash now r api std H Hin). reflexivity. }
  exists (_calculate_completeness (PDict raw)). split.
  - apply transform_data_mapping_shape in H.
    destruct H as (ft & parsed & _ & _ & _ & ->). dict_simpl. reflexivity.
  - unfold _calculate_completeness. rewrite present_fields_count.
    unfold expected_fields, scored_fields. cbn [filter].
    rewrite (Hf "MD5" "md5"), (Hf "SHA1" "sha1"),
      (Hf "SHA256" "sha256_confirmed"), (Hf "F_TYPE" "file_type"),
      (Hf "ADDED" "date_added")
      by (unfold field_mapping; simpl; tauto).
    destruct (non_falsy raw "MD5"), (non_falsy raw "SHA1"),
      (non_falsy raw "SHA256"), (non_falsy raw "F_TYPE"),
      (non_falsy raw "ADDED"); reflexivity.
Qed.

End RecordContents.

(** X14. The score of a mapping is 1 exactly when all five expected
    fields are present with a value that is not falsy, and 0 exactly when
    none is. *)
Theorem calculate_completeness_extremes :
  forall d : pydict,
    ((_calculate_completeness (PDict d) == 1)%Q
     <-> forallb (non_falsy d) expected_fields = true)
    /\ ((_calculate_completeness (PDict d) == 0)%Q
        <-> existsb (non_falsy d) expected_fields = false).
Proof.
  intros d. unfold _calculate_completeness. rewrite present_fields_count.
  unfold expected_fields. cbn [filter forallb existsb].
  destruct (non_falsy d "MD5"), (non_falsy d "SHA1"), (non_falsy d "SHA256"),
    (non_falsy d "F_TYPE"), (non_falsy d "ADDED");
    split; split; intros H; try reflexivity; try discriminate H.
Qed.

(** ** The loader at its boundary *)

Section LoaderFurther.

Variable replace_one : nat -> pydict -> pydict -> replace_outcome.

Lemma load_data_with_key (transformed_data : pydict) (key : pyval) (s : state) :
  dict_get "sha256" transformed_data = Some key ->
  load_data replace_one transformed_data s =
  (Ok (load_outcome (replace_one (writes s) [("sha256", key)] transformed_data)),
   mkState (gets s) (S (writes s)) (ticks s)
           (trace s ++ [EvReplaceOne [("sha256", key)] transformed_data])).
Proof.
  intros Hk.
  unfold load_data, try_except, bind, lift, dict_index, collection_replace_one.
  rewrite Hk.
  destruct (replace_one (writes s) [("sha256", key)] transformed_data) as [e|r];
    simpl; [reflexivity|].
  destruct (truthy (upserted_id r) || (modified_count r >? 0)); reflexivity.
Qed.

Lemma load_data_without_key (transformed_data : pydict) (s : state) :
  dict_get "sha256" transformed_data = None ->
  load_data replace_one transformed_data s = (Raise (KeyError "sha256"), s).
Proof.
  intros H. unfold load_data, try_except, bind, lift, dict_index.
  rewrite H. reflexivity.
Qed.

(** X15. A dictionary without the key [sha256] makes [load_data] raise
    [KeyError] instead of returning [False]: the handler formats the
    missing key into its log line.  The store is not called. *)
Theorem load_data_missing_key :
  forall (transformed_data : pydict) (s : state),
    dict_contains "sha256" transformed_data = false ->
    load_data replace_one transformed_data s = (Raise (KeyError "sha256"), s).
Proof.
  intros transformed_data s H. unfold dict_contains in H.
  apply load_data_without_key.
  destruct (dict_get "sha256" transformed_data); [discriminate|reflexivity].
Qed.

(** X16. Loading what the transformer returned never raises: the store is
    asked once to replace, by upsert, the document whose [sha256] is the
    sample hash with the whole record, and the boolean tells whether the
    store returned. *)
Theorem transform_then_load :
  forall (strptime : string -> option datetime) (raw_data : pyval)
         (sample_hash : string) (now : datetime) (r : pydict) (s : state),
    transform_data strptime raw_data sample_hash now = Ok r ->
    let filter := [("sha256", PStr sample_hash)] in
    load_data replace_one r s =
    (Ok (load_outcome (replace_one (writes s) filter r)),
     mkState (gets s) (S (writes s)) (ticks s)
             (trace s ++ [EvReplaceOne filter r])).
Proof.
  intros strptime raw_data sample_hash now r s H filter.
  apply load_data_with_key.
  apply (transform_data_populated strptime _ _ _ _ H).
Qed.

End LoaderFurther.

Lemma load_data_missing_key_witness :
  load_data (store_returns inserted)
            [("source", PStr "test");
             ("ingestion_timestamp", PDatetime fixture_now)] initial
  = (Raise (KeyError "sha256"), initial).
Proof.
  exact (load_data_missing_key (store_returns inserted)
           [("source", PStr "test");
            ("ingestion_timestamp", PDatetime fixture_now)] initial eq_refl).
Defined.

Lemma transform_then_load_witness :
  exists r,
    transform_data strptime_fixed (PDict sample_api_response) fixture_hash
                   fixture_now = Ok r
    /\ load_data store_raises r initial
       = (Ok false,
          mkState 0 1 0 [EvReplaceOne [("sha256", PStr fixture_hash)] r]).
Proof.
  eexists. split; [reflexivity|].
  exact (transform_then_load store_raises strptime_fixed
           (PDict sample_api_response) fixture_hash fixture_now _ initial
           eq_refl).
Defined.

(** ** Footprints *)

Lemma requests_in_app (a b : list event) :
  requests_in (a ++ b) = (requests_in a + requests_in b)%nat.
Proof.
  induction a as [|e a IH]; [reflexivity|].
  destruct e; simpl; rewrite IH; reflexivity.
Qed.

Lemma writes_in_app (a b : list event) :
  writes_in (a ++ b) = (writes_in a + writes_in b)%nat.
Proof.
  induction a as [|e a IH]; [reflexivity|].
  destruct e; simpl; rewrite IH; reflexivity.
Qed.

Lemma advance_nil (s : state) : advance s 0 [] = s.
Proof.
  destruct s. unfold advance. simpl.
  rewrite !Nat.add_0_r, app_nil_r. reflexivity.
Qed.

Lemma advance_advance (s : state) (t1 t2 : nat) (e1 e2 : list event) :
  advance (advance s t1 e1) t2 e2 = advance s (t1 + t2) (e1 ++ e2).
Proof.
  unfold advance. simpl. rewrite requests_in_app, writes_in_app.
  f_equal; try lia. rewrite app_assoc. reflexivity.
Qed.

Ltac footprint_split := split; [|split; [|split; [|split]]].

Lemma footprint_ret {A : Type} (a : A) :
  footprint (ret a) 0 0 (fun a' evs => a' = a /\ evs = []).
Proof.
  intros s. exists (Ok a), 0%nat, []. unfold ret. rewrite advance_nil.
  footprint_split; auto. intros a' Ha; inversion Ha; auto.
Qed.

Lemma footprint_lift {A : Type} (r : result A) :
  footprint (lift r) 0 0 (fun a evs => r = Ok a /\ evs = []).
Proof.
  intros s. exists r, 0%nat, []. unfold lift. rewrite advance_nil.
  footprint_split; auto.
Qed.

Lemma footprint_sleep (time_sleep : Q -> sleep_outcome) (seconds : Q) :
  footprint (sleep time_sleep seconds) 0 0
            (fun _ evs => evs = [EvSleep seconds]).
Proof.
  intros s. unfold sleep.
  destruct (time_sleep seconds);
    [exists (Ok tt), 0%nat, [EvSleep seconds]
    |exists (Raise ValueError), 0%nat, []
    |exists (Raise OverflowError), 0%nat, []
    |exists (Raise OSError), 0%nat, []];
    unfold raise; try rewrite advance_nil;
    footprint_split; auto; try (intros a Ha; discriminate Ha).
  unfold emit, advance. simpl. rewrite !Nat.add_0_r. reflexivity.
Qed.

Lemma footprint_weaken {A : Type} (m : M A) (g g' w w' : nat)
    (Q Q' : A -> list event -> Prop) :
  footprint m g w Q ->
  (g <= g')%nat -> (w <= w')%nat ->
  (forall a evs, forallb io_event evs = true ->
                 (requests_in evs <= g)%nat -> (writes_in evs <= w)%nat ->
                 Q a evs -> Q' a evs) ->
  footprint m g' w' Q'.
Proof.
  intros H Hg Hw HQ s.
  destruct (H s) as (r & t & evs & Hrun & Hio & Hr & Hwr & Hq).
  exists r, t, evs. footprint_split; auto; try lia.
Qed.

(** Sequencing adds the footprints. *)
Lemma footprint_bind {A B : Type} (m : M A) (f : A -> M B)
    (g1 w1 g2 w2 : nat) (Q1 : A -> list event -> Prop)
    (Q2 : A -> B -> list event -> Prop) :
  footprint m g1 w1 Q1 ->
  (forall a e1, Q1 a e1 -> footprint (f a) g2 w2 (Q2 a)) ->
  footprint (bind m f) (g1 + g2) (w1 + w2)
    (fun b evs => exists a e1 e2,
                    evs = (e1 ++ e2)%list /\ Q1 a e1 /\ Q2 a b e2
                    /\ (requests_in e1 <= g1)%nat /\ (writes_in e1 <= w1)%nat
                    /\ (requests_in e2 <= g2)%nat /\ (writes_in e2 <= w2)%nat).
Proof.
  intros Hm Hf s. unfold bind.
  destruct (Hm s) as (r & t & e1 & Hrun & Hio & Hr & Hw & Hq).
  rewrite Hrun. destruct r as [a|e].
  - destruct (Hf a e1 (Hq a eq_refl) (advance s t e1))
      as (r2 & t2 & e2 & Hrun2 & Hio2 & Hr2 & Hw2 & Hq2).
    rewrite Hrun2, advance_advance.
    exists r2, (t + t2)%nat, (e1 ++ e2)%list.
    rewrite requests_in_app, writes_in_app, forallb_app, Hio, Hio2.
    footprint_split; auto; try lia.
    intros b Hb. exists a, e1, e2.
    split; [reflexivity|]. split; [apply Hq; reflexivity|].
    split; [apply Hq2; exact Hb|]. lia.
  - exists (Raise e), t, e1. footprint_split; auto; try lia.
    intros b Hb; discriminate Hb.
Qed.

Lemma footprint_if {A : Type} (b : bool) (m1 m2 : M A) (g w : nat)
    (Q : A -> list event -> Prop) :
  footprint m1 g w Q -> footprint m2 g w Q ->
  footprint (if b then m1 else m2) g w Q.
Proof. destruct b; auto. Qed.

Lemma request_or_sleep_events (P : nat -> Prop) (self : connector)
    (url : string) (params : list (string * string)) (evs : list event) :
  Forall (fun e => e = EvRequest url params
                   \/ exists a, P a /\ e = EvSleep (exponential_delay self a))
         evs ->
  writes_in evs = 0%nat /\ forallb io_event evs = true.
Proof.
  induction 1 as [|e evs He _ [IHw IHio]]; [auto|].
  destruct He as [->|(a & _ & ->)]; simpl; auto.
Qed.

Section PipelineFootprints.

Variable time_sleep : Q -> sleep_outcome.
Variable strptime : string -> option datetime.
Variable http_get : nat -> string -> list (string * string) -> get_outcome.
Variable replace_one : nat -> pydict -> pydict -> replace_outcome.
Variable utcnow : nat -> datetime.
Variable self : connector.

Lemma footprint_make_api_request (endpoint : string)
    (params : list (string * string)) :
  footprint (_make_api_request time_sleep http_get self endpoint params)
      (Z.to_nat (max_retries self)) 0
            (fun _ evs => writes_in evs = 0%nat).
Proof.
  intros s.
  destruct (attempts_footprint time_sleep http_get self (request_url self)
              (request_query self endpoint params)
              (range (max_retries self)) s)
    as (r & evs & Hrun & Hreq & _ & Hall & _).
  apply request_or_sleep_events in Hall. destruct Hall as [Hw Hio].
  exists r, 0%nat, evs. unfold _make_api_request.
  unfold request_url, request_query in Hrun. rewrite Hrun.
  unfold range in Hreq. rewrite length_seq in Hreq.
  footprint_split; auto; try lia.
  unfold after_requests, advance. rewrite Hw, !Nat.add_0_r. reflexivity.
Qed.

Lemma footprint_extract_sample_details (sample_hash : string) :
  footprint (extract_sample_details time_sleep http_get self sample_hash)
      (Z.to_nat (max_retries self)) 0
            (fun _ evs => writes_in evs = 0%nat).
Proof.
  intros s. unfold extract_sample_details, bind.
  destruct (footprint_make_api_request "details" [("hash", sample_hash)] s)
    as (r & t & evs & Hrun & Hio & Hr & Hw & Hq).
  rewrite Hrun. destruct r as [v|e].
  - destruct (negb (truthy v)); unfold ret;
      [exists (Ok PNone), t, evs|exists (Ok v), t, evs];
      (footprint_split; auto; intros a _; apply (Hq v eq_refl)).
  - exists (Raise e), t, evs. footprint_split; auto;
      try (intros a Ha; discriminate Ha).
Qed.

Lemma footprint_extract_sample_list (limit : Z) :
  footprint (extract_sample_list time_sleep http_get self limit) (Z.to_nat
      (max_retries self)) 0
            (fun l evs => writes_in evs = 0%nat
                          /\ (0 <= limit ->
                              (List.length l <= Z.to_nat limit)%nat)).
Proof.
  intros s.
  destruct (footprint_make_api_request "getlist" [] s)
    as (r & t & evs & Hrun & Hio & Hr & Hw & Hq).
  pose proof (extract_sample_list_state time_sleep http_get self limit s) as Hs.
  rewrite Hrun in Hs. simpl in Hs.
  destruct (extract_sample_list time_sleep http_get self limit s) as [rl sl]
      eqn:Hl.
  simpl in Hs. subst sl.
  exists rl, t, evs. footprint_split; auto.
  intros l ->. split.
  - assert (Hw0 : (writes_in evs <= 0)%nat) by exact Hw. lia.
  - intros Hlim.
    destruct (extract_sample_list_ok time_sleep http_get self limit s _ l Hl)
      as [->|(elems & tl & _ & ->)]; [simpl; lia|].
    unfold slice_to.
    replace (0 <=? limit) with true by (symmetry; apply Z.leb_le; exact Hlim).
    rewrite length_firstn. lia.
Qed.

Lemma footprint_datetime_now_utc :
  footprint (datetime_now_utc utcnow) 0 0 (fun _ evs => evs = []).
Proof.
  intros s. exists (Ok (utcnow (ticks s))), 1%nat, [].
  unfold datetime_now_utc, advance. simpl.
  rewrite !Nat.add_0_r, app_nil_r, Nat.add_1_r.
  footprint_split; auto.
Qed.

Lemma footprint_load_data (transformed_data : pydict) :
  footprint (load_data replace_one transformed_data) 0 1
            (fun loaded evs => loaded = true -> writes_in evs = 1%nat).
Proof.
  intros s. destruct (dict_get "sha256" transformed_data) as [key|] eqn:Hk.
  - rewrite (load_data_with_key replace_one transformed_data key s Hk).
    eexists _, 0%nat, [EvReplaceOne [("sha256", key)] transformed_data].
    footprint_split; auto.
    unfold advance. simpl. rewrite !Nat.add_0_r, Nat.add_1_r. reflexivity.
  - rewrite (load_data_without_key replace_one transformed_data s Hk).
    exists (Raise (KeyError "sha256")), 0%nat, []. rewrite advance_nil.
    footprint_split; auto; try (intros a Ha; discriminate Ha).
Qed.

(** The loop over the samples: at most [max_retries] requests and one store
    write per sample; every sample is counted once, as a success or as a
    failure, and a success only after a store write. *)
Lemma footprint_process_samples (hashes : list string) :
  forall (total i successful failed : Z),
    footprint
      (process_samples time_sleep strptime http_get replace_one utcnow self
                       total i hashes successful failed)
      (List.length hashes * (Z.to_nat (max_retries self))) (List.length hashes)
      (fun counts evs =>
         fst counts + snd counts
         = successful + failed + Z.of_nat (List.length hashes)
         /\ successful <= fst counts /\ failed <= snd counts
         /\ fst counts - successful <= Z.of_nat (writes_in evs)).
Proof.
  induction hashes as [|h rest IH]; intros total i successful failed.
  - simpl process_samples.
    eapply footprint_weaken; [apply footprint_ret|simpl; lia|simpl; lia|].
    intros a evs _ _ _ [-> ->]. simpl. lia.
  - cbn [process_samples].
    eapply footprint_weaken.
    + eapply footprint_bind with
        (Q2 := fun _ counts evs =>
                 fst counts + snd counts
                 = successful + failed + 1 + Z.of_nat (List.length rest)
                 /\ successful <= fst counts /\ failed <= snd counts
                 /\ fst counts - successful <= Z.of_nat (writes_in evs))
        (g2 := (List.length rest * (Z.to_nat (max_retries self)))%nat)
        (w2 := S (List.length rest)).
      * apply footprint_extract_sample_details.
      * intros raw_data e1 _. apply footprint_if.
        -- eapply footprint_weaken;
             [apply IH|apply Nat.le_refl|apply Nat.le_succ_diag_r|].
           intros a evs _ _ _ H. cbv beta in H. lia.
        -- eapply footprint_weaken.
           ++ eapply footprint_bind; [apply footprint_datetime_now_utc|].
              intros now e2 _.
              eapply footprint_bind; [apply footprint_lift|].
              intros transformed e3 _.
              eapply footprint_bind; [apply (footprint_load_data transformed)|].
              intros loaded e4 _.
              eapply footprint_bind with
                (Q1 := fun (_ : unit) (_ : list event) => True)
                (g1 := 0%nat) (w1 := 0%nat).
              ** apply footprint_if;
                   (eapply footprint_weaken;
                    [first [apply footprint_sleep|apply footprint_ret]
                    |lia|lia|auto]).
              ** intros u e5 _. apply IH.
           ++ simpl. lia.
           ++ simpl. lia.
           ++ intros counts evs _ _ _
                (now & e2 & e2' & -> & -> & (tr & e3 & e3' & -> & [_ ->]
                 & (loaded & e4 & e4' & -> & Hload
                    & (u & e5 & e6 & -> & _ & Hrec & H5) & H4) & H3) & H2).
              cbv beta in Hrec.
              rewrite !writes_in_app. simpl app. 
              destruct loaded; simpl fst in Hrec; simpl snd in Hrec.
              ** rewrite (Hload eq_refl). lia.
              ** lia.
    + simpl. lia.
    + simpl. lia.
    + intros counts evs _ _ _ (raw & e1 & e2 & -> & Hw1 & Hrec & _).
      rewrite writes_in_app.
      replace (Z.of_nat (List.length (h :: rest)))
        with (1 + Z.of_nat (List.length rest)) by (simpl List.length; lia).
      lia.
Qed.

(** The shape of every run: actions on the outside world, then how the
    run ended (nothing when it raised, the abort or the summary when it
    returned), then the closing of the store connection. *)
Lemma run_etl_pipeline_outline (sample_limit : option Z) (s : state) :
  let limit := match sample_limit with Some n => n | None => 50 end in
  exists (r : result unit) (t : nat) (evs ending : list event),
    run_etl_pipeline time_sleep strptime http_get replace_one utcnow self
        sample_limit s
    = (r, mkState (gets s + requests_in evs) (writes s + writes_in evs)
                  (ticks s + t) (trace s ++ evs ++ ending ++ [EvClose]))
    /\ forallb io_event evs = true
    /\ (0 <= limit ->
        (requests_in evs <= (1 + Z.to_nat limit) * (Z.to_nat (max_retries self)))%nat
        /\ (writes_in evs <= Z.to_nat limit)%nat)
    /\ match r with
       | Ok _ =>
           (ending = [EvAbort] /\ writes_in evs = 0%nat)
           \/ exists total successful failed,
                ending = [EvSummary total successful failed]
                /\ 1 <= total /\ successful + failed = total
                /\ 0 <= successful /\ 0 <= failed
                /\ successful <= Z.of_nat (writes_in evs)
                /\ Z.of_nat (writes_in evs) <= total
       | Raise _ => ending = []
       end.
Proof.
  intros limit.
  unfold run_etl_pipeline, try_finally, try_except. fold limit.
  unfold bind at 1.
  destruct (footprint_extract_sample_list limit s)
    as (rl & t1 & e1 & Hrun1 & Hio1 & Hr1 & Hw1 & Hq1).
  rewrite Hrun1.
  assert (Hw10 : writes_in e1 = 0%nat) by lia.
  destruct rl as [hashes|e].
  - destruct (Hq1 hashes eq_refl) as [_ Hlen].
    destruct hashes as [|h tl].
    + exists (Ok tt), t1, e1, [EvAbort].
      unfold emit, advance. simpl. rewrite <- !app_assoc.
      split; [reflexivity|]. split; [exact Hio1|]. split; [|left; auto].
      intros _. lia.
    + unfold bind.
      destruct (footprint_process_samples (h :: tl)
                  (Z.of_nat (List.length (h :: tl))) 1 0 0 (advance s t1 e1))
        as (rp & t2 & e2 & Hrun2 & Hio2 & Hr2 & Hw2 & Hq2).
      rewrite Hrun2, advance_advance.
      assert (Hbound : 0 <= limit ->
                (requests_in (e1 ++ e2) <= (1 + Z.to_nat limit) * (Z.to_nat (max_retries self)))%nat
                /\ (writes_in (e1 ++ e2) <= Z.to_nat limit)%nat).
      { intros Hl. specialize (Hlen Hl).
        rewrite requests_in_app, writes_in_app. split; [|lia].
        assert ((List.length (h :: tl) * (Z.to_nat (max_retries self))
                 <= Z.to_nat limit * (Z.to_nat (max_retries self)))%nat)
          by (apply Nat.mul_le_mono_r; exact Hlen).
        lia. }
      destruct rp as [counts|e].
      * exists (Ok tt), (t1 + t2)%nat, (e1 ++ e2)%list,
          [EvSummary (Z.of_nat (List.length (h :: tl)))
                     (fst counts) (snd counts)].
        unfold emit, advance. simpl trace. simpl gets. simpl writes.
        simpl ticks. rewrite <- !app_assoc.
        split; [reflexivity|].
        split; [rewrite forallb_app, Hio1, Hio2; reflexivity|].
        split; [exact Hbound|].
        right. exists (Z.of_nat (List.length (h :: tl))), (fst counts),
                 (snd counts).
        destruct (Hq2 counts eq_refl) as (Hsum & Hs & Hf & Hwr).
        rewrite writes_in_app.
        split; [reflexivity|]. simpl List.length in *. lia.
      * exists (Raise e), (t1 + t2)%nat, (e1 ++ e2)%list, [].
        unfold raise, emit, advance. simpl trace. simpl gets. simpl writes.
        simpl ticks. rewrite <- !app_assoc.
        split; [reflexivity|].
        split; [rewrite forallb_app, Hio1, Hio2; reflexivity|].
        split; [exact Hbound|reflexivity].
  - exists (Raise e), t1, e1, [].
    unfold raise, emit, advance. simpl. rewrite <- !app_assoc.
    split; [reflexivity|]. split; [exact Hio1|]. split; [|reflexivity].
    intros _. lia.
Qed.

End PipelineFootprints.

(** ** The orchestrator on any provider and any store *)

Section PipelineFurther.

Variable time_sleep : Q -> sleep_outcome.
Variable strptime : string -> option datetime.
Variable http_get : nat -> string -> list (string * string) -> get_outcome.
Variable replace_one : nat -> pydict -> pydict -> replace_outcome.
Variable utcnow : nat -> datetime.
Variable self : connector.

Lemma io_event_in (e : event) (evs : list event) :
  forallb io_event evs = true -> In e evs -> io_event e = true.
Proof.
  intros H Hin. rewrite forallb_forall in H. apply H. exact Hin.
Qed.

(** X17. Whatever the provider, the store and [time.sleep] do, and
    whether the run returns or raises, the store connection is closed
    exactly once, as the last action of the run. *)
Theorem run_etl_pipeline_closes_store :
  forall (sample_limit : option Z) (s : state),
  exists before,
    trace (snd (run_etl_pipeline time_sleep strptime http_get replace_one utcnow
        self
                                 sample_limit s))
    = (trace s ++ before ++ [EvClose])%list
    /\ ~ In EvClose before.
Proof.
  intros sample_limit s.
  destruct (run_etl_pipeline_outline time_sleep strptime http_get replace_one
      utcnow
              self sample_limit s)
    as (r & t & evs & ending & Hrun & Hio & _ & Hend).
  exists (evs ++ ending)%list. rewrite Hrun. simpl.
  split; [rewrite <- !app_assoc; reflexivity|].
  intros Hin. apply in_app_or in Hin. destruct Hin as [Hin|Hin].
  - apply (io_event_in _ _ Hio) in Hin. discriminate Hin.
  - destruct r.
    + destruct Hend as [[-> _]|(total & su & fa & -> & _)];
        simpl in Hin; destruct Hin as [Hin|[]]; discriminate Hin.
    + subst ending. destruct Hin.
Qed.

(** X18. With a limit that is not negative, a run makes at most
    [(1 + limit) * max_retries] requests and at most [limit] store writes,
    whatever the provider, the store and [time.sleep] do. *)
Theorem run_etl_pipeline_bounds :
  forall (sample_limit : option Z) (s : state),
    let limit := match sample_limit with Some n => n | None => 50 end in
    let s' := snd (run_etl_pipeline time_sleep strptime http_get replace_one
        utcnow self
                                    sample_limit s) in
    0 <= limit ->
    (gets s' - gets s <= (1 + Z.to_nat limit) * Z.to_nat (max_retries self))%nat
    /\ (writes s' - writes s <= Z.to_nat limit)%nat
    /\ requests_in (skipn (List.length (trace s)) (trace s'))
       = (gets s' - gets s)%nat
    /\ writes_in (skipn (List.length (trace s)) (trace s'))
       = (writes s' - writes s)%nat.
Proof.
  intros sample_limit s limit s' Hl. unfold s'.
  destruct (run_etl_pipeline_outline time_sleep strptime http_get replace_one
      utcnow
              self sample_limit s)
    as (r & t & evs & ending & Hrun & Hio & Hb & Hend).
  rewrite Hrun. simpl. destruct (Hb Hl) as [Hg Hw].
  assert (Hskip : skipn (List.length (trace s))
                        (trace s ++ evs ++ ending ++ [EvClose])
                  = (evs ++ ending ++ [EvClose])%list).
  { rewrite skipn_app, skipn_all, Nat.sub_diag. reflexivity. }
  rewrite Hskip, requests_in_app, writes_in_app.
  assert (He : requests_in (ending ++ [EvClose]) = 0%nat
               /\ writes_in (ending ++ [EvClose]) = 0%nat).
  { destruct r.
    - destruct Hend as [[-> _]|(total & su & fa & -> & _)]; auto.
    - subst ending; auto. }
  destruct He as [-> ->]. repeat split; lia.
Qed.

(** X19. A run that returns ends either with the abort, having written
    nothing to the store, or with a summary in which every sample is
    counted once, as a success or as a failure; there are no more
    successes than store writes and no more store writes than samples.  A
    run that raises reports neither an abort nor a summary. *)
Theorem run_etl_pipeline_accounting :
  forall (sample_limit : option Z) (s : state),
    let run := run_etl_pipeline time_sleep strptime http_get replace_one utcnow
        self
                                sample_limit s in
    let written := Z.of_nat (writes (snd run) - writes s) in
    exists evs,
      forallb io_event evs = true
      /\ match fst run with
         | Ok _ =>
             (trace (snd run) = (trace s ++ evs ++ [EvAbort; EvClose])%list
              /\ written = 0)
             \/ exists total successful failed,
                  trace (snd run)
                  = (trace s ++ evs
                     ++ [EvSummary total successful failed; EvClose])%list
                  /\ 1 <= total /\ successful + failed = total
                  /\ 0 <= successful /\ 0 <= failed
                  /\ successful <= written /\ written <= total
         | Raise _ => trace (snd run) = (trace s ++ evs ++ [EvClose])%list
         end.
Proof.
  intros sample_limit s run written. unfold written, run.
  destruct (run_etl_pipeline_outline time_sleep strptime http_get replace_one
      utcnow
              self sample_limit s)
    as (r & t & evs & ending & Hrun & Hio & _ & Hend).
  rewrite Hrun. simpl. exists evs. split; [exact Hio|].
  replace (writes s + writes_in evs - writes s)%nat with (writes_in evs) by lia.
  destruct r.
  - destruct Hend as [[-> Hw]|(total & su & fa & -> & H)].
    + left. split; [reflexivity|lia].
    + right. exists total, su, fa. split; [reflexivity|exact H].
  - subst ending. reflexivity.
Qed.

(** X20. When the extractor returns no identifier, the run stops there:
    it reports the abort, closes the store connection and returns without
    raising, with no details request and no store write. *)
Theorem run_etl_pipeline_aborts_on_empty_list :
  forall (limit : Z) (s s' : state),
    extract_sample_list time_sleep http_get self limit s = (Ok [], s') ->
    run_etl_pipeline time_sleep strptime http_get replace_one utcnow self (Some
        limit) s
    = (Ok tt,
       mkState (gets s') (writes s') (ticks s')
               (trace s' ++ [EvAbort; EvClose])).
Proof.
  intros limit s s' H.
  unfold run_etl_pipeline, try_finally, try_except, bind. rewrite H.
  unfold emit. simpl. rewrite <- app_assoc. reflexivity.
Qed.

End PipelineFurther.

Lemma run_etl_pipeline_bounds_witness :
  (gets (snd (run_on_26 (Some 25%Z))) - gets initial
   <= (1 + Z.to_nat 25%Z) * Z.to_nat 1%Z)%nat
  /\ (writes (snd (run_on_26 (Some 25%Z))) - writes initial
      <= Z.to_nat 25%Z)%nat.
Proof.
  destruct (run_etl_pipeline_bounds time_sleep_fixture strptime_rejects
              (http_list_then_errors 26) store_raises utcnow_fixed
              single_attempt_connector (Some 25) initial)
    as (Hg & Hw & _).
  - lia.
  - split; [exact Hg|exact Hw].
Defined.

Lemma run_etl_pipeline_aborts_on_empty_list_witness :
  run_etl_pipeline time_sleep_fixture strptime_rejects http_network_error
      store_raises
                   utcnow_fixed test_connector (Some 10) initial
  = (Ok tt,
     mkState 2 0 0
       [EvRequest "https://malshare.com/api.php"
                  [("api_key", "test_api_key_123"); ("action", "getlist")];
        EvSleep (1 # 10);
        EvRequest "https://malshare.com/api.php"
                  [("api_key", "test_api_key_123"); ("action", "getlist")];
        EvAbort; EvClose]).
Proof.
  exact (run_etl_pipeline_aborts_on_empty_list time_sleep_fixture
           strptime_rejects http_network_error store_raises utcnow_fixed
           test_connector 10 initial _ eq_refl).
Defined.

(** ** A run in which every step succeeds *)

Lemma sleeps_in_app (a b : list event) :
  sleeps_in (a ++ b) = (sleeps_in a ++ sleeps_in b)%list.
Proof.
  induction a as [|e a IH]; [reflexivity|].
  destruct e; simpl; rewrite IH; reflexivity.
Qed.

Section HappyPath.

Variable time_sleep : Q -> sleep_outcome.
Variable strptime : string -> option datetime.
Variable http_get : nat -> string -> list (string * string) -> get_outcome.
Variable replace_one : nat -> pydict -> pydict -> replace_outcome.
Variable utcnow : nat -> datetime.
Variable self : connector.

Hypothesis one_attempt : 1 <= max_retries self.

Hypothesis sleep_returns : time_sleep (rate_limit_delay self) = SleepReturns.

Hypothesis store_returns_always :
  forall n filter document,
  exists r, replace_one n filter document = ReplaceReturns r.

(** A request whose first attempt succeeds. *)
Lemma make_api_request_first_attempt (endpoint : string)
    (params : list (string * string)) (s : state) (v : pyval) :
  succeeds_with
    (http_get (gets s) (request_url self) (request_query self endpoint params))
    v ->
  _make_api_request time_sleep http_get self endpoint params s
  = (Ok v, advance s 0 [EvRequest (request_url self)
                                  (request_query self endpoint params)]).
Proof.
  intros (r & Hget & H429 & He & Hp).
  unfold _make_api_request, range.
  destruct (Z.to_nat (max_retries self)) as [|n] eqn:Hn; [lia|].
  cbn [seq].
  rewrite (attempts_cons_terminal time_sleep http_get self _ _ 0 (seq 1 n) s (Ok
      v)).
  - f_equal. unfold after_requests, advance. simpl.
    rewrite !Nat.add_0_r. reflexivity.
  - unfold request_url, request_query in Hget. rewrite Hget.
    unfold terminal. apply Z.eqb_neq in H429. rewrite H429, He, Hp.
    reflexivity.
Qed.

(** One sample whose details, transformation and load succeed. *)
Lemma process_samples_step (total i successful failed : Z)
    (sample_hash : string) (rest : list string) (s : state) :
  usable_details
    (http_get (gets s) (request_url self)
              (request_query self "details" [("hash", sample_hash)])) ->
  exists record,
    process_samples time_sleep strptime http_get replace_one utcnow self total i
                    (sample_hash :: rest) successful failed s
    = process_samples time_sleep strptime http_get replace_one utcnow self total
        (i + 1)
        rest (successful + 1) failed
        (advance s 1
           ([EvRequest (request_url self)
                       (request_query self "details" [("hash", sample_hash)]);
             EvReplaceOne [("sha256", PStr sample_hash)] record]
            ++ (if i <? total then [EvSleep (rate_limit_delay self)] else []))).
Proof.
  intros (raw & Hok & Hne & Hft & Hadded).
  destruct (transform_data_mapping_total strptime raw sample_hash
              (utcnow (ticks s)) Hft Hadded) as [record Hrec].
  exists record.
  cbn [process_samples]. unfold bind at 1. unfold extract_sample_details.
  unfold bind at 1.
  rewrite (make_api_request_first_attempt "details" [("hash", sample_hash)]
             s (PDict raw) Hok).
  assert (Ht : truthy (PDict raw) = true)
    by (destruct raw; [contradiction|reflexivity]).
  rewrite Ht. cbn [negb]. unfold ret at 1. rewrite Ht. cbn [negb].
  unfold bind at 1. unfold datetime_now_utc at 1.
  cbn [ticks advance]. rewrite Nat.add_0_r.
  unfold bind at 1. unfold lift at 1. rewrite Hrec.
  unfold bind at 1.
  pose proof (transform_data_populated strptime _ _ _ _ Hrec) as [Hkey _].
  rewrite (load_data_with_key replace_one record (PStr sample_hash) _ Hkey).
  match goal with
  | |- context [replace_one ?n ?f ?d] =>
      destruct (store_returns_always n f d) as [ur Hur]; rewrite Hur
  end.
  cbn [load_outcome fst snd].
  unfold bind at 1.
  destruct (i <? total).
  - unfold sleep. rewrite sleep_returns.
    unfold emit. f_equal. unfold advance. simpl.
    f_equal; try lia. rewrite <- !app_assoc. reflexivity.
  - unfold ret. f_equal. unfold advance. simpl.
    f_equal; try lia. rewrite <- !app_assoc. reflexivity.
Qed.

(** The loop over samples that all succeed: one request, one store write
    and one reading of the clock per sample, a sleep of the rate-limit
    delay after every sample but the last, and every sample counted as a
    success. *)
Lemma process_samples_all_succeed (hashes : list string) :
  forall (total i successful failed : Z) (s : state),
    i + Z.of_nat (List.length hashes) = total + 1 ->
    (forall n url q, (gets s <= n)%nat -> usable_details (http_get n url q)) ->
    exists evs,
      process_samples time_sleep strptime http_get replace_one utcnow self total
          i hashes
                      successful failed s
      = (Ok (successful + Z.of_nat (List.length hashes), failed),
         advance s (List.length hashes) evs)
      /\ requests_in evs = List.length hashes
      /\ writes_in evs = List.length hashes
      /\ sleeps_in evs
         = repeat (rate_limit_delay self) (List.length hashes - 1).
Proof.
  induction hashes as [|h rest IH]; intros total i successful failed s Hi Hhttp.
  - exists []. simpl. unfold ret. rewrite advance_nil, Z.add_0_r. auto.
  - destruct (process_samples_step total i successful failed h rest s
                (Hhttp _ _ _ (Nat.le_refl _))) as [record Hstep].
    rewrite Hstep.
    set (step_events :=
           ([EvRequest (request_url self)
                       (request_query self "details" [("hash", h)]);
             EvReplaceOne [("sha256", PStr h)] record]
            ++ (if i <? total then [EvSleep (rate_limit_delay self)] else []))%list)
      in *.
    assert (Hreq : requests_in step_events = 1%nat)
      by (unfold step_events; destruct (i <? total); reflexivity).
    assert (Hwr : writes_in step_events = 1%nat)
      by (unfold step_events; destruct (i <? total); reflexivity).
    destruct (IH total (i + 1) (successful + 1) failed
                (advance s 1 step_events)) as (evs & Hrun & Hr & Hw & Hs).
    + simpl List.length in Hi. lia.
    + intros n url q Hn. apply Hhttp. simpl in Hn. lia.
    + exists (step_events ++ evs)%list. rewrite Hrun, advance_advance.
      rewrite requests_in_app, writes_in_app, sleeps_in_app, Hr, Hw, Hs, Hreq, Hwr.
      simpl List.length.
      split.
      { replace (successful + 1 + Z.of_nat (List.length rest))
          with (successful + Z.of_nat (S (List.length rest))) by lia.
        reflexivity. }
      split; [lia|]. split; [lia|].
      unfold step_events. simpl List.length in Hi.
      destruct rest as [|h' rest'].
      * simpl List.length in Hi.
        replace (i <? total) with false by (symmetry; apply Z.ltb_ge; lia).
        reflexivity.
      * simpl List.length in Hi.
        replace (i <? total) with true by (symmetry; apply Z.ltb_lt; lia).
        simpl. rewrite Nat.sub_0_r. reflexivity.
Qed.

(** A run over a non-empty list whose loop returns. *)
Lemma run_etl_pipeline_summary (limit : Z) (s s1 s2 : state)
    (hashes : list string) (counts : Z * Z) :
  extract_sample_list time_sleep http_get self limit s = (Ok hashes, s1) ->
  hashes <> [] ->
  process_samples time_sleep strptime http_get replace_one utcnow self
                  (Z.of_nat (List.length hashes)) 1 hashes 0 0 s1
  = (Ok counts, s2) ->
  run_etl_pipeline time_sleep strptime http_get replace_one utcnow self (Some
      limit) s
  = (Ok tt,
     mkState (gets s2) (writes s2) (ticks s2)
             (trace s2 ++ [EvSummary (Z.of_nat (List.length hashes))
                                     (fst counts) (snd counts);
                           EvClose])).
Proof.
  intros Hextract Hne Hloop.
  unfold run_etl_pipeline, try_finally, try_except.
  unfold bind at 1. rewrite Hextract.
  destruct hashes as [|h rest]; [contradiction|].
  unfold bind. rewrite Hloop. unfold emit. simpl.
  rewrite <- app_assoc. reflexivity.
Qed.

(** X21. When the list request succeeds with at least one identifier
    within a non-negative limit, every details request succeeds at its
    first attempt with a usable record, the store returns from every
    write and [time.sleep] returns for the rate-limit delay, a run over
    [k] identifiers makes exactly [1 + k] requests and [k] store writes,
    sleeps the rate-limit delay [k - 1] times (not after the last sample),
    and reports [k] successes and no failure. *)
Theorem run_etl_pipeline_all_succeed :
  forall (limit : Z) (s : state) (lines : list string),
    0 <= limit ->
    firstn (Z.to_nat limit) (trimmed_lines lines) <> [] ->
    succeeds_with
      (http_get (gets s) (request_url self) (request_query self "getlist" []))
      (list_response lines) ->
    (forall n url q, (gets s < n)%nat -> usable_details (http_get n url q)) ->
    let k := List.length (firstn (Z.to_nat limit) (trimmed_lines lines)) in
    exists evs,
      run_etl_pipeline time_sleep strptime http_get replace_one utcnow self
          (Some limit) s
      = (Ok tt,
         mkState (gets s + (1 + k)) (writes s + k) (ticks s + k)
                 (trace s ++ evs
                  ++ [EvSummary (Z.of_nat k) (Z.of_nat k) 0; EvClose]))
      /\ requests_in evs = (1 + k)%nat
      /\ writes_in evs = k
      /\ sleeps_in evs = repeat (rate_limit_delay self) (k - 1).
Proof.
  intros limit s lines Hlimit Hsome Hlist Hdetails k.
  set (hashes := firstn (Z.to_nat limit) (trimmed_lines lines)) in *.
  set (list_event := EvRequest (request_url self)
                               (request_query self "getlist" [])).
  assert (Hextract :
            extract_sample_list time_sleep http_get self limit s
            = (Ok hashes, advance s 0 [list_event])).
  { unfold extract_sample_list, bind.
    rewrite (make_api_request_first_attempt "getlist" [] s _ Hlist).
    assert (Hd : dict_get "data" [("data", PList (map PStr lines))]
                 = Some (PList (map PStr lines))) by reflexivity.
    unfold list_response, lift, py_contains, dict_contains, py_getitem,
      dict_index. rewrite Hd. cbn [truthy negb py_iter].
    rewrite strip_nonempty_lines. unfold slice_to, ret.
    replace (0 <=? limit) with true by (symmetry; apply Z.leb_le; exact Hlimit).
    reflexivity. }
  destruct (process_samples_all_succeed hashes (Z.of_nat (List.length hashes))
              1 0 0 (advance s 0 [list_event])) as (evs & Hrun & Hr & Hw & Hs).
  - lia.
  - intros n url q Hn. apply Hdetails. simpl in Hn. lia.
  - exists (list_event :: evs).
    rewrite (run_etl_pipeline_summary limit s _ _ hashes _ Hextract Hsome Hrun).
    rewrite advance_advance. unfold advance, list_event, k.
    cbn [gets writes ticks trace fst snd app requests_in writes_in sleeps_in].
    rewrite Hr, Hw, Hs, Z.add_0_l, <- !app_assoc.
    split; [reflexivity|]. split; [reflexivity|]. split; reflexivity.
Qed.

End HappyPath.

(** ** The further properties at the fixtures *)

Lemma transform_data_copies_fields_witness :
  exists r,
    transform_data strptime_fixture (PDict odd_record) fixture_hash fixture_now
    = Ok r
    /\ dict_get "md5" r = Some (PStr "d41d8cd9")
    /\ dict_get "sources" r = Some (PList [])
    /\ dict_get "sha1" r = None.
Proof.
  eexists. split; [reflexivity|].
  split; [|split].
  - exact (transform_data_copies_fields strptime_fixture odd_record
             fixture_hash fixture_now _ eq_refl "MD5" "md5"
             (or_introl eq_refl)).
  - refine (transform_data_copies_fields strptime_fixture odd_record
              fixture_hash fixture_now _ eq_refl "SOURCES" "sources" _).
    simpl. tauto.
  - refine (transform_data_copies_fields strptime_fixture odd_record
              fixture_hash fixture_now _ eq_refl "SHA1" "sha1" _).
    simpl. tauto.
Defined.

Lemma transform_data_keys_witness :
  exists r,
    transform_data strptime_fixture (PDict odd_record) fixture_hash fixture_now
    = Ok r
    /\ dict_contains "date_added" r = true
    /\ In "date_added" record_keys
    /\ dict_contains "YARA" r = false.
Proof.
  eexists. split; [reflexivity|].
  split; [reflexivity|]. split; [|reflexivity].
  exact (transform_data_keys strptime_fixture (PDict odd_record) fixture_hash
           fixture_now _ "date_added" eq_refl eq_refl).
Defined.

Lemma transform_data_parsed_date_witness :
  (exists r,
      transform_data strptime_fixture (PDict odd_record) fixture_hash
                     fixture_now = Ok r
      /\ dict_get "date_added_parsed" r = None
      /\ dict_get "date_added" r = Some (PStr "15/01/2024"))
  /\ exists r,
       transform_data strptime_fixture (PDict sample_api_response)
                      fixture_hash fixture_now = Ok r
       /\ dict_get "date_added_parsed" r
          = Some (PDatetime (mkDatetime 2024 1 15 10 30 0 0 false)).
Proof.
  split.
  - eexists. split; [reflexivity|]. split; [|reflexivity].
    exact (transform_data_parsed_date strptime_fixture odd_record fixture_hash
             fixture_now _ eq_refl).
  - eexists. split; [reflexivity|].
    exact (transform_data_parsed_date strptime_fixture sample_api_response
             fixture_hash fixture_now _ eq_refl).
Defined.

Lemma transform_data_score_of_record_witness :
  exists r c,
    transform_data strptime_fixture (PDict odd_record) fixture_hash fixture_now
    = Ok r
    /\ dict_get "data_completeness" r = Some (PFloat c)
    /\ (c == 2 # 5)%Q.
Proof.
  destruct (transform_data_score_of_record strptime_fixture odd_record
              fixture_hash fixture_now _ eq_refl) as (c & Hc & Heq).
  eexists. exists c. split; [reflexivity|]. split; [exact Hc|].
  rewrite Heq. reflexivity.
Defined.

(** The run of the integration test: two identifiers, three requests, two
    store writes, one sleep between the samples, two successes. *)
Lemma run_etl_pipeline_all_succeed_witness :
  let run := run_etl_pipeline time_sleep_fixture strptime_fixture
               http_two_samples (store_returns inserted) utcnow_fixed
               test_connector (Some 2) initial in
  fst run = Ok tt
  /\ gets (snd run) = 3%nat /\ writes (snd run) = 2%nat
  /\ sleeps_in (trace (snd run)) = [1 # 10]%Q
  /\ In (EvSummary 2 2 0) (trace (snd run)).
Proof.
  intros run. unfold run.
  destruct (run_etl_pipeline_all_succeed time_sleep_fixture strptime_fixture
              http_two_samples (store_returns inserted) utcnow_fixed
              test_connector)
    with (limit := 2) (s := initial) (lines := ["hash1"; "hash2"])
    as (evs & Hrun & Hr & Hw & Hs).
  - simpl. lia.
  - reflexivity.
  - intros n f d. exists inserted. reflexivity.
  - lia.
  - discriminate.
  - exists (mkResponse 200 false (Some "text/plain") (Raise ValueError)
                       two_lines).
    split; [reflexivity|]. split; [simpl; lia|]. split; reflexivity.
  - intros n url q Hn. destruct n as [|n]; [simpl in Hn; lia|].
    exists sample_api_response.
    split; [|split; [discriminate|split; reflexivity]].
    exists success_response.
    split; [reflexivity|]. split; [simpl; lia|]. split; reflexivity.
  - rewrite Hrun. cbn [fst snd gets writes trace].
    split; [reflexivity|]. split; [reflexivity|]. split; [reflexivity|].
    split.
    + cbn [initial trace app]. rewrite sleeps_in_app, Hs. reflexivity.
    + cbn [initial trace app]. apply in_or_app. right. left. reflexivity.
Defined.

(** ** Runs that cannot reach the provider *)

Lemma failure_trace_writes (self : connector) (url : string)
    (params : list (string * string)) (k a : nat) :
  writes_in (failure_trace self url params a k) = 0%nat.
Proof.
  revert a; induction k as [|k IH]; intros a; [reflexivity|].
  destruct k as [|k]; [reflexivity|].
  cbn [failure_trace writes_in]. apply (IH (S a)).
Qed.

Section UnreachableProvider.

Variable time_sleep : Q -> sleep_outcome.
Variable strptime : string -> option datetime.
Variable http_get : nat -> string -> list (string * string) -> get_outcome.
Variable replace_one : nat -> pydict -> pydict -> replace_outcome.
Variable utcnow : nat -> datetime.
Variable self : connector.

Lemma run_etl_pipeline_no_data (sample_limit : option Z) (s s' : state)
    (response : pyval) :
  _make_api_request time_sleep http_get self "getlist" [] s = (Ok response, s')
      ->
  truthy response = false ->
  run_etl_pipeline time_sleep strptime http_get replace_one utcnow self
      sample_limit s
  = (Ok tt,
     mkState (gets s') (writes s') (ticks s') (trace s' ++ [EvAbort; EvClose])).
Proof.
  intros Hreq Hf.
  unfold run_etl_pipeline, try_finally, try_except, bind, extract_sample_list.
  unfold bind. rewrite Hreq. unfold lift. rewrite Hf. simpl.
  unfold emit. simpl. rewrite <- app_assoc. reflexivity.
Qed.

(** X22. When every attempt of the list request fails, the budget is at
    most 1025 attempts and [time.sleep] returns for each of the back-off
    delays [rate_limit_delay * 2 ^ attempt], the run ends without raising
    after exactly [max_retries] requests: it reports the abort and closes
    the store connection, having asked for no details and written
    nothing. *)
Theorem run_etl_pipeline_provider_unreachable :
  forall (sample_limit : option Z) (s : state),
    (forall n url q, failing (http_get n url q) = true) ->
    let n := Z.to_nat (max_retries self) in
    let delay := fun attempt : nat =>
      (rate_limit_delay self * inject_Z (2 ^ Z.of_nat attempt))%Q in
    (n <= 1025)%nat ->
    (forall attempt, (attempt < n - 1)%nat ->
                     time_sleep (delay attempt) = SleepReturns) ->
    let evs := failure_trace self (request_url self)
                 (request_query self "getlist" []) 0 n in
    run_etl_pipeline time_sleep strptime http_get replace_one utcnow self
                     sample_limit s
    = (Ok tt, after_requests s n (evs ++ [EvAbort; EvClose]))
    /\ requests_in evs = n
    /\ sleeps_in evs = map delay (seq 0 (n - 1))
    /\ writes_in evs = 0%nat.
Proof.
  intros sample_limit s Hf n delay Hmax Hsleep evs.
  split; [|split; [apply failure_trace_requests
                  |split; [unfold evs; rewrite failure_trace_sleeps; reflexivity
                          |apply failure_trace_writes]]].
  rewrite (run_etl_pipeline_no_data sample_limit s
             (after_requests s n
                (failure_trace self (request_url self)
                               (request_query self "getlist" []) 0 n))
             PNone).
  - unfold after_requests. simpl. rewrite <- app_assoc. reflexivity.
  - unfold _make_api_request, range.
    apply attempts_all_failing;
      [intros k; apply Hf|reflexivity|exact Hmax|].
    intros j Hj. apply Hsleep. fold n in Hj. lia.
  - reflexivity.
Qed.

(** X23. With a retry budget of zero or less a run does nothing: no
    request, no store write, only the abort and the closing of the store
    connection. *)
Theorem run_etl_pipeline_without_budget :
  forall (sample_limit : option Z) (s : state),
    max_retries self <= 0 ->
    run_etl_pipeline time_sleep strptime http_get replace_one utcnow self
        sample_limit s
    = (Ok tt,
       mkState (gets s) (writes s) (ticks s) (trace s ++ [EvAbort; EvClose])).
Proof.
  intros sample_limit s H.
  apply (run_etl_pipeline_no_data sample_limit s s PNone); [|reflexivity].
  unfold _make_api_request, range.
  replace (Z.to_nat (max_retries self)) with 0%nat by lia. reflexivity.
Qed.

End UnreachableProvider.

(** The default configuration against a provider that cannot be reached:
    three requests with sleeps of 1 s and 2 s between them, the abort. *)
Lemma run_etl_pipeline_provider_unreachable_witness :
  run_etl_pipeline time_sleep_fixture strptime_rejects http_network_error
                   store_raises utcnow_fixed default_connector None initial
  = (Ok tt,
     mkState 3 0 0
       [EvRequest "https://malshare.com/api.php"
                  [("api_key", "test_api_key_123"); ("action", "getlist")];
        EvSleep (1 # 1);
        EvRequest "https://malshare.com/api.php"
                  [("api_key", "test_api_key_123"); ("action", "getlist")];
        EvSleep (2 # 1);
        EvRequest "https://malshare.com/api.php"
                  [("api_key", "test_api_key_123"); ("action", "getlist")];
        EvAbort; EvClose]).
Proof.
  refine (proj1 (run_etl_pipeline_provider_unreachable
                   time_sleep_fixture strptime_rejects http_network_error
                   store_raises utcnow_fixed default_connector None initial
                   (fun _ _ _ => eq_refl) _ _)).
  - simpl. lia.
  - intros [|[|attempt]] Ha; [reflexivity|reflexivity|simpl in Ha; lia].
Defined.

Lemma run_etl_pipeline_without_budget_witness :
  run_etl_pipeline time_sleep_fixture strptime_fixture http_two_samples
                   (store_returns inserted) utcnow_fixed no_retry_connector
                   (Some 10) initial
  = (Ok tt, mkState 0 0 0 [EvAbort; EvClose]).
Proof.
  apply (run_etl_pipeline_without_budget time_sleep_fixture
           strptime_fixture http_two_samples (store_returns inserted)
           utcnow_fixed no_retry_connector (Some 10) initial).
  simpl. lia.
Defined.

(** ** [setup.py]: the requirements *)

Lemma filter_map_fixed (p : string -> bool) (l : list string) :
  Forall (fun x => PyStr.strip x = x /\ p x = true) l ->
  filter p (map PyStr.strip l) = l.
Proof.
  induction 1 as [|x l [Hs Hp] _ IH]; [reflexivity|].
  simpl. rewrite Hs, Hp, IH. reflexivity.
Qed.

(** X24. The requirements read from a file are exactly the trimmed lines
    that are neither empty nor, once trimmed, comments; each is free of
    surrounding whitespace; and parsing the result again changes
    nothing. *)
Theorem parse_requirements_entries :
  forall lines : list string,
    (forall x,
        In x (parse_requirements lines) <->
        exists line, In line lines /\ x = PyStr.strip line
                     /\ PyStr.nonempty x = true
                     /\ PyStr.startswith x "#" = false)
    /\ Forall (fun x => PyStr.strip x = x) (parse_requirements lines)
    /\ parse_requirements (parse_requirements lines) = parse_requirements lines.
Proof.
  intros lines.
  assert (Hin : forall x,
             In x (parse_requirements lines) <->
             exists line, In line lines /\ x = PyStr.strip line
                          /\ PyStr.nonempty x = true
                          /\ PyStr.startswith x "#" = false).
  { intros x. unfold parse_requirements.
    rewrite filter_In, in_map_iff, andb_true_iff, negb_true_iff.
    split.
    - intros [(line & Hs & Hl) [Hn Hc]]. exists line. auto.
    - intros (line & Hl & Hs & Hn & Hc). split; [exists line|]; auto. }
  assert (Hall : Forall (fun x => PyStr.strip x = x
                                  /\ PyStr.nonempty x
                                     && negb (PyStr.startswith x "#") = true)
                        (parse_requirements lines)).
  { apply Forall_forall. intros x Hx. apply Hin in Hx.
    destruct Hx as (line & _ & -> & Hn & Hc).
    split; [apply strip_idem|]. rewrite Hn, Hc. reflexivity. }
  split; [exact Hin|]. split.
  - eapply Forall_impl; [|exact Hall]. intros x [Hx _]. exact Hx.
  - unfold parse_requirements at 1. apply filter_map_fixed. exact Hall.
Qed.

(** ** The constructor *)

Section ConstructorProperties.

Variable getenv : string -> option string.
Variable py_float : string -> option Q.
Variable store : mongo.

Lemma py_int_raises (s : string) (e : exn) :
  py_int s = Raise e -> e = ValueError.
Proof.
  unfold py_int. cbv zeta.
  match goal with
  | |- match ?p with Some _ => _ | None => _ end = _ -> _ => destruct p
  end; [destruct (_ <? _)%nat|]; intros H; inversion H; reflexivity.
Qed.

(** X25. Without an API key in the environment (unset, or empty) the
    constructor raises [ValueError] before any call of the store,
    whatever the rest of the environment holds. *)
Theorem init_requires_api_key :
  getenv "MALSHARE_API_KEY" = None
  \/ getenv "MALSHARE_API_KEY" = Some EmptyString ->
  __init__ getenv py_float store = (Raise ValueError, []).
Proof.
  intros Hkey. unfold __init__.
  destruct (py_float _); [|reflexivity].
  destruct (py_int (getenv_default getenv "MAX_RETRIES" "3")) as [n|e] eqn:E1;
    [|rewrite (py_int_raises _ _ E1); reflexivity].
  destruct (py_int (getenv_default getenv "REQUEST_TIMEOUT" "30"))
    as [t|e] eqn:E2;
    [|rewrite (py_int_raises _ _ E2); reflexivity].
  destruct Hkey as [-> | ->]; reflexivity.
Qed.


End ConstructorProperties.

Lemma init_requires_api_key_witness :
  __init__ env_without_key float_fixture mongo_up = (Raise ValueError, []).
Proof.
  exact (init_requires_api_key env_without_key float_fixture mongo_up
           (or_introl eq_refl)).
Defined.


(** ** Collection statistics *)

